(** * petastorm.workers_pool: the thread pool and its ventilator

    A shallow embedding of [petastorm/workers_pool/thread_pool.py] and
    [petastorm/workers_pool/ventilator.py].

    Every method is a function on the state of the objects it touches.
    Python exceptions are values of [PyExc]; a call either returns, raises,
    or is still waiting on another thread when its fuel runs out
    ([Outcome]).  State written before an exception is raised is kept, as
    in Python.  The threads of the pool (workers, the round-robin consumer,
    the ventilation thread) are modelled by their bodies: one loop iteration
    is one atomic transition of the shared state, and a schedule is a
    sequence of such transitions. *)

From Stdlib Require Import ZArith Lia Bool String.
From stdpp Require Import base list.

Local Open Scope nat_scope.

(** ** Python values, exceptions and outcomes *)

(** The exception classes the two modules raise or catch.  [UserError]
    stands for any other exception class of the worker implementation. *)
Inductive PyExc : Type :=
  | RuntimeError
  | AttributeError
  | TypeError
  | IndexError
  | ZeroDivisionError
  | ValueError
  | AssertionError
  | NotImplementedError
  | EmptyResultError
  | QueueEmpty
  | QueueFull
  | WorkerTerminationRequested
  | UserError (tag : Z).

(** A work item is the keyword mapping a worker's [process] is called with. *)
Definition WorkItem : Type := list (string * Z).

(** What travels through the results queues: data published by a worker,
    the [VentilatedItemProcessedMessage] marker, or an exception object. *)
Inductive Payload : Type :=
  | Data (v : Z)
  | VentilatedItemProcessedMessage
  | ExcValue (e : PyExc).

(** [isinstance(result, Exception)] *)
Definition is_exception (x : Payload) : option PyExc :=
  match x with ExcValue e => Some e | _ => None end.

Inductive Outcome (A : Type) : Type :=
  | Returns (a : A)
  | Raises (e : PyExc)
  | Pending.
Arguments Returns {A} a.
Arguments Raises {A} e.
Arguments Pending {A}.

(** ** A state monad with exceptions *)

Definition M (S A : Type) : Type := S -> Outcome A * S.

Definition ret {S A} (a : A) : M S A := fun s => (Returns a, s).
Definition raise {S A} (e : PyExc) : M S A := fun s => (Raises e, s).
Definition pending {S A} : M S A := fun s => (Pending, s).
Definition bind {S A B} (c : M S A) (k : A -> M S B) : M S B :=
  fun s =>
    match c s with
    | (Returns a, s') => k a s'
    | (Raises e, s') => (Raises e, s')
    | (Pending, s') => (Pending, s')
    end.
Definition gets {S A} (f : S -> A) : M S A := fun s => (Returns (f s), s).
Definition modify {S} (f : S -> S) : M S unit := fun s => (Returns tt, f s).

(** [try: body except ...: handler]; [handler e = None] when no clause
    matches [e], which then propagates. *)
Definition try_except {S A} (body : M S A) (handler : PyExc -> option (M S A))
  : M S A :=
  fun s =>
    match body s with
    | (Raises e, s') =>
        match handler e with
        | Some h => h s'
        | None => (Raises e, s')
        end
    | r => r
    end.

Declare Scope py_scope.
Delimit Scope py_scope with py.
Notation "x <- c ;; k" := (bind c (fun x => k))
  (at level 100, c at next level, right associativity) : py_scope.
Notation "c ;;; k" := (bind c (fun _ => k))
  (at level 100, right associativity) : py_scope.
Local Open Scope py_scope.

(** [lst[i]] on a Python list: [IndexError] out of range. *)
Definition index {S A} (l : list A) (i : nat) : M S A :=
  match l !! i with
  | Some x => ret x
  | None => raise IndexError
  end.

(** An attribute that is [None] or was never assigned. *)
Definition attr {S A} (o : option A) (e : PyExc) : M S A :=
  match o with
  | Some x => ret x
  | None => raise e
  end.

(** ** [queue.Queue] *)

Module Queue.
(** [maxsize = 0] is an unbounded queue; [queue] is the underlying deque,
    oldest element first. *)
Record t (A : Type) : Type := Build { maxsize : nat; queue : list A }.
Arguments Build {A} maxsize queue.
Arguments maxsize {A} _.
Arguments queue {A} _.

Definition new {A} (maxsize : nat) : t A := Build maxsize [].
Definition qsize {A} (q : t A) : nat := length (queue q).
Definition empty {A} (q : t A) : bool :=
  match queue q with [] => true | _ => false end.
Definition full {A} (q : t A) : bool :=
  (0 <? maxsize q) && (maxsize q <=? qsize q).

(** [put(item, block=False)], and [put(item, timeout=t)] when no other
    thread takes an element during the wait: [None] is [queue.Full]. *)
Definition put_nowait {A} (x : A) (q : t A) : option (t A) :=
  if full q then None else Some (Build (maxsize q) (queue q ++ [x])).

(** [get(block=False)], and [get(timeout=t)] when no other thread puts an
    element during the wait: [None] is [queue.Empty]. *)
Definition get_nowait {A} (q : t A) : option (A * t A) :=
  match queue q with
  | [] => None
  | x :: rest => Some (x, Build (maxsize q) rest)
  end.
End Queue.

(** ** Threads *)

(** A started [threading.Thread]: alive until its body returns. *)
Inductive ThreadState : Type := Alive | Terminated.

Definition is_alive (t : ThreadState) : bool :=
  match t with Alive => true | Terminated => false end.

(** ** ventilator.py: [ConcurrentVentilator] *)

Module ConcurrentVentilator.

(** The fields [__init__] assigns.  [_ventilate_fn] is passed to the
    methods that call it; [_rng_draws] counts the permutations drawn so
    far, which is the state of the random generators. *)
Record t : Type := Build {
  _items_to_ventilate : list WorkItem;
  _iterations_remaining : option Z;
  _randomize_item_order : bool;
  _random_seed : option Z;
  _rng_draws : nat;
  _iterations : option Z;
  _ventilation_thread : option ThreadState;
  _stop_requested : bool
}.

Definition set_items (l : list WorkItem) (v : t) : t :=
  Build l (_iterations_remaining v) (_randomize_item_order v)
    (_random_seed v) (_rng_draws v) (_iterations v) (_ventilation_thread v)
    (_stop_requested v).
Definition set_iterations_remaining (r : option Z) (v : t) : t :=
  Build (_items_to_ventilate v) r (_randomize_item_order v)
    (_random_seed v) (_rng_draws v) (_iterations v) (_ventilation_thread v)
    (_stop_requested v).
Definition set_rng_draws (n : nat) (v : t) : t :=
  Build (_items_to_ventilate v) (_iterations_remaining v)
    (_randomize_item_order v) (_random_seed v) n (_iterations v)
    (_ventilation_thread v) (_stop_requested v).
Definition set_ventilation_thread (th : option ThreadState) (v : t) : t :=
  Build (_items_to_ventilate v) (_iterations_remaining v)
    (_randomize_item_order v) (_random_seed v) (_rng_draws v)
    (_iterations v) th (_stop_requested v).
Definition set_stop_requested (b : bool) (v : t) : t :=
  Build (_items_to_ventilate v) (_iterations_remaining v)
    (_randomize_item_order v) (_random_seed v) (_rng_draws v)
    (_iterations v) (_ventilation_thread v) b.

(** [__init__(workers_pool, items_to_ventilate, iterations,
    randomize_item_order, random_seed)]; [iterations = None] asks for
    ventilation without end. *)
Definition __init__ (items_to_ventilate : list WorkItem)
    (iterations : option Z) (randomize_item_order : bool)
    (random_seed : option Z) : Outcome t :=
  match iterations with
  | Some k =>
      if (k <? 1)%Z then Raises ValueError
      else Returns (Build items_to_ventilate (Some k) randomize_item_order
                      random_seed 0 iterations None false)
  | None =>
      Returns (Build items_to_ventilate (Some 100000%Z) randomize_item_order
                 random_seed 0 iterations None false)
  end.

(** [start()]: a new ventilation thread, whose body is [_ventilate]. *)
Definition start (v : t) : t := set_ventilation_thread (Some Alive) v.

(** [processed_item()] *)
Definition processed_item (v : t) : t := v.

(** [completed()] *)
Definition completed (v : t) : Outcome bool :=
  let remaining_is (z : Z) :=
    match _iterations_remaining v with
    | Some r => (r =? z)%Z
    | None => false
    end in
  let assertion :=
    match _iterations_remaining v with
    | Some r => (0 <=? r)%Z
    | None => true
    end in
  if assertion then
    Returns (_stop_requested v || remaining_is 0%Z
             || match _items_to_ventilate v with [] => true | _ => false end
             || remaining_is 0%Z)
  else Raises AssertionError.

Section WithPool.
(** The state of the pool the ventilator feeds, and the pool's
    [ventilate], which [__init__] stores in [_ventilate_fn]. *)
Context {S : Type}.
Variable _ventilate_fn : list WorkItem -> M S unit.
(** [rng.permutation]: the result of the n-th draw, for the seeded
    generator ([Some seed]) or the process-wide one ([None]). *)
Variable permutation : option Z -> nat -> list WorkItem -> list WorkItem.

(** One pass of the [for] loop of [_ventilate]. *)
Definition ventilate_once (v : t) (s : S) : Outcome unit * (t * S) :=
  let v1 :=
    if _randomize_item_order v then
      let generator :=
        match _random_seed v with
        | Some seed => if (seed =? 0)%Z then None else Some seed
        | None => None
        end in
      set_rng_draws (Datatypes.S (_rng_draws v))
        (set_items (permutation generator (_rng_draws v)
                      (_items_to_ventilate v)) v)
    else v in
  match _ventilate_fn (_items_to_ventilate v1) s with
  | (o, s') => (o, (v1, s'))
  end.

(** [for i in range(n): ...]; the range is fixed when the loop starts. *)
Fixpoint ventilate_iterations (n : nat) (v : t) (s : S)
  : Outcome unit * (t * S) :=
  match n with
  | 0 => (Returns tt, (v, s))
  | Datatypes.S n' =>
      match ventilate_once v s with
      | (Returns _, (v', s')) => ventilate_iterations n' v' s'
      | r => r
      end
  end.

(** [_ventilate()], the body of the ventilation thread. *)
Definition _ventilate (v : t) (s : S) : Outcome unit * (t * S) :=
  match _iterations_remaining v with
  | Some k => ventilate_iterations (Z.to_nat k) v s
  | None => (Raises TypeError, (v, s))
  end.

(** The ventilation thread runs to the end of its body.  An exception
    that escapes the body ends the thread and goes no further. *)
Definition run_ventilation_thread (v : t) (s : S) : Outcome unit * (t * S) :=
  match _ventilation_thread v with
  | Some Alive =>
      match _ventilate v s with
      | (Pending, r) => (Pending, r)
      | (_, (v', s')) =>
          (Returns tt, (set_ventilation_thread (Some Terminated) v', s'))
      end
  | _ => (Returns tt, (v, s))
  end.

(** [stop()]: joining the thread waits for the end of its body. *)
Definition stop (v : t) (s : S) : Outcome unit * (t * S) :=
  let v1 := set_stop_requested true v in
  match _ventilation_thread v1 with
  | Some _ =>
      match run_ventilation_thread v1 s with
      | (Returns _, (v2, s')) =>
          (Returns tt, (set_ventilation_thread None v2, s'))
      | r => r
      end
  | None => (Returns tt, (v1, s))
  end.

(** [reset()] *)
Definition reset (v : t) : Outcome t :=
  match completed v with
  | Returns true =>
      Returns (start (set_iterations_remaining (_iterations v) v))
  | Returns false => Raises NotImplementedError
  | Raises e => Raises e
  | Pending => Pending
  end.
End WithPool.
End ConcurrentVentilator.

(** ** thread_pool.py: [WorkerThread] and [ThreadPool] *)

(** A worker thread of the pool; it reads the queues of its worker id. *)
Record WorkerThread : Type := {
  worker_id : nat;
  thread_state : ThreadState
}.

Inductive LoopCtl : Type := Break | Continue.

Module ThreadPool.

(** The attributes of a pool.  [_results_queues] and
    [_shared_results_queue] are assigned by [start] only: [None] is an
    attribute that does not exist yet.  [workers_count] is a count. *)
Record t : Type := Build {
  _workers : list WorkerThread;
  _ventilator_queues : option (list (Queue.t WorkItem));
  _results_queues : option (list (Queue.t Payload));
  _shared_results_queue : option (Queue.t Payload);
  workers_count : nat;
  _results_queue_size : Z;
  _stop_event : bool;
  _profiling_enabled : bool;
  _shuffle_rows : bool;
  _seed : option Z;
  _ventilated_items : nat;
  _ventilated_items_processed : nat;
  _ventilator : option ConcurrentVentilator.t;
  _round_robin_thread : option ThreadState;
  _worker_status : list bool
}.

Definition set_workers (x : list WorkerThread) (p : t) : t :=
  Build x (_ventilator_queues p) (_results_queues p)
    (_shared_results_queue p) (workers_count p) (_results_queue_size p)
    (_stop_event p) (_profiling_enabled p) (_shuffle_rows p) (_seed p)
    (_ventilated_items p) (_ventilated_items_processed p) (_ventilator p)
    (_round_robin_thread p) (_worker_status p).
Definition set_ventilator_queues (x : option (list (Queue.t WorkItem)))
    (p : t) : t :=
  Build (_workers p) x (_results_queues p)
    (_shared_results_queue p) (workers_count p) (_results_queue_size p)
    (_stop_event p) (_profiling_enabled p) (_shuffle_rows p) (_seed p)
    (_ventilated_items p) (_ventilated_items_processed p) (_ventilator p)
    (_round_robin_thread p) (_worker_status p).
Definition set_results_queues (x : option (list (Queue.t Payload)))
    (p : t) : t :=
  Build (_workers p) (_ventilator_queues p) x
    (_shared_results_queue p) (workers_count p) (_results_queue_size p)
    (_stop_event p) (_profiling_enabled p) (_shuffle_rows p) (_seed p)
    (_ventilated_items p) (_ventilated_items_processed p) (_ventilator p)
    (_round_robin_thread p) (_worker_status p).
Definition set_shared_results_queue (x : option (Queue.t Payload))
    (p : t) : t :=
  Build (_workers p) (_ventilator_queues p) (_results_queues p)
    x (workers_count p) (_results_queue_size p)
    (_stop_event p) (_profiling_enabled p) (_shuffle_rows p) (_seed p)
    (_ventilated_items p) (_ventilated_items_processed p) (_ventilator p)
    (_round_robin_thread p) (_worker_status p).
Definition set_results_queue_size (x : Z) (p : t) : t :=
  Build (_workers p) (_ventilator_queues p) (_results_queues p)
    (_shared_results_queue p) (workers_count p) x
    (_stop_event p) (_profiling_enabled p) (_shuffle_rows p) (_seed p)
    (_ventilated_items p) (_ventilated_items_processed p) (_ventilator p)
    (_round_robin_thread p) (_worker_status p).
Definition set_stop_event (x : bool) (p : t) : t :=
  Build (_workers p) (_ventilator_queues p) (_results_queues p)
    (_shared_results_queue p) (workers_count p) (_results_queue_size p)
    x (_profiling_enabled p) (_shuffle_rows p) (_seed p)
    (_ventilated_items p) (_ventilated_items_processed p) (_ventilator p)
    (_round_robin_thread p) (_worker_status p).
Definition set_ventilated_items (x : nat) (p : t) : t :=
  Build (_workers p) (_ventilator_queues p) (_results_queues p)
    (_shared_results_queue p) (workers_count p) (_results_queue_size p)
    (_stop_event p) (_profiling_enabled p) (_shuffle_rows p) (_seed p)
    x (_ventilated_items_processed p) (_ventilator p)
    (_round_robin_thread p) (_worker_status p).
Definition set_ventilator (x : option ConcurrentVentilator.t) (p : t) : t :=
  Build (_workers p) (_ventilator_queues p) (_results_queues p)
    (_shared_results_queue p) (workers_count p) (_results_queue_size p)
    (_stop_event p) (_profiling_enabled p) (_shuffle_rows p) (_seed p)
    (_ventilated_items p) (_ventilated_items_processed p) x
    (_round_robin_thread p) (_worker_status p).
Definition set_round_robin_thread (x : option ThreadState) (p : t) : t :=
  Build (_workers p) (_ventilator_queues p) (_results_queues p)
    (_shared_results_queue p) (workers_count p) (_results_queue_size p)
    (_stop_event p) (_profiling_enabled p) (_shuffle_rows p) (_seed p)
    (_ventilated_items p) (_ventilated_items_processed p) (_ventilator p)
    x (_worker_status p).
Definition set_worker_status (x : list bool) (p : t) : t :=
  Build (_workers p) (_ventilator_queues p) (_results_queues p)
    (_shared_results_queue p) (workers_count p) (_results_queue_size p)
    (_stop_event p) (_profiling_enabled p) (_shuffle_rows p) (_seed p)
    (_ventilated_items p) (_ventilated_items_processed p) (_ventilator p)
    (_round_robin_thread p) x.

(** [__init__(workers_count, results_queue_size=50,
    profiling_enabled=False, shuffle_rows=False, seed=None)] *)
Definition __init__ (workers_count : nat) (results_queue_size : Z)
    (profiling_enabled shuffle_rows : bool) (seed : option Z) : t :=
  Build [] None None None workers_count results_queue_size false
    profiling_enabled shuffle_rows seed 0 0 None None
    (replicate workers_count false).

(** *** Access to the queues of one worker *)

Definition ventilator_queues : M t (list (Queue.t WorkItem)) :=
  o <- gets _ventilator_queues;; attr o TypeError.
Definition results_queues : M t (list (Queue.t Payload)) :=
  o <- gets _results_queues;; attr o AttributeError.
Definition shared_results_queue : M t (Queue.t Payload) :=
  o <- gets _shared_results_queue;; attr o AttributeError.

Definition ventilator_queue (i : nat) : M t (Queue.t WorkItem) :=
  l <- ventilator_queues;; index l i.
Definition results_queue (i : nat) : M t (Queue.t Payload) :=
  l <- results_queues;; index l i.

(** The queue objects are mutated in place. *)
Definition store_ventilator_queue (i : nat) (q : Queue.t WorkItem) : M t unit :=
  modify (fun p =>
    set_ventilator_queues (insert i q <$> _ventilator_queues p) p).
Definition store_results_queue (i : nat) (q : Queue.t Payload) : M t unit :=
  modify (fun p => set_results_queues (insert i q <$> _results_queues p) p).
Definition store_shared_results_queue (q : Queue.t Payload) : M t unit :=
  modify (set_shared_results_queue (Some q)).

(** *** [start] *)

(** [start(worker_class, worker_args, ventilator)].  The worker
    implementations are external; a worker thread is kept by its worker id,
    and reads the queues the pool holds for that id.  A ventilator object is
    true as a condition, so one that is passed is attached and started. *)
Definition start (ventilator : option ConcurrentVentilator.t) : M t unit :=
  stopped <- gets _stop_event;;
  if stopped : bool then raise RuntimeError
  else
    n <- gets workers_count;;
    modify (set_ventilator_queues (Some (replicate n (Queue.new 0))));;;
    modify (set_results_queues (Some (replicate n (Queue.new 5))));;;
    modify (set_shared_results_queue (Some (Queue.new 25)));;;
    modify (set_workers
              (map (fun i => Build_WorkerThread i Alive) (seq 0 n)));;;
    modify (set_round_robin_thread (Some Alive));;;
    match ventilator with
    | Some v =>
        modify (set_ventilator (Some (ConcurrentVentilator.start v)))
    | None => ret tt
    end.

(** *** Worker status *)

Definition store_worker_status (i : nat) (b : bool) : M t unit :=
  st <- gets _worker_status;;
  if i <? length st then modify (set_worker_status (<[i:=b]> st))
  else raise IndexError.

Definition _set_worker_busy (i : nat) : M t unit := store_worker_status i true.
Definition _set_worker_idle (i : nat) : M t unit := store_worker_status i false.
Definition _is_worker_idle (i : nat) : M t bool :=
  st <- gets _worker_status;; b <- index st i;; ret (negb b).

(** *** [ventilate] *)

(** The [for i, item in enumerate(items_to_ventilate)] loop, from
    position [i]. *)
Fixpoint ventilate_loop (i : nat) (items : list WorkItem) : M t unit :=
  match items with
  | [] => ret tt
  | item :: rest =>
      n <- gets workers_count;;
      (if n =? 0 then raise ZeroDivisionError else ret tt);;;
      let worker_id := i mod n in
      q <- ventilator_queue worker_id;;
      match Queue.put_nowait item q with
      | Some q' => store_ventilator_queue worker_id q'
      | None => pending
      end;;;
      modify (fun p => set_ventilated_items (_ventilated_items p + 1) p);;;
      ventilate_loop (i + 1) rest
  end.

(** The closing [print] reads the queues of workers 0, 1, 2 and 3. *)
Definition ventilate (items_to_ventilate : list WorkItem) : M t unit :=
  ventilate_loop 0 items_to_ventilate;;;
  _ <- ventilator_queue 0;;
  _ <- ventilator_queue 1;;
  _ <- ventilator_queue 2;;
  _ <- ventilator_queue 3;;
  ret tt.

(** *** Completion *)

(** [all_workers_done()], over the worker ids still to visit.  The
    [print] of each pass reads the three conditions before the test. *)
Fixpoint all_workers_done_from (ids : list nat) : M t bool :=
  match ids with
  | [] => ret true
  | worker_id :: rest =>
      rq <- results_queue worker_id;;
      idle <- _is_worker_idle worker_id;;
      vq <- ventilator_queue worker_id;;
      if negb (Queue.empty rq) || negb idle || negb (Queue.empty vq)
      then ret false
      else all_workers_done_from rest
  end.

Definition all_workers_done : M t bool :=
  n <- gets workers_count;; all_workers_done_from (seq 0 n).

Definition lift_outcome {A} (o : Outcome A) : M t A := fun p => (o, p).

(** [completed()].  Its first statement is a [print] whose arguments
    include [self._ventilator.completed()]. *)
Definition completed : M t bool :=
  _ <- all_workers_done;;
  _ <- shared_results_queue;;
  v <- gets _ventilator;;
  v <- attr v AttributeError;;
  _ <- lift_outcome (ConcurrentVentilator.completed v);;
  done <- all_workers_done;;
  shared_empty <-
    (if done : bool then q <- shared_results_queue;; ret (Queue.empty q)
     else ret false);;
  if shared_empty : bool then
    v <- gets _ventilator;;
    match v with
    | None => ret true
    | Some v =>
        c <- lift_outcome (ConcurrentVentilator.completed v);;
        if c : bool then ret true else ret false
    end
  else ret false.

(** *** [_stop_aware_put] *)

Fixpoint _stop_aware_put (fuel : nat) (data : Payload) (worker_id : nat)
  : M t unit :=
  match fuel with
  | 0 => pending
  | S fuel' =>
      q <- results_queue worker_id;;
      match Queue.put_nowait data q with
      | Some q' => store_results_queue worker_id q'
      | None =>
          stopped <- gets _stop_event;;
          if stopped : bool then raise WorkerTerminationRequested
          else _stop_aware_put fuel' data worker_id
      end
  end.

Section Threads.
(** [rng.permutation] of the attached ventilator. *)
Variable permutation : option Z -> nat -> list WorkItem -> list WorkItem.
(** The external processing capability: [process worker_id item] gives
    the values the call hands to [publish_func], in order, and the
    exception it ends with, if any. *)
Variable process : nat -> WorkItem -> list Payload * option PyExc.
(** Bound on the passes of each [while True] loop. *)
Variable fuel : nat.

(** A method of the attached ventilator, run on the pool. *)
Definition on_ventilator
    (f : ConcurrentVentilator.t -> t ->
         Outcome unit * (ConcurrentVentilator.t * t))
    (v : ConcurrentVentilator.t) : M t unit :=
  fun p =>
    match f v p with
    | (o, (v', p')) => (o, set_ventilator (Some v') p')
    end.

(** The ventilation thread of the attached ventilator runs its body. *)
Definition ventilation_thread : M t unit :=
  v <- gets _ventilator;;
  match v with
  | Some v =>
      on_ventilator
        (ConcurrentVentilator.run_ventilation_thread ventilate permutation) v
  | None => ret tt
  end.

(** *** [stop] *)

(** [_round_robin_thread] is a [threading.Thread], which has no
    attribute [stop]. *)
Definition stop : M t unit :=
  v <- gets _ventilator;;
  match v with
  | Some v =>
      on_ventilator (ConcurrentVentilator.stop ventilate permutation) v
  | None => ret tt
  end;;;
  th <- gets _round_robin_thread;;
  match th with
  | Some _ => raise AttributeError
  | None => ret tt
  end;;;
  modify (set_stop_event true).

(** *** [WorkerThread.run] *)

Fixpoint publish_all (worker_id : nat) (l : list Payload) : M t unit :=
  match l with
  | [] => ret tt
  | data :: rest =>
      _stop_aware_put fuel data worker_id;;; publish_all worker_id rest
  end.

(** [self._results_queue.put(e)]: waits while the queue is full. *)
Definition put_exception (worker_id : nat) (e : PyExc) : M t unit :=
  q <- results_queue worker_id;;
  match Queue.put_nowait (ExcValue e) q with
  | Some q' => store_results_queue worker_id q'
  | None => pending
  end.

(** One pass of the [while True] loop of [run]. *)
Definition run_iteration (worker_id : nat) : M t LoopCtl :=
  stopped <- gets _stop_event;;
  if stopped : bool then ret Break
  else
    try_except
      (q <- ventilator_queue worker_id;;
       match Queue.get_nowait q with
       | None => raise QueueEmpty
       | Some (item, q') =>
           store_ventilator_queue worker_id q';;;
           _set_worker_busy worker_id;;;
           let '(published, raised) := process worker_id item in
           publish_all worker_id published;;;
           match raised with
           | Some e => raise e
           | None => ret tt
           end;;;
           _stop_aware_put fuel VentilatedItemProcessedMessage worker_id;;;
           _set_worker_idle worker_id;;;
           ret Continue
       end)
      (fun e =>
         match e with
         | QueueEmpty => Some (_set_worker_idle worker_id;;; ret Continue)
         | WorkerTerminationRequested => Some (ret Continue)
         | _ => Some (put_exception worker_id e;;; ret Break)
         end).

Fixpoint run_loop (n : nat) (worker_id : nat) : M t unit :=
  match n with
  | 0 => pending
  | S n' =>
      c <- run_iteration worker_id;;
      match c with
      | Break => ret tt
      | Continue => run_loop n' worker_id
      end
  end.

Definition terminate_worker (i : nat) (p : t) : t :=
  set_workers
    (map (fun w =>
            if worker_id w =? i
            then Build_WorkerThread (worker_id w) Terminated
            else w)
         (_workers p)) p.

(** The body of worker thread [worker_id], to its end. *)
Definition run (worker_id : nat) : M t unit :=
  fun p =>
    match run_loop fuel worker_id p with
    | (Pending, p') => (Pending, p')
    | (_, p') => (Returns tt, terminate_worker worker_id p')
    end.

(** *** [join] *)

Fixpoint join_workers (ws : list WorkerThread) : M t unit :=
  match ws with
  | [] => ret tt
  | w :: rest =>
      (if is_alive (thread_state w) then run (worker_id w) else ret tt);;;
      join_workers rest
  end.

(** With profiling on, the statistics of the workers are merged; with
    no worker [stats] is still [None] when it is sorted. *)
Definition join : M t unit :=
  ws <- gets _workers;;
  join_workers ws;;;
  profiling <- gets _profiling_enabled;;
  if profiling : bool then
    ws <- gets _workers;;
    match ws with
    | [] => raise AttributeError
    | _ => ret tt
    end
  else ret tt.

(** *** [get_results] *)

(** Each pass calls [completed()] twice: in the [print] and in the
    test. *)
Fixpoint get_results (n : nat) : M t Payload :=
  match n with
  | 0 => pending
  | S n' =>
      _ <- completed;;
      c <- completed;;
      if c : bool then raise EmptyResultError
      else
        try_except
          (q <- shared_results_queue;;
           match Queue.get_nowait q with
           | None => raise QueueEmpty
           | Some (result, q') =>
               store_shared_results_queue q';;;
               match is_exception result with
               | Some e => stop;;; join;;; raise e
               | None => ret result
               end
           end)
          (fun e =>
             match e with
             | QueueEmpty => Some (get_results n')
             | _ => None
             end)
  end.

(** *** [_round_robin_consumer] *)

Definition use_non_blocking (p : t) : bool :=
  _shuffle_rows p
  && match _seed p with
     | None => true
     | Some s => (s =? 0)%Z
     end.

(** [(current_worker + 1) % self.workers_count] *)
Definition next_worker (current_worker : nat) : M t nat :=
  n <- gets workers_count;;
  if n =? 0 then raise ZeroDivisionError
  else ret ((current_worker + 1) mod n).

(** The [try] block of one pass of the [while] loop: the control
    decision and the new value of [current_worker]. *)
Definition round_robin_try (non_blocking : bool) (current_worker : nat)
  : M t (LoopCtl * nat) :=
  done <- all_workers_done;;
  if done : bool then ret (Break, current_worker)
  else
    rq <- results_queue current_worker;;
    idle <- _is_worker_idle current_worker;;
    vq <- ventilator_queue current_worker;;
    let should_skip := Queue.empty rq && idle && Queue.empty vq in
    if should_skip then
      r <- next_worker current_worker;; ret (Continue, r)
    else
      match Queue.get_nowait rq with
      | None =>
          if non_blocking then
            r <- next_worker current_worker;; ret (Continue, r)
          else raise QueueEmpty
      | Some (item, rq') =>
          store_results_queue current_worker rq';;;
          shared <- shared_results_queue;;
          match Queue.put_nowait item shared with
          | None => raise QueueFull
          | Some shared' =>
              store_shared_results_queue shared';;;
              r <- next_worker current_worker;; ret (Continue, r)
          end
      end.

(** The [except] clauses of the pass. *)
Definition round_robin_except (current_worker : nat) (e : PyExc)
  : option (M t (LoopCtl * nat)) :=
  match e with
  | QueueEmpty =>
      Some (r <- next_worker current_worker;; ret (Continue, r))
  | QueueFull => Some (ret (Continue, current_worker))
  | _ => Some (r <- next_worker current_worker;; ret (Continue, r))
  end.

(** One pass of the [while] loop, after the test of the stop event. *)
Definition round_robin_iteration (non_blocking : bool)
    (current_worker : nat) : M t (LoopCtl * nat) :=
  try_except (round_robin_try non_blocking current_worker)
    (round_robin_except current_worker).

Fixpoint round_robin_loop (n : nat) (non_blocking : bool)
    (current_worker : nat) : M t unit :=
  match n with
  | 0 => pending
  | S n' =>
      stopped <- gets _stop_event;;
      if stopped : bool then ret tt
      else
        r <- round_robin_iteration non_blocking current_worker;;
        match r with
        | (Break, _) => ret tt
        | (Continue, current_worker') =>
            round_robin_loop n' non_blocking current_worker'
        end
  end.

(** The body of the consumer thread, to its end. *)
Definition _round_robin_consumer : M t unit :=
  non_blocking <- gets use_non_blocking;;
  fun p =>
    match round_robin_loop fuel non_blocking 0 p with
    | (Pending, p') => (Pending, p')
    | (_, p') => (Returns tt, set_round_robin_thread (Some Terminated) p')
    end.

(** [results_qsize()] *)
Definition results_qsize : M t nat :=
  q <- shared_results_queue;; ret (Queue.qsize q).

(** The property [diagnostics]: a dict with one key. *)
Definition diagnostics : M t (list (string * nat)) :=
  n <- results_qsize;; ret [("output_queue_size"%string, n)].
End Threads.
End ThreadPool.

Import ThreadPool.

(** ** Schedules

    The caller and the threads of a pool take turns; each turn is one call
    or one loop pass.  [current_worker] is the local variable of the
    consumer thread, which lives as long as that thread. *)

Record System : Type := {
  pool : ThreadPool.t;
  current_worker : nat
}.

Inductive Action : Type :=
  | CallStart (ventilator : option ConcurrentVentilator.t)
  | CallVentilate (items : list WorkItem)
  | VentilationThread
  | WorkerPass (worker_id : nat)
  | WorkerRun (worker_id : nat)
  | ConsumerPass.

Section Schedules.
Variable permutation : option Z -> nat -> list WorkItem -> list WorkItem.
Variable process : nat -> WorkItem -> list Payload * option PyExc.
Variable fuel : nat.

Definition worker_alive (i : nat) (p : ThreadPool.t) : bool :=
  existsb (fun w => (worker_id w =? i) && is_alive (thread_state w))
    (_workers p).

(** One turn.  A thread that has ended takes no turn; a thread whose pass
    leaves its loop, or raises, ends. *)
Definition step (s : System) (a : Action) : System :=
  let p := pool s in
  match a with
  | CallStart v => Build_System (snd (start v p)) 0
  | CallVentilate items =>
      Build_System (snd (ventilate items p)) (current_worker s)
  | VentilationThread =>
      Build_System (snd (ventilation_thread permutation p)) (current_worker s)
  | WorkerPass i =>
      if worker_alive i p then
        match run_iteration process fuel i p with
        | (Returns Continue, p') | (Pending, p') =>
            Build_System p' (current_worker s)
        | (_, p') => Build_System (terminate_worker i p') (current_worker s)
        end
      else s
  | WorkerRun i =>
      if worker_alive i p then
        Build_System (snd (run process fuel i p)) (current_worker s)
      else s
  | ConsumerPass =>
      match _round_robin_thread p with
      | Some Alive =>
          if _stop_event p then
            Build_System (set_round_robin_thread (Some Terminated) p)
              (current_worker s)
          else
            match
              round_robin_iteration (use_non_blocking p) (current_worker s) p
            with
            | (Returns (Continue, r), p') => Build_System p' r
            | (_, p') =>
                Build_System (set_round_robin_thread (Some Terminated) p')
                  (current_worker s)
            end
      | _ => s
      end
  end.

Definition run_schedule (s : System) (l : list Action) : System :=
  fold_left step l s.
End Schedules.

(** ** Inputs used below *)

(** No reshuffling: every ventilator below has
    [randomize_item_order = False]. *)
Definition no_permutation (_ : option Z) (_ : nat) (l : list WorkItem)
  : list WorkItem := l.

(** The item [{'x': x}]. *)
Definition item (x : Z) : WorkItem := [("x"%string, x)].

(** [{'x': 0}, ..., {'x': n-1}] *)
Definition items_upto (n : nat) : list WorkItem :=
  map (fun i => item (Z.of_nat i)) (seq 0 n).

Definition value_of (it : WorkItem) : Z :=
  match it with
  | (_, x) :: _ => x
  | [] => 0%Z
  end.

(** A worker that publishes the value of its item. *)
Definition identity_process (_ : nat) (it : WorkItem)
  : list Payload * option PyExc :=
  ([Data (value_of it)], None).

(** A worker whose processing raises [ValueError] on the item [{'x': bad}]. *)
Definition failing_process (bad : Z) (_ : nat) (it : WorkItem)
  : list Payload * option PyExc :=
  if (value_of it =? bad)%Z then ([], Some ValueError)
  else ([Data (value_of it)], None).

(** [ThreadPool(n)], all other arguments at their defaults. *)
Definition new_pool (n : nat) : ThreadPool.t := __init__ n 50 false false None.

(** [ConcurrentVentilator(pool, items, iterations=k)] for [k >= 1]. *)
Definition new_ventilator (items : list WorkItem) (k : Z)
  : ConcurrentVentilator.t :=
  ConcurrentVentilator.Build items (Some k) false None 0 (Some k) None false.

(** A pool of [n] workers right after [start(worker_class)]. *)
Definition started_pool (n : nat) : ThreadPool.t :=
  snd (start None (new_pool n)).

(** A pool of [n] workers right after [start(worker_class,
    ventilator=v)]. *)
Definition started_pool_with (n : nat) (v : ConcurrentVentilator.t)
  : ThreadPool.t :=
  snd (start (Some v) (new_pool n)).

(** *** A worker exception on its way to the caller

    Four workers, a ventilator with the eight items [{'x': 0}] ...
    [{'x': 7}] and one iteration, and a worker whose processing raises
    [ValueError] on [{'x': 1}].  The ventilation thread ventilates, worker 1
    takes [{'x': 1}], and the consumer thread visits workers 0 and 1. *)
Definition worker_exception_schedule : list Action :=
  [CallStart (Some (new_ventilator (items_upto 8) 1));
   VentilationThread; WorkerRun 1; ConsumerPass; ConsumerPass].

(** The pool at the end of [worker_exception_schedule]: the exception of
    worker 1 is the next element of the shared results queue. *)
Definition worker_exception_pool : ThreadPool.t :=
  {| _workers :=
       [Build_WorkerThread 0 Alive; Build_WorkerThread 1 Terminated;
        Build_WorkerThread 2 Alive; Build_WorkerThread 3 Alive];
     _ventilator_queues :=
       Some [Queue.Build 0 [item 0; item 4]; Queue.Build 0 [item 5];
             Queue.Build 0 [item 2; item 6]; Queue.Build 0 [item 3; item 7]];
     _results_queues := Some (replicate 4 (Queue.Build 5 []));
     _shared_results_queue := Some (Queue.Build 25 [ExcValue ValueError]);
     workers_count := 4;
     _results_queue_size := 50;
     _stop_event := false;
     _profiling_enabled := false;
     _shuffle_rows := false;
     _seed := None;
     _ventilated_items := 8;
     _ventilated_items_processed := 0;
     _ventilator :=
       Some (ConcurrentVentilator.Build (items_upto 8) (Some 1%Z) false None 0
               (Some 1%Z) (Some Terminated) false);
     _round_robin_thread := Some Alive;
     _worker_status := [false; true; false; false] |}.

(** *** A full shared results queue

    Four workers, no ventilator, sixteen items ventilated by the caller,
    workers that publish the value of their item, and a caller that takes
    no result.  Three times over, every worker handles one item and the
    consumer thread makes eight passes; then every worker handles its last
    item and the consumer thread makes one pass. *)
Definition workers_pass : list Action :=
  [WorkerPass 0; WorkerPass 1; WorkerPass 2; WorkerPass 3].

Definition full_shared_queue_schedule : list Action :=
  [CallStart None; CallVentilate (items_upto 16)]
  ++ (workers_pass ++ replicate 8 ConsumerPass)
  ++ (workers_pass ++ replicate 8 ConsumerPass)
  ++ (workers_pass ++ replicate 8 ConsumerPass)
  ++ workers_pass ++ [ConsumerPass].

Definition one_round (first : Z) : list Payload :=
  [Data first; Data (first + 1); Data (first + 2); Data (first + 3);
   VentilatedItemProcessedMessage; VentilatedItemProcessedMessage;
   VentilatedItemProcessedMessage; VentilatedItemProcessedMessage].

(** The pool at the end of [full_shared_queue_schedule]: the shared queue
    holds 25 elements, and the consumer thread is at worker 1, whose queue
    starts with [Data 13]. *)
Definition full_shared_queue_pool : ThreadPool.t :=
  {| _workers :=
       [Build_WorkerThread 0 Alive; Build_WorkerThread 1 Alive;
        Build_WorkerThread 2 Alive; Build_WorkerThread 3 Alive];
     _ventilator_queues := Some (replicate 4 (Queue.Build 0 []));
     _results_queues :=
       Some [Queue.Build 5 [VentilatedItemProcessedMessage];
             Queue.Build 5 [Data 13; VentilatedItemProcessedMessage];
             Queue.Build 5 [Data 14; VentilatedItemProcessedMessage];
             Queue.Build 5 [Data 15; VentilatedItemProcessedMessage]];
     _shared_results_queue :=
       Some (Queue.Build 25
               (one_round 0 ++ one_round 4 ++ one_round 8 ++ [Data 12]));
     workers_count := 4;
     _results_queue_size := 50;
     _stop_event := false;
     _profiling_enabled := false;
     _shuffle_rows := false;
     _seed := None;
     _ventilated_items := 16;
     _ventilated_items_processed := 0;
     _ventilator := None;
     _round_robin_thread := Some Alive;
     _worker_status := [false; false; false; false] |}.

(** ** Properties of a pool, as the documentation words them *)

(** [start] has run: the queues exist, one of each kind per worker. *)
Definition started (p : ThreadPool.t) : bool :=
  match _ventilator_queues p, _results_queues p, _shared_results_queue p with
  | Some vqs, Some rqs, Some _ =>
      (length vqs =? workers_count p) && (length rqs =? workers_count p)
      && (length (_worker_status p) =? workers_count p)
  | _, _, _ => false
  end.

(** Worker [i] is drained: its output queue is empty, it is idle, and its
    input queue is empty. *)
Definition worker_drained (p : ThreadPool.t) (i : nat) : bool :=
  match _results_queues p, _ventilator_queues p with
  | Some rqs, Some vqs =>
      match rqs !! i, _worker_status p !! i, vqs !! i with
      | Some rq, Some busy, Some vq =>
          Queue.empty rq && negb busy && Queue.empty vq
      | _, _, _ => false
      end
  | _, _ => false
  end.

Definition every_worker_drained (p : ThreadPool.t) : bool :=
  forallb (worker_drained p) (seq 0 (workers_count p)).

Definition shared_queue_empty (p : ThreadPool.t) : bool :=
  match _shared_results_queue p with
  | Some q => Queue.empty q
  | None => false
  end.

Definition shared_queue_full (p : ThreadPool.t) : bool :=
  match _shared_results_queue p with
  | Some q => Queue.full q
  | None => false
  end.

(** The output queue of worker [i] holds a result. *)
Definition has_result (p : ThreadPool.t) (i : nat) : bool :=
  match _results_queues p with
  | Some rqs =>
      match rqs !! i with
      | Some q => negb (Queue.empty q)
      | None => false
      end
  | None => false
  end.

(** The items of a ventilated sequence that go to worker [w] of [n], when
    the first item of the sequence is at position [i]: those at the
    positions that are [w] modulo [n]. *)
Fixpoint share_of (n w i : nat) (items : list WorkItem) : list WorkItem :=
  match items with
  | [] => []
  | x :: rest =>
      (if i mod n =? w then [x] else []) ++ share_of n w (i + 1) rest
  end.

(** The contents of the input queue of worker [w]. *)
Definition input_of (p : ThreadPool.t) (w : nat) : list WorkItem :=
  match _ventilator_queues p with
  | Some vqs =>
      match vqs !! w with
      | Some q => Queue.queue q
      | None => []
      end
  | None => []
  end.

(** The contents of the output queue of worker [w]. *)
Definition output_of (p : ThreadPool.t) (w : nat) : list Payload :=
  match _results_queues p with
  | Some rqs =>
      match rqs !! w with
      | Some q => Queue.queue q
      | None => []
      end
  | None => []
  end.

(** The contents of the shared results queue. *)
Definition shared_contents (p : ThreadPool.t) : list Payload :=
  match _shared_results_queue p with
  | Some q => Queue.queue q
  | None => []
  end.

(** Every input queue is unbounded. *)
Definition inputs_unbounded (p : ThreadPool.t) : bool :=
  match _ventilator_queues p with
  | Some vqs => forallb (fun q => Queue.maxsize q =? 0) vqs
  | None => true
  end.

(** ** Calls that only look up the state *)

(** What a failed lookup raises: a missing attribute, [None] where a list
    is expected, an index out of range. *)
Definition lookup_error (e : PyExc) : bool :=
  match e with
  | AttributeError | TypeError | IndexError => true
  | _ => false
  end.

(** [c] leaves the pool as it is, and either returns or raises a lookup
    error. *)
Definition lookup_only {A} (c : M ThreadPool.t A) : Prop :=
  forall p,
    snd (c p) = p
    /\ match fst (c p) with
       | Returns _ => True
       | Raises e => lookup_error e = true
       | Pending => False
       end.

(** The ways the [try] block of a consumer pass at worker [r] can end in
    pool [p]: the loop is left; the pointer advances; the forward of a taken
    item finds the shared queue full; any other exception. *)
Inductive TryEnd (r : nat) (p : ThreadPool.t)
  : Outcome (LoopCtl * nat) -> Prop :=
  | TryBreak : TryEnd r p (Returns (Break, r))
  | TryAdvance : TryEnd r p (Returns (Continue, (r + 1) mod workers_count p))
  | TryFull :
      shared_queue_full p = true -> has_result p r = true ->
      TryEnd r p (Raises QueueFull)
  | TryOther e : e <> QueueFull -> TryEnd r p (Raises e).

(** What a call leaves as it is when it writes neither the consumer
    thread, nor the stop event, nor the worker threads. *)
Definition same_lifecycle (p p' : ThreadPool.t) : Prop :=
  _round_robin_thread p' = _round_robin_thread p
  /\ _stop_event p' = _stop_event p
  /\ _workers p' = _workers p.

Definition keeps_lifecycle {A} (c : M ThreadPool.t A) : Prop :=
  forall p, same_lifecycle p (snd (c p)).

(** A [_ventilate_fn] that records the lists it is called with. *)
Definition log_call (items : list WorkItem) : M (list (list WorkItem)) unit :=
  fun log => (Returns tt, log ++ [items]).

(** [c] does not read [_results_queue_size]: with another value stored, it
    ends the same way, in the same pool but for that value. *)
Definition ignores_size {A} (c : M ThreadPool.t A) : Prop :=
  forall z p,
    c (set_results_queue_size z p)
    = (fst (c p), set_results_queue_size z (snd (c p))).

(** The same for a method of the ventilator run on the pool. *)
Definition ignores_size_on_pool
    (f : ThreadPool.t -> Outcome unit * (ConcurrentVentilator.t * ThreadPool.t))
  : Prop :=
  forall z p,
    f (set_results_queue_size z p)
    = (fst (f p),
       (fst (snd (f p)), set_results_queue_size z (snd (snd (f p))))).

(** *** The consumer thread runs first

    Four workers and a ventilator of eight items and one iteration.  The
    consumer thread makes its first pass before the ventilation thread
    ventilates; then worker 0 handles its first item. *)
Definition early_exit_schedule : list Action :=
  [CallStart (Some (new_ventilator (items_upto 8) 1));
   ConsumerPass; VentilationThread; WorkerPass 0].

(** ** Further properties and inputs *)

(** The queue [q] has room for [k] more elements. *)
Definition room_for {A} (q : Queue.t A) (k : nat) : Prop :=
  Queue.maxsize q = 0 \/ length (Queue.queue q) + k <= Queue.maxsize q.

(** An exception that is neither [queue.Empty] nor
    [WorkerTerminationRequested]: the [except Exception] clause of
    [WorkerThread.run] handles it. *)
Definition unexpected (e : PyExc) : bool :=
  match e with
  | QueueEmpty | WorkerTerminationRequested => false
  | _ => true
  end.

(** A worker thread that has ended. *)
Definition ended (w : WorkerThread) : WorkerThread :=
  Build_WorkerThread (worker_id w) Terminated.

(** The worker [w] after [join] has waited for the live threads of [ws]. *)
Definition joined (ws : list WorkerThread) (w : WorkerThread) : WorkerThread :=
  if existsb (fun u => is_alive (thread_state u)
                       && (worker_id w =? worker_id u)) ws
  then ended w else w.

(** What [rng.permutation] promises: its result is a reordering of its
    argument. *)
Definition reorders
    (permutation : option Z -> nat -> list WorkItem -> list WorkItem) : Prop :=
  forall g n l, Permutation (permutation g n l) l.

(** A generator whose every draw reverses the list. *)
Definition reversal (_ : option Z) (_ : nat) (l : list WorkItem)
  : list WorkItem := rev l.

(** [ConcurrentVentilator(pool, items, iterations=2,
    randomize_item_order=True, random_seed=7)] over eight items. *)
Definition shuffling_ventilator : ConcurrentVentilator.t :=
  ConcurrentVentilator.Build (items_upto 8) (Some 2%Z) true (Some 7%Z) 0
    (Some 2%Z) None false.

(** [ConcurrentVentilator(pool, [], iterations=None)] *)
Definition empty_unbounded_ventilator : ConcurrentVentilator.t :=
  ConcurrentVentilator.Build [] (Some 100000%Z) false None 0 None None false.

(** Four workers, started, with eight items ventilated by the caller. *)
Definition ventilated_pool : ThreadPool.t :=
  snd (ventilate (items_upto 8) (started_pool 4)).

(** Four workers that have each handled one item and published its
    value; the consumer thread has not run. *)
Definition results_ready_schedule : list Action :=
  [CallStart None; CallVentilate (items_upto 4)] ++ workers_pass.

(** The pool at the end of [results_ready_schedule]. *)
Definition results_ready_pool : ThreadPool.t :=
  {| _workers :=
       [Build_WorkerThread 0 Alive; Build_WorkerThread 1 Alive;
        Build_WorkerThread 2 Alive; Build_WorkerThread 3 Alive];
     _ventilator_queues := Some (replicate 4 (Queue.Build 0 []));
     _results_queues :=
       Some [Queue.Build 5 [Data 0; VentilatedItemProcessedMessage];
             Queue.Build 5 [Data 1; VentilatedItemProcessedMessage];
             Queue.Build 5 [Data 2; VentilatedItemProcessedMessage];
             Queue.Build 5 [Data 3; VentilatedItemProcessedMessage]];
     _shared_results_queue := Some (Queue.Build 25 []);
     workers_count := 4;
     _results_queue_size := 50;
     _stop_event := false;
     _profiling_enabled := false;
     _shuffle_rows := false;
     _seed := None;
     _ventilated_items := 4;
     _ventilated_items_processed := 0;
     _ventilator := None;
     _round_robin_thread := Some Alive;
     _worker_status := [false; false; false; false] |}.

(** A started pool with a ventilator attached and two elements in the
    shared results queue. *)
Definition results_waiting_pool : ThreadPool.t :=
  set_shared_results_queue
    (Some (Queue.Build 25 [Data 0; VentilatedItemProcessedMessage]))
    (started_pool_with 4 (new_ventilator (items_upto 8) 1)).

(** A started pool whose workers have filled their results queues. *)
Definition full_outputs_pool : ThreadPool.t :=
  set_results_queues (Some (replicate 4 (Queue.Build 5 (replicate 5 (Data 0)))))
    (started_pool 4).

(** * Proofs *)

(** ** Lookups *)

Lemma lookup_only_ret {A} (a : A) : lookup_only (ret a).
Proof. intros p. split; [reflexivity | exact I]. Qed.

Lemma lookup_only_gets {A} (f : ThreadPool.t -> A) : lookup_only (gets f).
Proof. intros p. split; [reflexivity | exact I]. Qed.

Lemma lookup_only_raise {A} (e : PyExc) :
  lookup_error e = true -> lookup_only (@raise ThreadPool.t A e).
Proof. intros He p. split; [reflexivity | exact He]. Qed.

Lemma lookup_only_bind {A B} (c : M ThreadPool.t A)
    (k : A -> M ThreadPool.t B) :
  lookup_only c -> (forall a, lookup_only (k a)) -> lookup_only (bind c k).
Proof.
  intros Hc Hk p. unfold bind.
  destruct (Hc p) as [Hs Ho].
  destruct (c p) as [[a | e |] p1]; simpl in *; subst p1.
  - apply Hk.
  - split; [reflexivity | exact Ho].
  - contradiction.
Qed.

Lemma lookup_only_index {A} (l : list A) (i : nat) : lookup_only (index l i).
Proof.
  unfold index. destruct (l !! i).
  - apply lookup_only_ret.
  - apply lookup_only_raise. reflexivity.
Qed.

Lemma lookup_only_attr {A} (o : option A) (e : PyExc) :
  lookup_error e = true -> lookup_only (attr o e).
Proof.
  intros He. unfold attr. destruct o.
  - apply lookup_only_ret.
  - apply lookup_only_raise, He.
Qed.

Create HintDb lookups.
#[local] Hint Resolve lookup_only_ret lookup_only_gets lookup_only_index
  lookup_only_attr : lookups.

Ltac lookups :=
  repeat first
    [ apply lookup_only_bind; [| intros ?]
    | solve [auto with lookups]
    | apply lookup_only_raise; reflexivity ].

Lemma lookup_only_ventilator_queue (i : nat) :
  lookup_only (ventilator_queue i).
Proof. unfold ventilator_queue, ventilator_queues. lookups. Qed.

Lemma lookup_only_results_queue (i : nat) : lookup_only (results_queue i).
Proof. unfold results_queue, results_queues. lookups. Qed.

Lemma lookup_only_shared_results_queue : lookup_only shared_results_queue.
Proof. unfold shared_results_queue. lookups. Qed.

Lemma lookup_only_is_worker_idle (i : nat) : lookup_only (_is_worker_idle i).
Proof. unfold _is_worker_idle. lookups. Qed.

#[local] Hint Resolve lookup_only_ventilator_queue lookup_only_results_queue
  lookup_only_shared_results_queue lookup_only_is_worker_idle : lookups.

Lemma lookup_only_all_workers_done_from (ids : list nat) :
  lookup_only (all_workers_done_from ids).
Proof.
  induction ids as [| i ids IH]; simpl.
  - lookups.
  - lookups.
    match goal with
    | |- lookup_only (if ?b then _ else _) => destruct b
    end; lookups.
Qed.

Lemma lookup_only_all_workers_done : lookup_only all_workers_done.
Proof.
  unfold all_workers_done. lookups. apply lookup_only_all_workers_done_from.
Qed.

#[local] Hint Resolve lookup_only_all_workers_done : lookups.

(** A lookup at the head of a sequence either hands its value to the rest,
    in the same state, or ends the sequence with a lookup error. *)
Lemma bind_lookup {A B} (c : M ThreadPool.t A) (k : A -> M ThreadPool.t B)
    (p : ThreadPool.t) :
  lookup_only c ->
  (exists a, c p = (Returns a, p) /\ bind c k p = k a p)
  \/ (exists e, lookup_error e = true /\ c p = (Raises e, p)
                /\ bind c k p = (Raises e, p)).
Proof.
  intros Hc. destruct (Hc p) as [Hs Ho]. unfold bind.
  destruct (c p) as [[a | e |] p1]; simpl in *; subst p1.
  - left. exists a. split; reflexivity.
  - right. exists e. repeat split; assumption.
  - contradiction.
Qed.

Lemma bind_modify {B} (f : ThreadPool.t -> ThreadPool.t)
    (k : unit -> M ThreadPool.t B) (p : ThreadPool.t) :
  bind (modify f) k p = k tt (f p).
Proof. reflexivity. Qed.

(** Run the lookup at the head of the sequence in the goal: first the case
    where it returns [a], then the case where it raises. *)
Tactic Notation "lookup_step" "as" ident(a) ident(Ha) :=
  match goal with
  | |- context [bind ?c ?k ?p] =>
      let e := fresh "e" in
      let He := fresh "He" in
      destruct (bind_lookup c k p) as [(a & Ha & ->) | (e & He & _ & ->)];
      [ solve [auto with lookups] | cbv beta | ]
  end.

Lemma same_lifecycle_refl (p : ThreadPool.t) : same_lifecycle p p.
Proof. repeat split. Qed.

Lemma same_lifecycle_trans (p q r : ThreadPool.t) :
  same_lifecycle p q -> same_lifecycle q r -> same_lifecycle p r.
Proof.
  intros (H1 & H2 & H3) (H4 & H5 & H6). repeat split; congruence.
Qed.

Lemma keeps_lifecycle_lookup {A} (c : M ThreadPool.t A) :
  lookup_only c -> keeps_lifecycle c.
Proof.
  intros Hc p. destruct (Hc p) as [-> _]. apply same_lifecycle_refl.
Qed.

Lemma keeps_lifecycle_bind {A B} (c : M ThreadPool.t A)
    (k : A -> M ThreadPool.t B) :
  keeps_lifecycle c -> (forall a, keeps_lifecycle (k a)) ->
  keeps_lifecycle (bind c k).
Proof.
  intros Hc Hk p. unfold bind. pose proof (Hc p) as H1.
  destruct (c p) as [[a | e |] p1]; simpl in *; [| exact H1 ..].
  eapply same_lifecycle_trans; [exact H1 | apply Hk].
Qed.

(** ** Queues *)

Lemma full_unbounded {A} (q : Queue.t A) :
  Queue.maxsize q = 0 -> Queue.full q = false.
Proof. unfold Queue.full. intros ->. reflexivity. Qed.

Lemma get_nowait_nonempty {A} (q q' : Queue.t A) (x : A) :
  Queue.get_nowait q = Some (x, q') -> Queue.empty q = false.
Proof.
  unfold Queue.get_nowait, Queue.empty.
  destruct (Queue.queue q); [discriminate | reflexivity].
Qed.

Lemma put_nowait_full {A} (q : Queue.t A) (x : A) :
  Queue.put_nowait x q = None -> Queue.full q = true.
Proof.
  unfold Queue.put_nowait. destruct (Queue.full q); [reflexivity | discriminate].
Qed.

(** ** Started pools *)

Lemma started_inv (p : ThreadPool.t) :
  started p = true ->
  exists vqs rqs sq,
    _ventilator_queues p = Some vqs /\ _results_queues p = Some rqs
    /\ _shared_results_queue p = Some sq
    /\ length vqs = workers_count p /\ length rqs = workers_count p
    /\ length (_worker_status p) = workers_count p.
Proof.
  unfold started.
  destruct (_ventilator_queues p) as [vqs |]; [| discriminate].
  destruct (_results_queues p) as [rqs |]; [| discriminate].
  destruct (_shared_results_queue p) as [sq |]; [| discriminate].
  intros H. apply andb_prop in H as [H H3]. apply andb_prop in H as [H1 H2].
  apply Nat.eqb_eq in H1, H2, H3.
  exists vqs, rqs, sq. repeat split; assumption.
Qed.

(** [start] in one piece. *)
Lemma start_eq (ventilator : option ConcurrentVentilator.t)
    (p : ThreadPool.t) :
  start ventilator p
  = if _stop_event p then (Raises RuntimeError, p)
    else
      (Returns tt,
       let n := workers_count p in
       let p1 :=
         set_round_robin_thread (Some Alive)
           (set_workers (map (fun i => Build_WorkerThread i Alive) (seq 0 n))
              (set_shared_results_queue (Some (Queue.new 25))
                 (set_results_queues (Some (replicate n (Queue.new 5)))
                    (set_ventilator_queues (Some (replicate n (Queue.new 0)))
                       p)))) in
       match ventilator with
       | Some v => set_ventilator (Some (ConcurrentVentilator.start v)) p1
       | None => p1
       end).
Proof.
  unfold start, bind, gets. destruct (_stop_event p); [reflexivity |].
  destruct ventilator; reflexivity.
Qed.

Lemma started_after_start (ventilator : option ConcurrentVentilator.t)
    (p : ThreadPool.t) :
  _stop_event p = false ->
  length (_worker_status p) = workers_count p ->
  started (snd (start ventilator p)) = true
  /\ inputs_unbounded (snd (start ventilator p)) = true.
Proof.
  intros Hs Hl. rewrite start_eq, Hs. unfold started, inputs_unbounded.
  destruct ventilator; simpl; rewrite !length_replicate, Hl, !Nat.eqb_refl;
    (split; [reflexivity |]);
    apply forallb_forall; intros q Hq; apply list_elem_of_In in Hq;
    apply elem_of_replicate in Hq as [-> _]; reflexivity.
Qed.

Lemma started_started_pool (n : nat) :
  started (started_pool n) = true /\ inputs_unbounded (started_pool n) = true.
Proof.
  apply started_after_start; [reflexivity |].
  apply length_replicate.
Qed.

Lemma all_workers_done_from_started (p : ThreadPool.t) (ids : list nat) :
  started p = true ->
  Forall (fun i => i < workers_count p) ids ->
  all_workers_done_from ids p = (Returns (forallb (worker_drained p) ids), p).
Proof.
  intros Hst.
  destruct (started_inv p Hst)
    as (vqs & rqs & sq & Hvqs & Hrqs & _ & Hlv & Hlr & Hls).
  induction ids as [| i ids IH]; intros Hids; [reflexivity |].
  apply Forall_cons in Hids as [Hi Hids].
  destruct (lookup_lt_is_Some_2 vqs i) as [vq Hvq]; [lia |].
  destruct (lookup_lt_is_Some_2 rqs i) as [rq Hrq]; [lia |].
  destruct (lookup_lt_is_Some_2 (_worker_status p) i) as [busy Hbusy]; [lia |].
  simpl.
  unfold results_queue, results_queues, _is_worker_idle, ventilator_queue,
    ventilator_queues, bind, gets, attr, index, ret.
  rewrite Hrqs, Hrq, Hbusy, Hvqs, Hvq.
  unfold worker_drained at 1. rewrite Hrqs, Hvqs, Hrq, Hbusy, Hvq.
  destruct (Queue.empty rq), busy, (Queue.empty vq); simpl;
    solve [reflexivity | apply IH, Hids].
Qed.

(** On a started pool [all_workers_done()] returns, and says whether every
    worker is drained. *)
Lemma all_workers_done_started (p : ThreadPool.t) :
  started p = true ->
  all_workers_done p = (Returns (every_worker_drained p), p).
Proof.
  intros Hst. unfold all_workers_done, bind, gets.
  apply all_workers_done_from_started; [exact Hst |].
  rewrite Forall_forall. intros i Hi. apply list_elem_of_In, in_seq in Hi. lia.
Qed.

(** ** The scenarios are executions of the code *)

Lemma new_ventilator_constructed (items : list WorkItem) (k : Z) :
  (1 <= k)%Z ->
  ConcurrentVentilator.__init__ items (Some k) false None
  = Returns (new_ventilator items k).
Proof.
  intros Hk. unfold ConcurrentVentilator.__init__, new_ventilator.
  destruct (Z.ltb_spec k 1) as [Hlt | _]; [lia | reflexivity].
Qed.

Lemma worker_exception_pool_reached :
  pool (run_schedule no_permutation (failing_process 1) 10
          (Build_System (new_pool 4) 0) worker_exception_schedule)
  = worker_exception_pool.
Proof. vm_compute. reflexivity. Qed.

Lemma full_shared_queue_pool_reached :
  run_schedule no_permutation identity_process 10
    (Build_System (new_pool 4) 0) full_shared_queue_schedule
  = Build_System full_shared_queue_pool 1.
Proof. vm_compute. reflexivity. Qed.

(** ** [stop] once the pool is started *)

Lemma keeps_lifecycle_ventilate_loop (items : list WorkItem) :
  forall i, keeps_lifecycle (ventilate_loop i items).
Proof.
  induction items as [| x rest IH]; intros i; simpl.
  - apply keeps_lifecycle_lookup. lookups.
  - apply keeps_lifecycle_bind; [apply keeps_lifecycle_lookup; lookups |].
    intros n. apply keeps_lifecycle_bind.
    { destruct (n =? 0); intros p; apply same_lifecycle_refl. }
    intros _. apply keeps_lifecycle_bind;
      [apply keeps_lifecycle_lookup; lookups |].
    intros q. apply keeps_lifecycle_bind.
    { destruct (Queue.put_nowait x q); intros p; repeat split. }
    intros _. apply keeps_lifecycle_bind; [intros p; repeat split |].
    intros _. apply IH.
Qed.

Lemma keeps_lifecycle_ventilate (items : list WorkItem) :
  keeps_lifecycle (ventilate items).
Proof.
  unfold ventilate. apply keeps_lifecycle_bind.
  - apply keeps_lifecycle_ventilate_loop.
  - intros _. apply keeps_lifecycle_lookup. lookups.
Qed.

Section StopOnce.
Variable permutation : option Z -> nat -> list WorkItem -> list WorkItem.

Lemma ventilate_iterations_lifecycle (n : nat) :
  forall (v : ConcurrentVentilator.t) (p : ThreadPool.t),
    same_lifecycle p
      (snd (snd (ConcurrentVentilator.ventilate_iterations
                   ventilate permutation n v p))).
Proof.
  induction n as [| n IH]; intros v p; [apply same_lifecycle_refl |].
  simpl. unfold ConcurrentVentilator.ventilate_once.
  match goal with
  | |- context [ventilate ?l p] =>
      pose proof (keeps_lifecycle_ventilate l p) as H1;
      destruct (ventilate l p) as [[u | e |] p1]
  end; simpl in *; [| exact H1 ..].
  eapply same_lifecycle_trans; [exact H1 | apply IH].
Qed.

(** [stop()] of the attached ventilator returns, or waits for a ventilation
    thread that is itself waiting. *)
Lemma ventilator_stop_lifecycle (v : ConcurrentVentilator.t)
    (p : ThreadPool.t) :
  let r := on_ventilator
             (ConcurrentVentilator.stop ventilate permutation) v p in
  same_lifecycle p (snd r) /\ (fst r = Returns tt \/ fst r = Pending).
Proof.
  cbv zeta. unfold on_ventilator, ConcurrentVentilator.stop,
    ConcurrentVentilator.run_ventilation_thread,
    ConcurrentVentilator._ventilate.
  simpl.
  destruct (ConcurrentVentilator._ventilation_thread v) as [[|] |];
    try (split; [repeat split | left; reflexivity]).
  destruct (ConcurrentVentilator._iterations_remaining v) as [k |];
    [| split; [repeat split | left; reflexivity]].
  match goal with
  | |- context [ConcurrentVentilator.ventilate_iterations _ _ ?n ?w p] =>
      destruct (ventilate_iterations_lifecycle n w p) as (H1 & H2 & H3);
      destruct (ConcurrentVentilator.ventilate_iterations
                  ventilate permutation n w p) as [[u | e |] [v1 p1]]
  end; simpl in *; (split; [repeat split; assumption |]); auto.
Qed.

(** Once the consumer thread exists, [stop()] does not return and sets no
    stop event, with or without a ventilator: it raises [AttributeError],
    unless it is still waiting for the ventilation thread. *)
Lemma stop_fails_once_started (p : ThreadPool.t) (th : ThreadState) :
  _round_robin_thread p = Some th ->
  (fst (stop permutation p) = Raises AttributeError
   \/ fst (stop permutation p) = Pending)
  /\ same_lifecycle p (snd (stop permutation p)).
Proof.
  intros Hth.
  assert (H : exists o p',
             stop permutation p = (o, p')
             /\ (o = Raises AttributeError \/ o = Pending)
             /\ same_lifecycle p p').
  { unfold stop. unfold bind at 1. unfold gets at 1.
    destruct (_ventilator p) as [v |].
    - unfold bind at 1.
      destruct (ventilator_stop_lifecycle v p) as [H1 H2].
      destruct (on_ventilator
                  (ConcurrentVentilator.stop ventilate permutation) v p)
        as [o p1]; simpl in H1, H2.
      destruct H2 as [-> | ->].
      + unfold bind, gets. destruct H1 as (Hrr & Hse & Hw).
        rewrite Hrr, Hth.
        eexists _, _. split; [reflexivity |].
        split; [left; reflexivity | repeat split; assumption].
      + eexists _, _. split; [reflexivity |].
        split; [right; reflexivity | exact H1].
    - unfold bind, ret, gets. rewrite Hth.
      eexists _, _. split; [reflexivity |].
      split; [left; reflexivity | apply same_lifecycle_refl]. }
  destruct H as (o & p' & -> & Ho & Hp). split; assumption.
Qed.

(** When [get_results] takes an exception from the shared queue of a pool
    whose consumer thread exists, the caller gets the [AttributeError] of
    [stop()], or the call waits for the ventilation thread; the stop event
    and the worker threads are as before. *)
Lemma get_results_after_worker_exception
    (process : nat -> WorkItem -> list Payload * option PyExc)
    (fuel n : nat) (p : ThreadPool.t) (th : ThreadState) (e : PyExc)
    (q q' : Queue.t Payload) :
  _round_robin_thread p = Some th ->
  completed p = (Returns false, p) ->
  _shared_results_queue p = Some q ->
  Queue.get_nowait q = Some (ExcValue e, q') ->
  let r := get_results permutation process fuel (S n) p in
  (fst r = Raises AttributeError \/ fst r = Pending)
  /\ same_lifecycle p (snd r).
Proof.
  intros Hth Hc Hq Hget. cbv zeta.
  set (p1 := set_shared_results_queue (Some q') p).
  assert (E : forall p2,
             (stop permutation p1 = (Raises AttributeError, p2) ->
              get_results permutation process fuel (S n) p
              = (Raises AttributeError, p2))
             /\ (stop permutation p1 = (Pending, p2) ->
                 get_results permutation process fuel (S n) p
                 = (Pending, p2))).
  { intros p2. split; intros Es; simpl;
      unfold bind at 1; rewrite Hc; unfold bind at 1; rewrite Hc;
      unfold try_except;
      unfold bind at 1; unfold shared_results_queue, bind, gets, attr at 1;
      rewrite Hq; unfold ret at 1; rewrite Hget;
      unfold store_shared_results_queue, modify; simpl; fold p1;
      rewrite Es; reflexivity. }
  destruct (stop_fails_once_started p1 th Hth) as [Ho Hl].
  destruct (stop permutation p1) as [o p2]. simpl in Ho, Hl.
  destruct (E p2) as [E1 E2].
  destruct Ho as [-> | ->];
    [rewrite (E1 eq_refl) | rewrite (E2 eq_refl)]; simpl;
    (split; [auto |]);
    (eapply same_lifecycle_trans; [| exact Hl]); repeat split.
Qed.
End StopOnce.

(** ** C1: a worker exception at [get_results] *)

(** C1.  [get_results] takes the exception of worker 1 from the shared
    queue of [worker_exception_pool] and calls [stop()], which raises
    [AttributeError] at [self._round_robin_thread.stop()]: the caller gets
    that error and not the [ValueError] of the worker, [join()] is not
    reached, the stop event stays clear and workers 0, 2 and 3 stay
    alive. *)
Theorem get_results_loses_worker_exception :
  forall (process : nat -> WorkItem -> list Payload * option PyExc)
         (fuel n : nat),
    let r := get_results no_permutation process fuel (S n)
               worker_exception_pool in
    fst r = Raises AttributeError
    /\ fst r <> Raises ValueError
    /\ _stop_event (snd r) = false
    /\ map thread_state (_workers (snd r))
       = [Alive; Terminated; Alive; Alive]
    /\ shared_contents worker_exception_pool = [ExcValue ValueError]
    /\ shared_contents (snd r) = [].
Proof.
  intros process fuel n. cbv zeta.
  assert (E : fst (get_results no_permutation process fuel (S n)
                     worker_exception_pool) = Raises AttributeError)
    by reflexivity.
  rewrite E. repeat split; try reflexivity. discriminate.
Qed.

(** ** C2: the iteration budget of the ventilator *)

Section VentilatorBudget.
Context {S : Type}.
Variable ventilate_fn : list WorkItem -> M S unit.
Variable permutation : option Z -> nat -> list WorkItem -> list WorkItem.

Let budget := ConcurrentVentilator._iterations_remaining.

Lemma ventilate_once_budget (v : ConcurrentVentilator.t) (s : S) :
  budget (fst (snd (ConcurrentVentilator.ventilate_once
                      ventilate_fn permutation v s)))
  = budget v.
Proof.
  unfold ConcurrentVentilator.ventilate_once.
  destruct (ConcurrentVentilator._randomize_item_order v);
    match goal with
    | |- context [ventilate_fn ?l s] => destruct (ventilate_fn l s)
    end; reflexivity.
Qed.

Lemma ventilate_iterations_budget (n : nat) :
  forall (v : ConcurrentVentilator.t) (s : S),
    budget (fst (snd (ConcurrentVentilator.ventilate_iterations
                        ventilate_fn permutation n v s)))
    = budget v.
Proof.
  induction n as [| n IH]; intros v s; [reflexivity |].
  simpl. pose proof (ventilate_once_budget v s) as H1.
  destruct (ConcurrentVentilator.ventilate_once ventilate_fn permutation v s)
    as [[u | e |] [v1 s1]]; simpl in H1; try exact H1.
  rewrite IH. exact H1.
Qed.

(** [_ventilate] never writes [_iterations_remaining], whatever the pool
    does with the items and however they are reshuffled. *)
Lemma _ventilate_budget (v : ConcurrentVentilator.t) (s : S) :
  budget (fst (snd (ConcurrentVentilator._ventilate
                      ventilate_fn permutation v s)))
  = budget v.
Proof.
  unfold ConcurrentVentilator._ventilate. fold budget.
  destruct (budget v) eqn:E; [| exact E].
  rewrite ventilate_iterations_budget. exact E.
Qed.

(** Without reshuffling, [_ventilate] writes no field of the ventilator. *)
Lemma ventilate_iterations_same (n : nat) :
  forall (v : ConcurrentVentilator.t) (s : S),
    ConcurrentVentilator._randomize_item_order v = false ->
    fst (snd (ConcurrentVentilator.ventilate_iterations
                ventilate_fn permutation n v s)) = v.
Proof.
  induction n as [| n IH]; intros v s Hr; [reflexivity |].
  simpl. unfold ConcurrentVentilator.ventilate_once. rewrite Hr.
  destruct (ventilate_fn (ConcurrentVentilator._items_to_ventilate v) s)
    as [[u | e |] s1]; try reflexivity.
  apply IH, Hr.
Qed.

(** After the ventilation thread of a ventilator with [k >= 1] iterations
    over a non-empty list has run, [completed()] is false. *)
Lemma ventilator_not_completed_by_budget (items : list WorkItem) (k : Z)
    (s : S) :
  items <> [] -> (1 <= k)%Z ->
  ConcurrentVentilator.completed
    (fst (snd (ConcurrentVentilator._ventilate ventilate_fn permutation
                 (new_ventilator items k) s)))
  = Returns false.
Proof.
  intros Hitems Hk.
  change (ConcurrentVentilator._ventilate ventilate_fn permutation
            (new_ventilator items k) s)
    with (ConcurrentVentilator.ventilate_iterations ventilate_fn permutation
            (Z.to_nat k) (new_ventilator items k) s).
  rewrite ventilate_iterations_same by reflexivity.
  unfold ConcurrentVentilator.completed, new_ventilator. simpl.
  destruct (Z.leb_spec 0 k) as [_ | H]; [| lia].
  destruct (Z.eqb_spec k 0) as [H | _]; [lia |].
  destruct items; [contradiction | reflexivity].
Qed.
End VentilatorBudget.

Lemma ventilate_iterations_log (items : list WorkItem) (n : nat) :
  forall (v : ConcurrentVentilator.t) (log : list (list WorkItem)),
    ConcurrentVentilator._randomize_item_order v = false ->
    ConcurrentVentilator._items_to_ventilate v = items ->
    ConcurrentVentilator.ventilate_iterations log_call no_permutation n v log
    = (Returns tt, (v, log ++ replicate n items)).
Proof.
  induction n as [| n IH]; intros v log Hr Hi.
  - simpl. rewrite app_nil_r. reflexivity.
  - simpl. unfold ConcurrentVentilator.ventilate_once. rewrite Hr, Hi.
    unfold log_call at 1. rewrite IH by assumption.
    rewrite <- app_assoc. reflexivity.
Qed.

(** The submissions are as documented: [k] calls of [_ventilate_fn], each
    with the whole list. *)
Lemma ventilate_submits_list_k_times (items : list WorkItem) (k : nat) :
  ConcurrentVentilator._ventilate log_call no_permutation
    (new_ventilator items (Z.of_nat k)) []
  = (Returns tt, (new_ventilator items (Z.of_nat k), replicate k items)).
Proof.
  change (ConcurrentVentilator._ventilate log_call no_permutation
            (new_ventilator items (Z.of_nat k)) [])
    with (ConcurrentVentilator.ventilate_iterations log_call no_permutation
            (Z.to_nat (Z.of_nat k)) (new_ventilator items (Z.of_nat k)) []).
  rewrite Nat2Z.id. apply (ventilate_iterations_log items); reflexivity.
Qed.

(** C2.  A ventilator with two iterations over eight items, attached to a
    started pool of four workers: when its ventilation thread has ended,
    the list has been submitted twice (sixteen items ventilated), the
    iteration budget is still 2, and [completed()] is still false. *)
Theorem ventilator_budget_never_decremented :
  let p := snd (ventilation_thread no_permutation
                  (started_pool_with 4 (new_ventilator (items_upto 8) 2))) in
  _ventilated_items p = 16
  /\ exists v,
       _ventilator p = Some v
       /\ ConcurrentVentilator._ventilation_thread v = Some Terminated
       /\ ConcurrentVentilator._iterations_remaining v = Some 2%Z
       /\ ConcurrentVentilator.completed v = Returns false.
Proof.
  cbv zeta. split; [reflexivity |].
  eexists. split; [vm_compute; reflexivity |].
  repeat split; reflexivity.
Qed.

(** ** C3: [stop] *)

(** C3.  On a pool that was started, [stop()] raises [AttributeError] and
    leaves the pool as it was: the stop event is not set. *)
Theorem stop_raises_on_started_pool :
  forall (permutation : option Z -> nat -> list WorkItem -> list WorkItem)
         (n : nat),
    stop permutation (started_pool n)
    = (Raises AttributeError, started_pool n)
    /\ _round_robin_thread (started_pool n) = Some Alive
    /\ _stop_event (started_pool n) = false.
Proof. intros permutation n. repeat split; reflexivity. Qed.

(** ** C4: [ventilate] *)

Lemma share_of_position (n : nat) (items : list WorkItem) :
  forall i j x,
    items !! j = Some x -> In x (share_of n ((i + j) mod n) i items).
Proof.
  induction items as [| y rest IH]; intros i j x Hj; [discriminate |].
  simpl. destruct j as [| j]; simpl in Hj.
  - injection Hj as ->. rewrite Nat.add_0_r, Nat.eqb_refl. left. reflexivity.
  - apply in_or_app. right.
    replace (i + S j) with ((i + 1) + j) by lia. apply IH, Hj.
Qed.

(** The loop of [ventilate] on a pool whose input queues exist and are
    unbounded: every item is appended to the queue of its position modulo
    the number of workers, and counted. *)
Lemma ventilate_loop_round_robin (items : list WorkItem) :
  forall (i : nat) (p : ThreadPool.t) (vqs : list (Queue.t WorkItem)),
    workers_count p <> 0 ->
    _ventilator_queues p = Some vqs ->
    length vqs = workers_count p ->
    Forall (fun q => Queue.maxsize q = 0) vqs ->
    exists vqs',
      ventilate_loop i items p
      = (Returns tt,
         set_ventilated_items (_ventilated_items p + length items)
           (set_ventilator_queues (Some vqs') p))
      /\ length vqs' = workers_count p
      /\ Forall (fun q => Queue.maxsize q = 0) vqs'
      /\ forall w q, vqs !! w = Some q ->
           exists q', vqs' !! w = Some q'
             /\ Queue.queue q'
                = Queue.queue q ++ share_of (workers_count p) w i items.
Proof.
  induction items as [| x rest IH]; intros i p vqs Hn Hvqs Hlen Hunb.
  - exists vqs. simpl. repeat split; try assumption.
    + unfold ret. f_equal. rewrite Nat.add_0_r, <- Hvqs.
      destruct p; reflexivity.
    + intros w q Hw. exists q. rewrite app_nil_r. auto.
  - simpl.
    assert (Hlt : i mod workers_count p < length vqs)
      by (rewrite Hlen; apply Nat.mod_upper_bound, Hn).
    destruct (lookup_lt_is_Some_2 vqs _ Hlt) as [q Hq].
    assert (Hq0 : Queue.maxsize q = 0).
    { rewrite Forall_forall in Hunb. apply Hunb.
      eapply list_elem_of_lookup_2, Hq. }
    set (q1 := Queue.Build (Queue.maxsize q) (Queue.queue q ++ [x])).
    set (vqs1 := <[i mod workers_count p := q1]> vqs).
    set (p1 := set_ventilated_items (_ventilated_items p + 1)
                 (set_ventilator_queues (Some vqs1) p)).
    assert (Hstep : forall k : M ThreadPool.t unit,
      (n <- gets workers_count;;
       (if n =? 0 then raise ZeroDivisionError else ret tt);;;
       q <- ventilator_queue (i mod n);;
       match Queue.put_nowait x q with
       | Some q' => store_ventilator_queue (i mod n) q'
       | None => pending
       end;;;
       modify (fun p => set_ventilated_items (_ventilated_items p + 1) p);;;
       k) p = k p1).
    { intros k. unfold bind at 1. unfold gets at 1.
      apply Nat.eqb_neq in Hn. rewrite Hn.
      unfold bind at 1. unfold ret at 1.
      unfold bind at 1.
      unfold ventilator_queue, ventilator_queues, bind, gets, attr, index, ret.
      rewrite Hvqs, Hq. unfold Queue.put_nowait.
      rewrite (full_unbounded q Hq0).
      unfold store_ventilator_queue, modify. rewrite Hvqs. reflexivity. }
    rewrite Hstep.
    destruct (IH (i + 1) p1 vqs1) as (vqs' & Hrun & Hlen' & Hunb' & Hshare).
    + exact Hn.
    + reflexivity.
    + unfold vqs1. rewrite length_insert. exact Hlen.
    + unfold vqs1. apply Forall_insert; [exact Hunb | exact Hq0].
    + exists vqs'. split; [| split; [exact Hlen' | split; [exact Hunb' |]]].
      * rewrite Hrun. f_equal.
        change (_ventilated_items p1) with (_ventilated_items p + 1).
        replace (_ventilated_items p + 1 + length rest)
          with (_ventilated_items p + length (x :: rest)) by (simpl; lia).
        reflexivity.
      * intros w qw Hw.
        change (workers_count p1) with (workers_count p) in Hshare.
        destruct (Nat.eq_dec (i mod workers_count p) w) as [E | E].
        -- subst w. rewrite Hq in Hw. injection Hw as <-.
           destruct (Hshare (i mod workers_count p) q1) as (q' & Hq' & Hqq).
           { unfold vqs1. apply list_lookup_insert_eq. exact Hlt. }
           exists q'. split; [exact Hq' |]. rewrite Hqq. simpl.
           rewrite Nat.eqb_refl. rewrite <- app_assoc. reflexivity.
        -- destruct (Hshare w qw) as (q' & Hq' & Hqq).
           { unfold vqs1. rewrite list_lookup_insert_ne by exact E. exact Hw. }
           exists q'. split; [exact Hq' |]. rewrite Hqq.
           apply Nat.eqb_neq in E. rewrite E. reflexivity.
Qed.

Lemma inputs_unbounded_inv (p : ThreadPool.t) (vqs : list (Queue.t WorkItem)) :
  inputs_unbounded p = true -> _ventilator_queues p = Some vqs ->
  Forall (fun q => Queue.maxsize q = 0) vqs.
Proof.
  unfold inputs_unbounded. intros H E. rewrite E in H.
  rewrite Forall_forall. intros q Hq. apply list_elem_of_In in Hq.
  rewrite forallb_forall in H. apply Nat.eqb_eq, H, Hq.
Qed.

Lemma input_of_lookup (p : ThreadPool.t) (vqs : list (Queue.t WorkItem))
    (w : nat) (q : Queue.t WorkItem) :
  _ventilator_queues p = Some vqs -> vqs !! w = Some q ->
  input_of p w = Queue.queue q.
Proof. unfold input_of. intros -> ->. reflexivity. Qed.

(** On a started pool of at least four workers [ventilate] returns, having
    dealt the items round-robin and counted them. *)
Lemma ventilate_round_robin (items : list WorkItem) (p : ThreadPool.t) :
  started p = true -> inputs_unbounded p = true -> 4 <= workers_count p ->
  exists p',
    ventilate items p = (Returns tt, p')
    /\ _ventilated_items p' = _ventilated_items p + length items
    /\ forall w, w < workers_count p ->
         input_of p' w = input_of p w ++ share_of (workers_count p) w 0 items.
Proof.
  intros Hst Hunb Hn.
  destruct (started_inv p Hst) as (vqs & rqs & sq & Hvqs & _ & _ & Hlen & _).
  destruct (ventilate_loop_round_robin items 0 p vqs)
    as (vqs' & Hrun & Hlen' & _ & Hshare);
    [lia | exact Hvqs | exact Hlen
    | exact (inputs_unbounded_inv p vqs Hunb Hvqs) |].
  eexists. split; [| split].
  - unfold ventilate. unfold bind at 1. rewrite Hrun.
    unfold ventilator_queue, ventilator_queues, bind, gets, attr, index, ret.
    simpl.
    destruct vqs' as [| q0 [| q1 [| q2 [| q3 rest]]]]; simpl in *;
      try reflexivity; lia.
  - reflexivity.
  - intros w Hw.
    destruct (lookup_lt_is_Some_2 vqs w) as [q Hq]; [lia |].
    destruct (Hshare w q Hq) as (q' & Hq' & Hqq).
    rewrite (input_of_lookup p vqs w q Hvqs Hq).
    rewrite <- Hqq.
    apply (input_of_lookup _ vqs' w q'); [reflexivity | exact Hq'].
Qed.

(** With one, two or three workers the same call ends in [IndexError], the
    items being in the queues already. *)
Lemma ventilate_index_error (items : list WorkItem) (p : ThreadPool.t) :
  started p = true -> inputs_unbounded p = true ->
  0 < workers_count p < 4 ->
  fst (ventilate items p) = Raises IndexError
  /\ _ventilated_items (snd (ventilate items p))
     = _ventilated_items p + length items
  /\ forall w, w < workers_count p ->
       input_of (snd (ventilate items p)) w
       = input_of p w ++ share_of (workers_count p) w 0 items.
Proof.
  intros Hst Hunb Hn.
  destruct (started_inv p Hst) as (vqs & rqs & sq & Hvqs & _ & _ & Hlen & _).
  destruct (ventilate_loop_round_robin items 0 p vqs)
    as (vqs' & Hrun & Hlen' & _ & Hshare);
    [lia | exact Hvqs | exact Hlen
    | exact (inputs_unbounded_inv p vqs Hunb Hvqs) |].
  assert (Hv : ventilate items p
               = (Raises IndexError,
                  set_ventilated_items (_ventilated_items p + length items)
                    (set_ventilator_queues (Some vqs') p))).
  { unfold ventilate. unfold bind at 1. rewrite Hrun.
    unfold ventilator_queue, ventilator_queues, bind, gets, attr, index, ret,
      raise.
    simpl.
    destruct vqs' as [| q0 [| q1 [| q2 [| q3 rest]]]]; simpl in *;
      try reflexivity; lia. }
  rewrite Hv. split; [reflexivity | split; [reflexivity |]].
  intros w Hw.
  destruct (lookup_lt_is_Some_2 vqs w) as [q Hq]; [lia |].
  destruct (Hshare w q Hq) as (q' & Hq' & Hqq).
  rewrite (input_of_lookup p vqs w q Hvqs Hq).
  rewrite <- Hqq.
  apply (input_of_lookup _ vqs' w q'); [reflexivity | exact Hq'].
Qed.

(** C4.  On a started pool with one worker, [ventilate] of one item puts
    the item into the queue of worker 0, counts it, and then raises
    [IndexError]. *)
Theorem ventilate_raises_below_four_workers :
  let r := ventilate [item 0] (started_pool 1) in
  fst r = Raises IndexError
  /\ input_of (snd r) 0 = [item 0]
  /\ _ventilated_items (snd r) = 1.
Proof. cbv zeta. repeat split; reflexivity. Qed.

(** ** C5: forwarding into a full shared queue *)

(** When the consumer thread is at a worker whose queue holds a result and
    the shared queue is full, the pass takes the oldest result of that
    worker, drops it, and leaves the pointer where it is. *)
Lemma full_shared_queue_pass (nb : bool) (r : nat) (p : ThreadPool.t) :
  started p = true -> r < workers_count p ->
  has_result p r = true -> shared_queue_full p = true ->
  let res := round_robin_iteration nb r p in
  fst res = Returns (Continue, r)
  /\ output_of (snd res) r = tail (output_of p r)
  /\ shared_contents (snd res) = shared_contents p.
Proof.
  intros Hst Hr Hres Hfull. cbv zeta.
  destruct (started_inv p Hst)
    as (vqs & rqs & sq & Hvqs & Hrqs & Hsq & Hlv & Hlr & Hls).
  destruct (lookup_lt_is_Some_2 vqs r) as [vq Hvq]; [lia |].
  destruct (lookup_lt_is_Some_2 rqs r) as [rq Hrq]; [lia |].
  destruct (lookup_lt_is_Some_2 (_worker_status p) r) as [busy Hbusy]; [lia |].
  unfold has_result in Hres. rewrite Hrqs, Hrq in Hres.
  unfold shared_queue_full in Hfull. rewrite Hsq in Hfull.
  assert (Hnd : every_worker_drained p = false).
  { destruct (every_worker_drained p) eqn:E; [| reflexivity].
    unfold every_worker_drained in E. rewrite forallb_forall in E.
    assert (Hd : worker_drained p r = true) by (apply E, in_seq; lia).
    unfold worker_drained in Hd. rewrite Hrqs, Hvqs, Hrq, Hbusy, Hvq in Hd.
    destruct (Queue.empty rq); [discriminate Hres | discriminate Hd]. }
  destruct rq as [m [| x rest]]; [discriminate Hres |].
  assert (E : round_robin_iteration nb r p
              = (Returns (Continue, r),
                 set_results_queues
                   (Some (<[r := Queue.Build m rest]> rqs)) p)).
  { unfold round_robin_iteration, try_except, round_robin_try.
    unfold bind at 1. rewrite (all_workers_done_started p Hst), Hnd.
    unfold results_queue, results_queues, _is_worker_idle, ventilator_queue,
      ventilator_queues, shared_results_queue, store_results_queue.
    unfold bind, gets, attr, index, ret, raise, modify.
    rewrite Hrqs, Hrq, Hbusy, Hvqs, Hvq. simpl.
    rewrite Hsq. unfold Queue.put_nowait. rewrite Hfull. simpl.
    rewrite Hrqs. reflexivity. }
  rewrite E. simpl. split; [reflexivity |]. split.
  - unfold output_of. simpl. rewrite Hrqs, Hrq.
    rewrite list_lookup_insert_eq by lia. reflexivity.
  - reflexivity.
Qed.

(** C5.  With the shared queue full, one pass of the consumer thread at
    worker 1 takes [Data 13] from the queue of worker 1 and loses it: the
    pass ends without waiting for space, the shared queue is as before, and
    [Data 13] is in no queue. *)
Theorem consumer_drops_item_when_shared_queue_full :
  let p := full_shared_queue_pool in
  let r := round_robin_iteration false 1 p in
  shared_queue_full p = true
  /\ output_of p 1 = [Data 13; VentilatedItemProcessedMessage]
  /\ fst r = Returns (Continue, 1)
  /\ shared_contents (snd r) = shared_contents p
  /\ output_of (snd r) 1 = [VentilatedItemProcessedMessage]
  /\ ~ In (Data 13) (shared_contents (snd r))
  /\ forall i, ~ In (Data 13) (output_of (snd r) i).
Proof.
  cbv zeta. repeat split; try reflexivity.
  - vm_compute. intuition discriminate.
  - intros i. do 4 (destruct i as [| i]; [vm_compute; intuition discriminate |]).
    vm_compute. tauto.
Qed.

(** ** C6: the completion predicate *)

(** With a ventilator attached, [completed()] on a started pool is the
    completion predicate of the documentation. *)
Lemma completed_with_ventilator (p : ThreadPool.t)
    (v : ConcurrentVentilator.t) (c : bool) :
  started p = true ->
  _ventilator p = Some v ->
  ConcurrentVentilator.completed v = Returns c ->
  completed p
  = (Returns (every_worker_drained p && shared_queue_empty p && c), p).
Proof.
  intros Hst Hv Hc.
  destruct (started_inv p Hst) as (vqs & rqs & sq & _ & _ & Hsq & _).
  unfold completed, shared_results_queue, lift_outcome.
  unfold bind, gets, attr, ret.
  rewrite (all_workers_done_started p Hst). cbv beta iota.
  rewrite Hsq, Hv. cbv beta iota. rewrite Hc. cbv beta iota.
  rewrite (all_workers_done_started p Hst). cbv beta iota.
  unfold shared_queue_empty. rewrite Hsq.
  destruct (every_worker_drained p); simpl; [| reflexivity].
  rewrite Hsq. destruct (Queue.empty sq); simpl; [| reflexivity].
  rewrite Hv, Hc. destruct c; reflexivity.
Qed.

(** With no ventilator attached, [completed()] never returns; on a started
    pool it raises [AttributeError]. *)
Lemma completed_fails_without_ventilator (p : ThreadPool.t) :
  _ventilator p = None ->
  (forall b, fst (completed p) <> Returns b)
  /\ (started p = true -> completed p = (Raises AttributeError, p)).
Proof.
  intros Hv. split.
  - intros b. unfold completed.
    lookup_step as done Hdone; [| discriminate].
    lookup_step as shared Hshared; [| discriminate].
    unfold bind, gets, attr. rewrite Hv. discriminate.
  - intros Hst.
    destruct (started_inv p Hst) as (vqs & rqs & sq & _ & _ & Hsq & _).
    unfold completed, shared_results_queue.
    unfold bind, gets, attr, ret, raise.
    rewrite (all_workers_done_started p Hst). cbv beta iota.
    rewrite Hsq, Hv. reflexivity.
Qed.

(** C6.  On a pool started without a ventilator, whatever the number of
    workers, [completed()] raises [AttributeError]: the [print] at its top
    calls [self._ventilator.completed()] on [None]. *)
Theorem completed_raises_without_ventilator :
  forall n : nat,
    _ventilator (started_pool n) = None
    /\ completed (started_pool n) = (Raises AttributeError, started_pool n).
Proof.
  intros n. split; [reflexivity |].
  apply completed_fails_without_ventilator; [reflexivity |].
  apply started_started_pool.
Qed.

(** ** C7: [start] on a pool that is in use *)

(** C7, the claim as stated fails: a second [start()] on a started pool of
    four workers returns normally. *)
Lemma second_start_succeeds :
  _stop_event (started_pool 4) = false
  /\ fst (start None (started_pool 4)) = Returns tt
  /\ fst (start None (started_pool 4)) <> Raises RuntimeError.
Proof. split; [reflexivity | split; [reflexivity | discriminate]]. Qed.

(** C7, as amended.  [start()] raises [RuntimeError], leaving the pool as it
    is, when the stop event is set; when it is not set, [start()] returns,
    also on a pool that was started before. *)
Theorem start_fails_iff_stop_event_set
    (ventilator : option ConcurrentVentilator.t) (p : ThreadPool.t) :
  (_stop_event p = true /\ start ventilator p = (Raises RuntimeError, p))
  \/ (_stop_event p = false /\ fst (start ventilator p) = Returns tt).
Proof.
  rewrite start_eq. destruct (_stop_event p); [left | right]; split; reflexivity.
Qed.

(** A pool that was never started can be stopped, and cannot be started
    after that. *)
Lemma start_after_stop_of_new_pool
    (permutation : option Z -> nat -> list WorkItem -> list WorkItem)
    (n : nat) (ventilator : option ConcurrentVentilator.t) :
  stop permutation (new_pool n) = (Returns tt, set_stop_event true (new_pool n))
  /\ fst (start ventilator (set_stop_event true (new_pool n)))
     = Raises RuntimeError.
Proof. split; reflexivity. Qed.

(** ** C8: the rotation of the consumer thread *)

Lemma next_worker_eq (r : nat) (p : ThreadPool.t) :
  next_worker r p
  = if workers_count p =? 0 then (Raises ZeroDivisionError, p)
    else (Returns ((r + 1) mod workers_count p), p).
Proof.
  unfold next_worker, bind, gets. destruct (workers_count p =? 0); reflexivity.
Qed.

Lemma results_queue_returns (i : nat) (p : ThreadPool.t)
    (q : Queue.t Payload) :
  results_queue i p = (Returns q, p) ->
  exists rqs, _results_queues p = Some rqs /\ rqs !! i = Some q.
Proof.
  unfold results_queue, results_queues, bind, gets, attr, index, ret, raise.
  destruct (_results_queues p) as [rqs |]; [| discriminate].
  destruct (rqs !! i) as [q' |] eqn:E; [| discriminate].
  intros H. injection H as ->. exists rqs. split; [reflexivity | exact E].
Qed.

Lemma shared_results_queue_returns (p : ThreadPool.t) (q : Queue.t Payload) :
  shared_results_queue p = (Returns q, p) -> _shared_results_queue p = Some q.
Proof.
  unfold shared_results_queue, bind, gets, attr, ret, raise.
  destruct (_shared_results_queue p); [| discriminate].
  intros H. injection H as ->. reflexivity.
Qed.

Lemma lookup_error_not_full (e : PyExc) :
  lookup_error e = true -> e <> QueueFull.
Proof. intros H ->. discriminate. Qed.

(** The [try] block ends with a lookup error. *)
Ltac try_other :=
  split; [first [reflexivity | assumption] |];
  apply TryOther, lookup_error_not_full; assumption.

(** How the [try] block of a pass ends, in a pool with workers. *)
Lemma round_robin_try_ends (nb : bool) (r : nat) (p : ThreadPool.t) :
  workers_count p <> 0 ->
  workers_count (snd (round_robin_try nb r p)) = workers_count p
  /\ TryEnd r p (fst (round_robin_try nb r p)).
Proof.
  intros Hn. apply Nat.eqb_neq in Hn.
  assert (Hnext : forall q, workers_count q = workers_count p ->
            (r0 <- next_worker r;; ret (Continue, r0)) q
            = (Returns (Continue, (r + 1) mod workers_count p), q)).
  { intros q Hq. unfold bind. rewrite next_worker_eq, Hq, Hn. reflexivity. }
  unfold round_robin_try.
  lookup_step as done Hdone; [| try_other].
  destruct done.
  { split; [reflexivity | apply TryBreak]. }
  lookup_step as rq Hrq; [| try_other].
  lookup_step as idle Hidle; [| try_other].
  lookup_step as vq Hvq; [| try_other].
  cbv zeta.
  destruct (Queue.empty rq && idle && Queue.empty vq).
  { rewrite Hnext by reflexivity. split; [reflexivity | apply TryAdvance]. }
  destruct (Queue.get_nowait rq) as [[x rq'] |] eqn:Hget.
  2: { destruct nb.
       - rewrite Hnext by reflexivity. split; [reflexivity | apply TryAdvance].
       - split; [reflexivity |]. apply TryOther. discriminate. }
  apply results_queue_returns in Hrq as (rqs & Hrqs & Hrq).
  assert (Hres : has_result p r = true).
  { unfold has_result. rewrite Hrqs, Hrq.
    rewrite (get_nowait_nonempty _ _ _ Hget). reflexivity. }
  unfold store_results_queue. rewrite bind_modify.
  set (p1 := set_results_queues _ p).
  assert (Hp1 : workers_count p1 = workers_count p) by reflexivity.
  lookup_step as shared Hshared; [| try_other].
  apply shared_results_queue_returns in Hshared.
  destruct (Queue.put_nowait x shared) as [shared' |] eqn:Hput.
  - unfold store_shared_results_queue. rewrite bind_modify.
    rewrite Hnext by exact Hp1. split; [exact Hp1 | apply TryAdvance].
  - split; [exact Hp1 |]. apply TryFull; [| exact Hres].
    unfold shared_queue_full.
    change (_shared_results_queue p) with (_shared_results_queue p1).
    rewrite Hshared. exact (put_nowait_full _ _ Hput).
Qed.

(** C8, the claim as stated fails: with the shared queue full, a pass at
    worker 1 of four leaves the pointer at 1 and not at 2, and the next
    pass takes from worker 1 again. *)
Lemma consumer_retries_same_worker :
  let p := full_shared_queue_pool in
  let first := round_robin_iteration false 1 p in
  let second := round_robin_iteration false 1 (snd first) in
  fst first = Returns (Continue, 1)
  /\ (1 + 1) mod workers_count p = 2
  /\ output_of p 1 = [Data 13; VentilatedItemProcessedMessage]
  /\ output_of (snd first) 1 = [VentilatedItemProcessedMessage]
  /\ fst second = Returns (Continue, 1)
  /\ output_of (snd second) 1 = [].
Proof. cbv zeta. repeat split. Qed.

(** C8, as amended.  Every pass of the consumer loop returns.  When the
    loop goes on, the pointer has advanced from [r] to [(r + 1) mod N],
    which is another worker when there are two workers or more, or it is
    still [r]; it can stay only when worker [r] had a result and the shared
    queue was full. *)
Theorem consumer_pointer_rotation (nb : bool) (r : nat) (p : ThreadPool.t) :
  exists ctl r' p',
    round_robin_iteration nb r p = (Returns (ctl, r'), p')
    /\ match ctl with
       | Break => r' = r
       | Continue =>
           (r' = (r + 1) mod workers_count p
            /\ (2 <= workers_count p -> r < workers_count p -> r' <> r))
           \/ (r' = r /\ shared_queue_full p = true /\ has_result p r = true)
       end.
Proof.
  destruct (Nat.eq_dec (workers_count p) 0) as [Hz | Hn].
  - exists Break, r, p. split; [| reflexivity].
    unfold round_robin_iteration, try_except, round_robin_try, bind.
    unfold all_workers_done at 1. unfold bind, gets. rewrite Hz. reflexivity.
  - destruct (round_robin_try_ends nb r p Hn) as [Hcount Hend].
    unfold round_robin_iteration, try_except.
    destruct (round_robin_try nb r p) as [o p1]. simpl in Hcount, Hend.
    assert (Hadv : (r + 1) mod workers_count p = (r + 1) mod workers_count p
              /\ (2 <= workers_count p -> r < workers_count p ->
                  (r + 1) mod workers_count p <> r)).
    { split; [reflexivity |]. intros H2 Hr.
      destruct (Nat.eq_dec (r + 1) (workers_count p)) as [E | E].
      - rewrite E, Nat.Div0.mod_same. lia.
      - rewrite Nat.mod_small by lia. lia. }
    assert (Hnext : (r0 <- next_worker r;; ret (Continue, r0)) p1
              = (Returns (Continue, (r + 1) mod workers_count p), p1)).
    { unfold bind. rewrite next_worker_eq, Hcount.
      apply Nat.eqb_neq in Hn. rewrite Hn. reflexivity. }
    inversion Hend as [| | Hfull Hres | e He]; subst.
    + exists Break, r, p1. split; reflexivity.
    + exists Continue, ((r + 1) mod workers_count p), p1.
      split; [reflexivity | left; exact Hadv].
    + exists Continue, r, p1. split; [reflexivity |]. right. auto.
    + exists Continue, ((r + 1) mod workers_count p), p1.
      split; [| left; exact Hadv].
      destruct e; try exact Hnext. contradiction.
Qed.

(** ** C9: the end of the consumer loop *)

(** The consumer thread leaves its loop as soon as every worker is drained,
    whatever the ventilator has left to do. *)
Lemma consumer_exits_when_workers_drained (nb : bool) (r : nat)
    (p : ThreadPool.t) :
  started p = true -> every_worker_drained p = true ->
  round_robin_iteration nb r p = (Returns (Break, r), p).
Proof.
  intros Hst Hdr.
  unfold round_robin_iteration, try_except, round_robin_try, bind.
  rewrite (all_workers_done_started p Hst), Hdr. reflexivity.
Qed.

(** C9.  A pool of four workers started with a ventilator of eight items
    and one iteration, before the ventilation thread has ventilated
    anything: the stop event is clear and the ventilator is not completed,
    and yet the first pass of the consumer loop leaves the loop, and the
    consumer thread ends. *)
Theorem consumer_exits_before_ventilation :
  let v := new_ventilator (items_upto 8) 1 in
  let p := started_pool_with 4 v in
  _stop_event p = false
  /\ _ventilator p = Some (ConcurrentVentilator.start v)
  /\ ConcurrentVentilator.completed (ConcurrentVentilator.start v)
     = Returns false
  /\ _ventilated_items p = 0
  /\ round_robin_iteration (use_non_blocking p) 0 p = (Returns (Break, 0), p)
  /\ forall fuel,
       _round_robin_consumer (S fuel) p
       = (Returns tt, set_round_robin_thread (Some Terminated) p).
Proof.
  cbv zeta. repeat split.
Qed.

(** What follows the early exit: the consumer thread has ended, so what
    worker 0 publishes stays in its own queue, the shared queue stays empty,
    and [get_results] goes on waiting. *)
Lemma results_stranded_after_early_exit :
  let s := run_schedule no_permutation identity_process 10
             (Build_System (new_pool 4) 0) early_exit_schedule in
  _round_robin_thread (pool s) = Some Terminated
  /\ output_of (pool s) 0 = [Data 0; VentilatedItemProcessedMessage]
  /\ shared_contents (pool s) = []
  /\ step no_permutation identity_process 10 s ConsumerPass = s
  /\ fst (get_results no_permutation identity_process 10 5 (pool s)) = Pending.
Proof.
  cbv zeta.
  split; [vm_compute; reflexivity |].
  split; [vm_compute; reflexivity |].
  split; [vm_compute; reflexivity |].
  split; [vm_compute; reflexivity |].
  vm_compute; reflexivity.
Qed.

(** ** C10: the capacities of the results queues *)

Lemma ignores_size_ret {A} (a : A) : ignores_size (ret a).
Proof. intros z p. reflexivity. Qed.

Lemma ignores_size_raise {A} (e : PyExc) : ignores_size (@raise _ A e).
Proof. intros z p. reflexivity. Qed.

Lemma ignores_size_pending {A} : ignores_size (@pending _ A).
Proof. intros z p. reflexivity. Qed.

Lemma ignores_size_bind {A B} (c : M ThreadPool.t A)
    (k : A -> M ThreadPool.t B) :
  ignores_size c -> (forall a, ignores_size (k a)) -> ignores_size (bind c k).
Proof.
  intros Hc Hk z p. unfold bind. rewrite Hc.
  destruct (c p) as [[a | e |] p1]; simpl; try reflexivity. apply Hk.
Qed.

Lemma ignores_size_try {A} (c : M ThreadPool.t A)
    (h : PyExc -> option (M ThreadPool.t A)) :
  ignores_size c -> (forall e k, h e = Some k -> ignores_size k) ->
  ignores_size (try_except c h).
Proof.
  intros Hc Hh z p. unfold try_except. rewrite Hc.
  destruct (c p) as [[a | e |] p1]; simpl; try reflexivity.
  destruct (h e) as [k |] eqn:E; [| reflexivity]. apply (Hh e k E).
Qed.

Create HintDb sizes.

Ltac sizes :=
  repeat first
    [ solve [auto with sizes]
    | apply ignores_size_ret | apply ignores_size_raise
    | apply ignores_size_pending
    | apply ignores_size_bind; [| intros ?]
    | solve [intros ? ?; reflexivity]
    | match goal with
      | |- ignores_size (if ?b then _ else _) => destruct b
      | |- ignores_size (match ?o with _ => _ end) => destruct o
      end ].

Lemma ignores_size_ventilator_queue i : ignores_size (ventilator_queue i).
Proof.
  unfold ventilator_queue, ventilator_queues, attr, index. sizes.
Qed.

Lemma ignores_size_results_queue i : ignores_size (results_queue i).
Proof. unfold results_queue, results_queues, attr, index. sizes. Qed.

Lemma ignores_size_shared_results_queue : ignores_size shared_results_queue.
Proof. unfold shared_results_queue, attr. sizes. Qed.

Lemma ignores_size_is_worker_idle i : ignores_size (_is_worker_idle i).
Proof. unfold _is_worker_idle, index. sizes. Qed.

Lemma ignores_size_next_worker r : ignores_size (next_worker r).
Proof. unfold next_worker. sizes. Qed.

#[local] Hint Resolve ignores_size_ventilator_queue ignores_size_results_queue
  ignores_size_shared_results_queue ignores_size_is_worker_idle
  ignores_size_next_worker : sizes.

Lemma ignores_size_ventilate_loop items :
  forall i, ignores_size (ventilate_loop i items).
Proof.
  induction items as [| x rest IH]; intros i; simpl.
  - sizes.
  - unfold store_ventilator_queue. sizes.
Qed.

Lemma ignores_size_ventilate items : ignores_size (ventilate items).
Proof.
  unfold ventilate. apply ignores_size_bind.
  - apply ignores_size_ventilate_loop.
  - intros _. sizes.
Qed.

Lemma ignores_size_all_workers_done_from ids :
  ignores_size (all_workers_done_from ids).
Proof. induction ids as [| i ids IH]; simpl; sizes. Qed.

Lemma ignores_size_all_workers_done : ignores_size all_workers_done.
Proof.
  unfold all_workers_done. apply ignores_size_bind; [sizes |].
  intros n. apply ignores_size_all_workers_done_from.
Qed.

#[local] Hint Resolve ignores_size_all_workers_done : sizes.

Lemma ignores_size_completed : ignores_size completed.
Proof. unfold completed, attr, lift_outcome. sizes. Qed.

Lemma ignores_size_round_robin_iteration nb r :
  ignores_size (round_robin_iteration nb r).
Proof.
  unfold round_robin_iteration. apply ignores_size_try.
  - unfold round_robin_try, store_results_queue, store_shared_results_queue.
    sizes.
  - intros e k. unfold round_robin_except.
    destruct e; intros H; injection H as <-; sizes.
Qed.

Section SizeThreads.
Variable permutation : option Z -> nat -> list WorkItem -> list WorkItem.
Variable process : nat -> WorkItem -> list Payload * option PyExc.
Variable fuel : nat.

Lemma ignores_size_ventilate_iterations (n : nat) :
  forall v,
    ignores_size_on_pool
      (ConcurrentVentilator.ventilate_iterations ventilate permutation n v).
Proof.
  induction n as [| n IH]; intros v z p; [reflexivity |].
  simpl. unfold ConcurrentVentilator.ventilate_once.
  rewrite ignores_size_ventilate.
  match goal with
  | |- context [ventilate ?l p] => destruct (ventilate l p) as [[u | e |] p1]
  end; simpl; try reflexivity.
  apply IH.
Qed.

Lemma ignores_size_ventilator_thread (v : ConcurrentVentilator.t) :
  ignores_size_on_pool
    (ConcurrentVentilator.run_ventilation_thread ventilate permutation v).
Proof.
  intros z p. unfold ConcurrentVentilator.run_ventilation_thread,
    ConcurrentVentilator._ventilate.
  destruct (ConcurrentVentilator._ventilation_thread v) as [[|] |];
    try reflexivity.
  destruct (ConcurrentVentilator._iterations_remaining v) as [k |];
    [| reflexivity].
  rewrite ignores_size_ventilate_iterations.
  destruct (ConcurrentVentilator.ventilate_iterations ventilate permutation
              (Z.to_nat k) v p) as [[u | e |] [v1 p1]]; reflexivity.
Qed.

Lemma ignores_size_ventilator_stop (v : ConcurrentVentilator.t) :
  ignores_size_on_pool (ConcurrentVentilator.stop ventilate permutation v).
Proof.
  intros z p. unfold ConcurrentVentilator.stop.
  destruct (ConcurrentVentilator._ventilation_thread
              (ConcurrentVentilator.set_stop_requested true v));
    [| reflexivity].
  rewrite ignores_size_ventilator_thread.
  destruct (ConcurrentVentilator.run_ventilation_thread ventilate permutation
              (ConcurrentVentilator.set_stop_requested true v) p)
    as [[u | e |] [v1 p1]]; reflexivity.
Qed.

Lemma ignores_size_on_ventilator f v :
  ignores_size_on_pool (f v) -> ignores_size (on_ventilator f v).
Proof.
  intros Hf z p. unfold on_ventilator. rewrite Hf.
  destruct (f v p) as [o [v1 p1]]. reflexivity.
Qed.

Lemma ignores_size_ventilation_thread :
  ignores_size (ventilation_thread permutation).
Proof.
  unfold ventilation_thread. apply ignores_size_bind; [sizes |].
  intros [v |]; [| sizes].
  apply ignores_size_on_ventilator, ignores_size_ventilator_thread.
Qed.

Lemma ignores_size_stop : ignores_size (stop permutation).
Proof.
  unfold stop. apply ignores_size_bind; [sizes |].
  intros v. apply ignores_size_bind; [| intros _; sizes].
  destruct v as [v |]; [| sizes].
  apply ignores_size_on_ventilator, ignores_size_ventilator_stop.
Qed.

Lemma ignores_size_stop_aware_put (n : nat) data i :
  ignores_size (_stop_aware_put n data i).
Proof.
  induction n as [| n IH]; simpl; unfold store_results_queue; sizes.
Qed.

Lemma ignores_size_publish_all i l : ignores_size (publish_all fuel i l).
Proof.
  induction l as [| x l IH]; simpl; [sizes |].
  apply ignores_size_bind; [apply ignores_size_stop_aware_put |].
  intros _. exact IH.
Qed.

Lemma ignores_size_store_worker_status i b :
  ignores_size (store_worker_status i b).
Proof. unfold store_worker_status. sizes. Qed.

Lemma ignores_size_run_iteration i : ignores_size (run_iteration process fuel i).
Proof.
  unfold run_iteration. apply ignores_size_bind; [sizes |].
  intros [|]; [sizes |].
  apply ignores_size_try.
  - apply ignores_size_bind; [sizes |]. intros q.
    destruct (Queue.get_nowait q) as [[it q'] |]; [| sizes].
    unfold store_ventilator_queue, _set_worker_busy, _set_worker_idle.
    apply ignores_size_bind; [sizes |]. intros _.
    apply ignores_size_bind; [apply ignores_size_store_worker_status |].
    intros _. destruct (process i it) as [published raised].
    apply ignores_size_bind; [apply ignores_size_publish_all |]. intros _.
    apply ignores_size_bind; [sizes |]. intros _.
    apply ignores_size_bind; [apply ignores_size_stop_aware_put |]. intros _.
    apply ignores_size_bind; [apply ignores_size_store_worker_status |].
    intros _. sizes.
  - intros e k.
    assert (Hput : forall e', ignores_size (put_exception i e';;; ret Break)).
    { intros e'. unfold put_exception, store_results_queue. sizes. }
    destruct e; intros H; injection H as <-; try apply Hput.
    + unfold _set_worker_idle.
      apply ignores_size_bind; [apply ignores_size_store_worker_status |].
      intros _. sizes.
    + sizes.
Qed.

Lemma ignores_size_run_loop (n : nat) i :
  ignores_size (run_loop process fuel n i).
Proof.
  induction n as [| n IH]; simpl; [sizes |].
  apply ignores_size_bind; [apply ignores_size_run_iteration |].
  intros [|]; [sizes | exact IH].
Qed.

Lemma ignores_size_run i : ignores_size (run process fuel i).
Proof.
  intros z p. unfold run. rewrite ignores_size_run_loop.
  destruct (run_loop process fuel fuel i p) as [[u | e |] p1]; reflexivity.
Qed.

Lemma ignores_size_join_workers ws :
  ignores_size (join_workers process fuel ws).
Proof.
  induction ws as [| w ws IH]; simpl; [sizes |].
  apply ignores_size_bind; [| intros _; exact IH].
  destruct (is_alive (thread_state w)); [apply ignores_size_run |].
  sizes.
Qed.

Lemma ignores_size_join : ignores_size (join process fuel).
Proof.
  unfold join. apply ignores_size_bind; [sizes |]. intros ws.
  apply ignores_size_bind; [apply ignores_size_join_workers |].
  intros _. sizes.
Qed.

Lemma ignores_size_get_results (n : nat) :
  ignores_size (get_results permutation process fuel n).
Proof.
  induction n as [| n IH]; simpl; [sizes |].
  apply ignores_size_bind; [apply ignores_size_completed |]. intros _.
  apply ignores_size_bind; [apply ignores_size_completed |].
  intros [|]; [sizes |].
  apply ignores_size_try.
  - apply ignores_size_bind; [sizes |]. intros q.
    destruct (Queue.get_nowait q) as [[result q'] |]; [| sizes].
    unfold store_shared_results_queue.
    apply ignores_size_bind; [sizes |]. intros _.
    destruct (is_exception result); [| sizes].
    apply ignores_size_bind; [apply ignores_size_stop |]. intros _.
    apply ignores_size_bind; [apply ignores_size_join |]. intros _.
    sizes.
  - intros e k. destruct e; intros H; try discriminate H.
    injection H as <-. exact IH.
Qed.

Lemma ignores_size_round_robin_loop (n : nat) :
  forall nb r, ignores_size (round_robin_loop n nb r).
Proof.
  induction n as [| n IH]; intros nb r; simpl; [sizes |].
  apply ignores_size_bind; [sizes |].
  intros [|]; [sizes |].
  apply ignores_size_bind; [apply ignores_size_round_robin_iteration |].
  intros [[|] r']; [sizes | apply IH].
Qed.

Lemma ignores_size_round_robin_consumer :
  ignores_size (_round_robin_consumer fuel).
Proof.
  unfold _round_robin_consumer. apply ignores_size_bind; [sizes |].
  intros nb z p. rewrite ignores_size_round_robin_loop.
  destruct (round_robin_loop fuel nb 0 p) as [[u | e |] p1]; reflexivity.
Qed.

Lemma ignores_size_start ventilator : ignores_size (start ventilator).
Proof. unfold start. sizes. Qed.
End SizeThreads.

(** No method of the pool reads [_results_queue_size]. *)
Lemma results_queue_size_never_read
    (permutation : option Z -> nat -> list WorkItem -> list WorkItem)
    (process : nat -> WorkItem -> list Payload * option PyExc) (fuel : nat) :
  (forall v, ignores_size (start v))
  /\ (forall items, ignores_size (ventilate items))
  /\ ignores_size completed
  /\ (forall n, ignores_size (get_results permutation process fuel n))
  /\ ignores_size (stop permutation)
  /\ ignores_size (join process fuel)
  /\ (forall i, ignores_size (run process fuel i))
  /\ ignores_size (_round_robin_consumer fuel).
Proof.
  split; [exact ignores_size_start |].
  split; [exact ignores_size_ventilate |].
  split; [exact ignores_size_completed |].
  split; [exact (ignores_size_get_results permutation process fuel) |].
  split; [exact (ignores_size_stop permutation) |].
  split; [exact (ignores_size_join process fuel) |].
  split; [exact (ignores_size_run process fuel) |].
  exact (ignores_size_round_robin_consumer fuel).
Qed.

(** C10.  Whatever [results_queue_size] a pool holds, [start()] on a pool
    that is not stopped gives every worker a results queue of capacity 5
    and the pool a shared results queue of capacity 25; the started pool
    depends on [results_queue_size] through the stored attribute only. *)
Theorem start_ignores_results_queue_size
    (ventilator : option ConcurrentVentilator.t) (p : ThreadPool.t) (size : Z) :
  _stop_event p = false ->
  let r := start ventilator (set_results_queue_size size p) in
  fst r = Returns tt
  /\ _results_queues (snd r)
     = Some (replicate (workers_count p) (Queue.new 5))
  /\ _shared_results_queue (snd r) = Some (Queue.new 25)
  /\ (forall i q, _results_queues (snd r) = Some q ->
        i < workers_count p ->
        exists qi, q !! i = Some qi /\ Queue.maxsize qi = 5)
  /\ snd r = set_results_queue_size size (snd (start ventilator p)).
Proof.
  intros Hs. cbv zeta. rewrite !start_eq.
  change (_stop_event (set_results_queue_size size p)) with (_stop_event p).
  rewrite Hs. simpl.
  split; [reflexivity |].
  destruct ventilator; simpl; (split; [reflexivity |]);
    (split; [reflexivity |]); (split; [| reflexivity]);
    intros i q Hq Hi; injection Hq as <-;
    exists (Queue.new 5); (split; [| reflexivity]);
    apply lookup_replicate_2, Hi.
Qed.

Lemma start_ignores_results_queue_size_witness :
  _stop_event (new_pool 4) = false
  /\ let r := start None (set_results_queue_size 3 (new_pool 4)) in
     fst r = Returns tt
     /\ _results_queues (snd r)
        = Some (replicate (workers_count (new_pool 4)) (Queue.new 5))
     /\ _shared_results_queue (snd r) = Some (Queue.new 25)
     /\ (forall i q, _results_queues (snd r) = Some q ->
           i < workers_count (new_pool 4) ->
           exists qi, q !! i = Some qi /\ Queue.maxsize qi = 5)
     /\ snd r = set_results_queue_size 3 (snd (start None (new_pool 4))).
Proof.
  split; [reflexivity |].
  apply (start_ignores_results_queue_size None (new_pool 4) 3). reflexivity.
Defined.

(** * Further properties of the code *)

(** ** [ventilate] and the queries of a pool, before and after [start] *)

(** X1.  On a started pool of at least four workers with unbounded input
    queues, [ventilate] returns; item [j] of the list goes to the end of
    the input queue of worker [j mod N], the counter of ventilated items
    grows by the length of the list, and the results queues, the worker
    status and the threads stay as they are. *)
Theorem ventilate_deals_round_robin (items : list WorkItem)
    (p : ThreadPool.t) :
  started p = true -> inputs_unbounded p = true -> 4 <= workers_count p ->
  exists p',
    ventilate items p = (Returns tt, p')
    /\ _ventilated_items p' = _ventilated_items p + length items
    /\ (forall w, w < workers_count p ->
          input_of p' w
          = input_of p w ++ share_of (workers_count p) w 0 items)
    /\ (forall w, output_of p' w = output_of p w)
    /\ shared_contents p' = shared_contents p
    /\ _worker_status p' = _worker_status p
    /\ same_lifecycle p p'.
Proof.
  intros Hst Hunb Hn.
  destruct (started_inv p Hst) as (vqs & rqs & sq & Hvqs & _ & _ & Hlen & _).
  destruct (ventilate_loop_round_robin items 0 p vqs)
    as (vqs' & Hrun & Hlen' & _ & Hshare);
    [lia | exact Hvqs | exact Hlen
    | exact (inputs_unbounded_inv p vqs Hunb Hvqs) |].
  eexists. split; [| split; [| split; [| split; [| split; [| split]]]]].
  - unfold ventilate. unfold bind at 1. rewrite Hrun.
    unfold ventilator_queue, ventilator_queues, bind, gets, attr, index, ret.
    simpl.
    destruct vqs' as [| q0 [| q1 [| q2 [| q3 rest]]]]; simpl in *;
      try reflexivity; lia.
  - reflexivity.
  - intros w Hw.
    destruct (lookup_lt_is_Some_2 vqs w) as [q Hq]; [lia |].
    destruct (Hshare w q Hq) as (q' & Hq' & Hqq).
    rewrite (input_of_lookup p vqs w q Hvqs Hq).
    rewrite <- Hqq.
    apply (input_of_lookup _ vqs' w q'); [reflexivity | exact Hq'].
  - reflexivity.
  - reflexivity.
  - reflexivity.
  - split; [reflexivity | split; reflexivity].
Qed.

Lemma ventilate_deals_round_robin_witness :
  started (started_pool 4) = true
  /\ inputs_unbounded (started_pool 4) = true
  /\ 4 <= workers_count (started_pool 4)
  /\ exists p',
       ventilate (items_upto 8) (started_pool 4) = (Returns tt, p')
       /\ _ventilated_items p'
          = _ventilated_items (started_pool 4) + length (items_upto 8)
       /\ (forall w, w < workers_count (started_pool 4) ->
             input_of p' w
             = input_of (started_pool 4) w
               ++ share_of (workers_count (started_pool 4)) w 0 (items_upto 8))
       /\ (forall w, output_of p' w = output_of (started_pool 4) w)
       /\ shared_contents p' = shared_contents (started_pool 4)
       /\ _worker_status p' = _worker_status (started_pool 4)
       /\ same_lifecycle (started_pool 4) p'.
Proof.
  split; [reflexivity |]. split; [reflexivity |]. split; [simpl; lia |].
  apply (ventilate_deals_round_robin (items_upto 8) (started_pool 4));
    [reflexivity | reflexivity | simpl; lia].
Defined.

(** X2.  On a pool whose input queues do not exist yet (it was not
    started), [ventilate] raises and changes nothing: [TypeError] from the
    subscript of [None], or [ZeroDivisionError] from the modulo when the
    list is not empty and the pool has no worker. *)
Theorem ventilate_before_start (items : list WorkItem) (p : ThreadPool.t) :
  _ventilator_queues p = None ->
  ventilate items p
  = (Raises match items with
            | [] => TypeError
            | _ :: _ =>
                if workers_count p =? 0 then ZeroDivisionError else TypeError
            end, p).
Proof.
  intros Hq. unfold ventilate. destruct items as [| x items].
  - unfold ventilator_queue, ventilator_queues, bind, gets, attr, ret, raise.
    simpl. rewrite Hq. reflexivity.
  - simpl ventilate_loop. unfold ventilator_queue, ventilator_queues.
    unfold bind, gets, attr, ret, raise.
    destruct (workers_count p =? 0); [reflexivity |].
    rewrite Hq. reflexivity.
Qed.

Lemma ventilate_before_start_witness :
  _ventilator_queues (new_pool 4) = None
  /\ ventilate (items_upto 8) (new_pool 4)
     = (Raises match items_upto 8 with
               | [] => TypeError
               | _ :: _ =>
                   if workers_count (new_pool 4) =? 0 then ZeroDivisionError
                   else TypeError
               end, new_pool 4).
Proof.
  split; [reflexivity |].
  apply (ventilate_before_start (items_upto 8) (new_pool 4)). reflexivity.
Defined.

(** X3.  On a pool that was constructed and never started, [completed],
    [get_results], [results_qsize] and [diagnostics] raise
    [AttributeError] and change nothing: [__init__] does not assign the
    results queues they read. *)
Theorem queries_before_start (n : nat) (results_queue_size : Z)
    (profiling_enabled shuffle_rows : bool) (seed : option Z) :
  let p := __init__ n results_queue_size profiling_enabled shuffle_rows seed in
  completed p = (Raises AttributeError, p)
  /\ (forall permutation process fuel k,
        get_results permutation process fuel (S k) p
        = (Raises AttributeError, p))
  /\ results_qsize p = (Raises AttributeError, p)
  /\ diagnostics p = (Raises AttributeError, p).
Proof.
  intros p.
  assert (Hc : completed p = (Raises AttributeError, p)).
  { unfold completed, all_workers_done. destruct n as [| n]; reflexivity. }
  split; [exact Hc |]. split; [| split; reflexivity].
  intros permutation process fuel k. simpl get_results.
  unfold bind at 1. rewrite Hc. reflexivity.
Qed.

(** X4.  [stop()] on a pool with neither a ventilator nor a consumer
    thread (a pool that was not started) returns and sets the stop event;
    every later [start()] raises [RuntimeError] and changes nothing. *)
Theorem stop_before_start_disables_pool
    (permutation : option Z -> nat -> list WorkItem -> list WorkItem)
    (p : ThreadPool.t) :
  _ventilator p = None ->
  _round_robin_thread p = None ->
  stop permutation p = (Returns tt, set_stop_event true p)
  /\ forall ventilator,
       start ventilator (set_stop_event true p)
       = (Raises RuntimeError, set_stop_event true p).
Proof.
  intros Hv Hth. split.
  - unfold stop, bind, gets, ret, modify. rewrite Hv, Hth. reflexivity.
  - intros ventilator. rewrite start_eq. reflexivity.
Qed.

Lemma stop_before_start_disables_pool_witness :
  _ventilator (new_pool 4) = None
  /\ _round_robin_thread (new_pool 4) = None
  /\ stop no_permutation (new_pool 4)
     = (Returns tt, set_stop_event true (new_pool 4))
  /\ forall ventilator,
       start ventilator (set_stop_event true (new_pool 4))
       = (Raises RuntimeError, set_stop_event true (new_pool 4)).
Proof.
  split; [reflexivity |]. split; [reflexivity |].
  apply (stop_before_start_disables_pool no_permutation (new_pool 4));
    reflexivity.
Defined.

(** X5.  On a started pool with a ventilator attached, [completed()]
    changes nothing and returns [True] exactly when every worker is
    drained (its results queue and its input queue are empty and it is
    idle), the shared results queue is empty, and the ventilator says it
    is completed. *)
Theorem completed_is_drained_and_ventilated (p : ThreadPool.t)
    (v : ConcurrentVentilator.t) (c : bool) :
  started p = true ->
  _ventilator p = Some v ->
  ConcurrentVentilator.completed v = Returns c ->
  completed p
  = (Returns (every_worker_drained p && shared_queue_empty p && c), p).
Proof.
  intros Hst Hv Hc.
  destruct (started_inv p Hst) as (vqs & rqs & sq & _ & _ & Hsq & _).
  unfold completed, shared_results_queue, lift_outcome.
  unfold bind, gets, attr, ret.
  rewrite (all_workers_done_started p Hst). cbv beta iota.
  rewrite Hsq, Hv. cbv beta iota. rewrite Hc. cbv beta iota.
  rewrite (all_workers_done_started p Hst). cbv beta iota.
  unfold shared_queue_empty. rewrite Hsq.
  destruct (every_worker_drained p); simpl; [| reflexivity].
  rewrite Hsq. destruct (Queue.empty sq); simpl; [| reflexivity].
  rewrite Hv, Hc. destruct c; reflexivity.
Qed.

Lemma completed_is_drained_and_ventilated_witness :
  started results_waiting_pool = true
  /\ _ventilator results_waiting_pool
     = Some (ConcurrentVentilator.start (new_ventilator (items_upto 8) 1))
  /\ ConcurrentVentilator.completed
       (ConcurrentVentilator.start (new_ventilator (items_upto 8) 1))
     = Returns false
  /\ completed results_waiting_pool
     = (Returns (every_worker_drained results_waiting_pool
                 && shared_queue_empty results_waiting_pool && false),
        results_waiting_pool).
Proof.
  split; [reflexivity |]. split; [reflexivity |]. split; [reflexivity |].
  apply (completed_is_drained_and_ventilated results_waiting_pool
           (ConcurrentVentilator.start (new_ventilator (items_upto 8) 1))
           false); reflexivity.
Defined.

(** ** [get_results] *)

Section GetResults.
Variable permutation : option Z -> nat -> list WorkItem -> list WorkItem.
Variable process : nat -> WorkItem -> list Payload * option PyExc.
Variable fuel : nat.

(** One pass of [get_results] on a pool where [completed()] is false. *)
Lemma get_results_pass (n : nat) (p : ThreadPool.t) :
  completed p = (Returns false, p) ->
  get_results permutation process fuel (S n) p
  = try_except
      (q <- shared_results_queue;;
       match Queue.get_nowait q with
       | None => raise QueueEmpty
       | Some (result, q') =>
           store_shared_results_queue q';;;
           match is_exception result with
           | Some e => stop permutation;;; join process fuel;;; raise e
           | None => ret result
           end
       end)
      (fun e =>
         match e with
         | QueueEmpty => Some (get_results permutation process fuel n)
         | _ => None
         end) p.
Proof.
  intros Hc. simpl. unfold bind at 1. rewrite Hc. unfold bind at 1.
  rewrite Hc. reflexivity.
Qed.

(** X6.  On a started pool with a ventilator attached, [get_results()]
    returns the oldest element of the shared results queue when that
    element is not an exception, and removes it.  The element may be a
    [VentilatedItemProcessedMessage]: the markers reach the caller. *)
Theorem get_results_returns_oldest (n : nat) (p : ThreadPool.t)
    (v : ConcurrentVentilator.t) (c : bool) (m : nat) (x : Payload)
    (rest : list Payload) :
  started p = true ->
  _ventilator p = Some v ->
  ConcurrentVentilator.completed v = Returns c ->
  _shared_results_queue p = Some (Queue.Build m (x :: rest)) ->
  is_exception x = None ->
  get_results permutation process fuel (S n) p
  = (Returns x, set_shared_results_queue (Some (Queue.Build m rest)) p).
Proof.
  intros Hst Hv Hc Hq Hx.
  assert (Hcomp : completed p = (Returns false, p)).
  { rewrite (completed_with_ventilator p v c Hst Hv Hc).
    unfold shared_queue_empty. rewrite Hq. simpl.
    rewrite andb_false_r. reflexivity. }
  rewrite (get_results_pass n p Hcomp).
  unfold try_except, shared_results_queue, store_shared_results_queue.
  unfold bind, gets, attr, ret, modify. rewrite Hq. simpl. rewrite Hx.
  reflexivity.
Qed.

(** X7.  On a started pool whose workers are all drained, whose shared
    results queue is empty and whose ventilator is completed,
    [get_results()] raises [EmptyResultError] and changes nothing. *)
Theorem get_results_end_of_stream (n : nat) (p : ThreadPool.t)
    (v : ConcurrentVentilator.t) :
  started p = true ->
  _ventilator p = Some v ->
  ConcurrentVentilator.completed v = Returns true ->
  every_worker_drained p = true ->
  shared_queue_empty p = true ->
  get_results permutation process fuel (S n) p = (Raises EmptyResultError, p).
Proof.
  intros Hst Hv Hc Hd He.
  pose proof (completed_with_ventilator p v true Hst Hv Hc) as Hcomp.
  rewrite Hd, He in Hcomp. simpl in Hcomp.
  simpl. unfold bind at 1. rewrite Hcomp. unfold bind at 1. rewrite Hcomp.
  reflexivity.
Qed.

(** X8.  On a started pool whose shared results queue is empty while a
    worker is not drained or the ventilator is not completed,
    [get_results()] neither returns nor raises, however many passes its
    loop makes, and changes nothing: it waits for the other threads. *)
Theorem get_results_waits (p : ThreadPool.t) (v : ConcurrentVentilator.t)
    (c : bool) :
  started p = true ->
  _ventilator p = Some v ->
  ConcurrentVentilator.completed v = Returns c ->
  shared_queue_empty p = true ->
  (every_worker_drained p && c) = false ->
  forall n, get_results permutation process fuel n p = (Pending, p).
Proof.
  intros Hst Hv Hc He Hopen.
  assert (Hcomp : completed p = (Returns false, p)).
  { rewrite (completed_with_ventilator p v c Hst Hv Hc), He.
    rewrite andb_true_r, Hopen. reflexivity. }
  destruct (started_inv p Hst) as (vqs & rqs & sq & _ & _ & Hsq & _).
  unfold shared_queue_empty in He. rewrite Hsq in He.
  induction n as [| n IH]; [reflexivity |].
  rewrite (get_results_pass n p Hcomp).
  unfold try_except, shared_results_queue.
  unfold bind, gets, attr, ret, raise. rewrite Hsq.
  unfold Queue.get_nowait. unfold Queue.empty in He.
  destruct (Queue.queue sq); [| discriminate He].
  exact IH.
Qed.
End GetResults.

Lemma get_results_returns_oldest_witness :
  started results_waiting_pool = true
  /\ _ventilator results_waiting_pool
     = Some (ConcurrentVentilator.start (new_ventilator (items_upto 8) 1))
  /\ ConcurrentVentilator.completed
       (ConcurrentVentilator.start (new_ventilator (items_upto 8) 1))
     = Returns false
  /\ _shared_results_queue results_waiting_pool
     = Some (Queue.Build 25 [Data 0; VentilatedItemProcessedMessage])
  /\ is_exception (Data 0) = None
  /\ get_results no_permutation identity_process 3 1 results_waiting_pool
     = (Returns (Data 0),
        set_shared_results_queue
          (Some (Queue.Build 25 [VentilatedItemProcessedMessage]))
          results_waiting_pool).
Proof.
  split; [reflexivity |]. split; [reflexivity |]. split; [reflexivity |].
  split; [reflexivity |]. split; [reflexivity |].
  apply (get_results_returns_oldest no_permutation identity_process 3 0
           results_waiting_pool
           (ConcurrentVentilator.start (new_ventilator (items_upto 8) 1))
           false 25 (Data 0) [VentilatedItemProcessedMessage]);
    reflexivity.
Defined.

Lemma get_results_end_of_stream_witness :
  started (started_pool_with 4 (new_ventilator [] 1)) = true
  /\ _ventilator (started_pool_with 4 (new_ventilator [] 1))
     = Some (ConcurrentVentilator.start (new_ventilator [] 1))
  /\ ConcurrentVentilator.completed
       (ConcurrentVentilator.start (new_ventilator [] 1))
     = Returns true
  /\ every_worker_drained (started_pool_with 4 (new_ventilator [] 1)) = true
  /\ shared_queue_empty (started_pool_with 4 (new_ventilator [] 1)) = true
  /\ get_results no_permutation identity_process 3 1
       (started_pool_with 4 (new_ventilator [] 1))
     = (Raises EmptyResultError, started_pool_with 4 (new_ventilator [] 1)).
Proof.
  split; [reflexivity |]. split; [reflexivity |]. split; [reflexivity |].
  split; [reflexivity |]. split; [reflexivity |].
  apply (get_results_end_of_stream no_permutation identity_process 3 0
           (started_pool_with 4 (new_ventilator [] 1))
           (ConcurrentVentilator.start (new_ventilator [] 1)));
    reflexivity.
Defined.

Lemma get_results_waits_witness :
  started (started_pool_with 4 (new_ventilator (items_upto 8) 1)) = true
  /\ _ventilator (started_pool_with 4 (new_ventilator (items_upto 8) 1))
     = Some (ConcurrentVentilator.start (new_ventilator (items_upto 8) 1))
  /\ ConcurrentVentilator.completed
       (ConcurrentVentilator.start (new_ventilator (items_upto 8) 1))
     = Returns false
  /\ shared_queue_empty
       (started_pool_with 4 (new_ventilator (items_upto 8) 1)) = true
  /\ (every_worker_drained
        (started_pool_with 4 (new_ventilator (items_upto 8) 1)) && false)
     = false
  /\ forall n,
       get_results no_permutation identity_process 3 n
         (started_pool_with 4 (new_ventilator (items_upto 8) 1))
       = (Pending, started_pool_with 4 (new_ventilator (items_upto 8) 1)).
Proof.
  split; [reflexivity |]. split; [reflexivity |]. split; [reflexivity |].
  split; [reflexivity |]. split; [reflexivity |].
  apply (get_results_waits no_permutation identity_process 3
           (started_pool_with 4 (new_ventilator (items_upto 8) 1))
           (ConcurrentVentilator.start (new_ventilator (items_upto 8) 1))
           false); reflexivity.
Defined.

(** ** [_stop_aware_put] *)

Lemma room_not_full {A} (q : Queue.t A) (k : nat) :
  room_for q (S k) -> Queue.full q = false.
Proof.
  unfold room_for, Queue.full, Queue.qsize. intros [-> | H]; [reflexivity |].
  apply andb_false_iff. right. apply Nat.leb_gt. lia.
Qed.

(** One pass of the loop of [_stop_aware_put]. *)
Lemma stop_aware_put_step (fuel : nat) (data : Payload) (i : nat)
    (p : ThreadPool.t) (rqs : list (Queue.t Payload)) (q : Queue.t Payload) :
  _results_queues p = Some rqs ->
  rqs !! i = Some q ->
  _stop_aware_put (S fuel) data i p
  = match Queue.put_nowait data q with
    | Some q' => (Returns tt, set_results_queues (Some (<[i := q']> rqs)) p)
    | None =>
        if _stop_event p then (Raises WorkerTerminationRequested, p)
        else _stop_aware_put fuel data i p
    end.
Proof.
  intros Hrqs Hq. simpl.
  unfold results_queue, results_queues, bind, gets, attr, index, ret.
  rewrite Hrqs, Hq. destruct (Queue.put_nowait data q).
  - unfold store_results_queue, modify. rewrite Hrqs. reflexivity.
  - destruct (_stop_event p); reflexivity.
Qed.

(** X9.  When the results queue of worker [i] is not full,
    [_stop_aware_put(data, i)] returns at its first attempt with [data]
    appended to that queue, whether the stop event is set or not. *)
Theorem stop_aware_put_appends (fuel : nat) (data : Payload) (i : nat)
    (p : ThreadPool.t) (rqs : list (Queue.t Payload)) (q : Queue.t Payload) :
  _results_queues p = Some rqs ->
  rqs !! i = Some q ->
  Queue.full q = false ->
  _stop_aware_put (S fuel) data i p
  = (Returns tt,
     set_results_queues
       (Some (<[i := Queue.Build (Queue.maxsize q) (Queue.queue q ++ [data])]>
                rqs)) p).
Proof.
  intros Hrqs Hq Hfull.
  rewrite (stop_aware_put_step fuel data i p rqs q Hrqs Hq).
  unfold Queue.put_nowait. rewrite Hfull. reflexivity.
Qed.

Lemma stop_aware_put_appends_witness :
  _results_queues (started_pool 4) = Some (replicate 4 (Queue.new 5))
  /\ replicate 4 (@Queue.new Payload 5) !! 2 = Some (Queue.new 5)
  /\ Queue.full (@Queue.new Payload 5) = false
  /\ _stop_aware_put 1 (Data 7) 2 (started_pool 4)
     = (Returns tt,
        set_results_queues
          (Some (<[2 := Queue.Build (Queue.maxsize (@Queue.new Payload 5))
                          (Queue.queue (Queue.new 5) ++ [Data 7])]>
                   (replicate 4 (Queue.new 5)))) (started_pool 4)).
Proof.
  split; [reflexivity |]. split; [reflexivity |]. split; [reflexivity |].
  apply (stop_aware_put_appends 0 (Data 7) 2 (started_pool 4)
           (replicate 4 (Queue.new 5)) (Queue.new 5)); reflexivity.
Defined.

(** X10.  When the results queue of worker [i] is full,
    [_stop_aware_put(data, i)] changes nothing: it raises
    [WorkerTerminationRequested] if the stop event is set, and otherwise
    keeps retrying, however many passes its loop makes. *)
Theorem stop_aware_put_full (fuel : nat) (data : Payload) (i : nat)
    (p : ThreadPool.t) (rqs : list (Queue.t Payload)) (q : Queue.t Payload) :
  _results_queues p = Some rqs ->
  rqs !! i = Some q ->
  Queue.full q = true ->
  _stop_aware_put (S fuel) data i p
  = (if _stop_event p then Raises WorkerTerminationRequested else Pending, p).
Proof.
  intros Hrqs Hq Hfull. induction fuel as [| fuel IH].
  - rewrite (stop_aware_put_step 0 data i p rqs q Hrqs Hq).
    unfold Queue.put_nowait. rewrite Hfull.
    destruct (_stop_event p); reflexivity.
  - rewrite (stop_aware_put_step (S fuel) data i p rqs q Hrqs Hq).
    unfold Queue.put_nowait. rewrite Hfull.
    destruct (_stop_event p) eqn:Hs; [reflexivity |].
    rewrite IH. reflexivity.
Qed.

Lemma stop_aware_put_full_witness :
  _results_queues full_outputs_pool
  = Some (replicate 4 (Queue.Build 5 (replicate 5 (Data 0))))
  /\ replicate 4 (Queue.Build 5 (replicate 5 (Data 0))) !! 2
     = Some (Queue.Build 5 (replicate 5 (Data 0)))
  /\ Queue.full (Queue.Build 5 (replicate 5 (Data 0))) = true
  /\ _stop_aware_put 4 (Data 7) 2 full_outputs_pool
     = (if _stop_event full_outputs_pool
        then Raises WorkerTerminationRequested else Pending,
        full_outputs_pool).
Proof.
  split; [reflexivity |]. split; [reflexivity |]. split; [reflexivity |].
  apply (stop_aware_put_full 3 (Data 7) 2 full_outputs_pool
           (replicate 4 (Queue.Build 5 (replicate 5 (Data 0))))
           (Queue.Build 5 (replicate 5 (Data 0)))); reflexivity.
Defined.

(** ** [WorkerThread.run] *)

Lemma set_results_queues_same (p : ThreadPool.t) (rqs : list (Queue.t Payload)) :
  _results_queues p = Some rqs -> set_results_queues (Some rqs) p = p.
Proof. intros H. destruct p; simpl in *. subst. reflexivity. Qed.

(** The calls of [publish_func] made by one call of [process], when the
    results queue of the worker has room for what they publish. *)
Lemma publish_all_room (fuel i : nat) (l : list Payload) :
  forall (p : ThreadPool.t) (rqs : list (Queue.t Payload))
         (q : Queue.t Payload),
    _results_queues p = Some rqs -> rqs !! i = Some q ->
    room_for q (length l) ->
    publish_all (S fuel) i l p
    = (Returns tt,
       set_results_queues
         (Some (<[i := Queue.Build (Queue.maxsize q) (Queue.queue q ++ l)]> rqs))
         p).
Proof.
  induction l as [| x l IH]; intros p rqs q Hrqs Hq Hroom.
  - simpl. unfold ret. f_equal. rewrite app_nil_r.
    replace (Queue.Build (Queue.maxsize q) (Queue.queue q)) with q
      by (destruct q; reflexivity).
    rewrite list_insert_id by exact Hq.
    symmetry. apply set_results_queues_same, Hrqs.
  - change (publish_all (S fuel) i (x :: l))
      with (_stop_aware_put (S fuel) x i;;; publish_all (S fuel) i l).
    unfold bind at 1.
    rewrite (stop_aware_put_step fuel x i p rqs q Hrqs Hq).
    unfold Queue.put_nowait. rewrite (room_not_full q (length l) Hroom).
    set (q1 := Queue.Build (Queue.maxsize q) (Queue.queue q ++ [x])).
    assert (Hi : i < length rqs) by (eapply lookup_lt_Some, Hq).
    rewrite (IH _ (<[i := q1]> rqs) q1).
    + f_equal. rewrite list_insert_insert_eq. simpl.
      rewrite <- app_assoc. reflexivity.
    + reflexivity.
    + apply list_lookup_insert_eq, Hi.
    + unfold room_for in *. simpl in *. rewrite length_app. simpl.
      destruct Hroom as [H | H]; [left; exact H | right; lia].
Qed.

(** Worker [i] takes the oldest item of its input queue and marks itself
    busy. *)
Lemma worker_takes_item {B} (k : WorkItem -> M ThreadPool.t B) (i : nat)
    (p : ThreadPool.t) (vqs : list (Queue.t WorkItem)) (mv : nat)
    (it : WorkItem) (rest : list WorkItem) :
  _ventilator_queues p = Some vqs ->
  vqs !! i = Some (Queue.Build mv (it :: rest)) ->
  i < length (_worker_status p) ->
  (q <- ventilator_queue i;;
   match Queue.get_nowait q with
   | None => raise QueueEmpty
   | Some (item, q') =>
       store_ventilator_queue i q';;; _set_worker_busy i;;; k item
   end) p
  = k it (set_worker_status (<[i := true]> (_worker_status p))
            (set_ventilator_queues
               (Some (<[i := Queue.Build mv rest]> vqs)) p)).
Proof.
  intros Hvqs Hvq Hi. apply Nat.ltb_lt in Hi.
  unfold ventilator_queue, ventilator_queues, store_ventilator_queue,
    _set_worker_busy, store_worker_status.
  unfold bind, gets, attr, index, ret, modify.
  rewrite Hvqs, Hvq. simpl. rewrite Hvqs. simpl. rewrite Hi. reflexivity.
Qed.

(** [self._results_queue.put(e)] in one step. *)
Lemma put_exception_step (e : PyExc) (i : nat) (p : ThreadPool.t)
    (rqs : list (Queue.t Payload)) (q : Queue.t Payload) :
  _results_queues p = Some rqs ->
  rqs !! i = Some q ->
  put_exception i e p
  = match Queue.put_nowait (ExcValue e) q with
    | Some q' => (Returns tt, set_results_queues (Some (<[i := q']> rqs)) p)
    | None => (Pending, p)
    end.
Proof.
  intros Hrqs Hq.
  unfold put_exception, results_queue, results_queues, bind, gets, attr,
    index, ret.
  rewrite Hrqs, Hq. destruct (Queue.put_nowait (ExcValue e) q).
  - unfold store_results_queue, modify. rewrite Hrqs. reflexivity.
  - reflexivity.
Qed.

Section WorkerPass.
Variable process : nat -> WorkItem -> list Payload * option PyExc.
Variable fuel : nat.

(** X11.  A pass of the loop of worker [i], with the stop event clear, an
    item in its input queue and room in its results queue: the worker
    takes the oldest item, the values that [process] publishes are
    appended to its results queue in order, followed by one
    [VentilatedItemProcessedMessage], the worker ends the pass idle, and
    the loop continues. *)
Theorem worker_pass_processes_item (i : nat) (p : ThreadPool.t)
    (vqs : list (Queue.t WorkItem)) (mv : nat) (it : WorkItem)
    (rest : list WorkItem) (rqs : list (Queue.t Payload))
    (q : Queue.t Payload) (published : list Payload) :
  _stop_event p = false ->
  _ventilator_queues p = Some vqs ->
  vqs !! i = Some (Queue.Build mv (it :: rest)) ->
  i < length (_worker_status p) ->
  _results_queues p = Some rqs ->
  rqs !! i = Some q ->
  process i it = (published, None) ->
  room_for q (length published + 1) ->
  run_iteration process (S fuel) i p
  = (Returns Continue,
     set_worker_status (<[i := false]> (_worker_status p))
       (set_results_queues
          (Some (<[i := Queue.Build (Queue.maxsize q)
                           (Queue.queue q ++ published
                            ++ [VentilatedItemProcessedMessage])]> rqs))
          (set_ventilator_queues
             (Some (<[i := Queue.Build mv rest]> vqs)) p))).
Proof.
  intros Hstop Hvqs Hvq Hi Hrqs Hrq Hproc Hroom.
  unfold run_iteration. unfold bind at 1. unfold gets at 1. rewrite Hstop.
  unfold try_except.
  rewrite (worker_takes_item _ i p vqs mv it rest Hvqs Hvq Hi).
  rewrite Hproc.
  set (p1 := set_worker_status _ _).
  assert (Hi' : (i <? length (_worker_status p1)) = true).
  { unfold p1. simpl. rewrite length_insert. apply Nat.ltb_lt, Hi. }
  unfold bind at 1.
  assert (Hroom1 : room_for q (length published)).
  { unfold room_for in *. destruct Hroom; [left; assumption | right; lia]. }
  rewrite (publish_all_room fuel i published p1 rqs q Hrqs Hrq Hroom1).
  set (q1 := Queue.Build (Queue.maxsize q) (Queue.queue q ++ published)).
  set (p2 := set_results_queues _ p1).
  assert (Hlt : i < length rqs) by (eapply lookup_lt_Some, Hrq).
  unfold bind at 1. unfold ret at 1. unfold bind at 1.
  rewrite (stop_aware_put_step fuel VentilatedItemProcessedMessage i p2
             (<[i := q1]> rqs) q1 eq_refl
             (list_lookup_insert_eq rqs i q1 Hlt)).
  unfold Queue.put_nowait.
  rewrite (room_not_full q1 0).
  2:{ unfold room_for, q1 in *. simpl. rewrite length_app.
      destruct Hroom; [left; assumption | right; lia]. }
  unfold _set_worker_idle, store_worker_status.
  unfold bind, gets, ret, modify.
  change (_worker_status (set_results_queues _ p2)) with (_worker_status p1).
  rewrite Hi'. f_equal.
  unfold p2, p1, q1. simpl. rewrite !list_insert_insert_eq.
  rewrite <- app_assoc. reflexivity.
Qed.

(** A pass of the loop of worker [i] whose call of [process] raises. *)
Lemma run_iteration_raises (i : nat) (p : ThreadPool.t)
    (vqs : list (Queue.t WorkItem)) (mv : nat) (it : WorkItem)
    (rest : list WorkItem) (rqs : list (Queue.t Payload))
    (q : Queue.t Payload) (published : list Payload) (e : PyExc) :
  _stop_event p = false ->
  _ventilator_queues p = Some vqs ->
  vqs !! i = Some (Queue.Build mv (it :: rest)) ->
  i < length (_worker_status p) ->
  _results_queues p = Some rqs ->
  rqs !! i = Some q ->
  process i it = (published, Some e) ->
  unexpected e = true ->
  room_for q (length published + 1) ->
  run_iteration process (S fuel) i p
  = (Returns Break,
     set_results_queues
       (Some (<[i := Queue.Build (Queue.maxsize q)
                        (Queue.queue q ++ published ++ [ExcValue e])]> rqs))
       (set_worker_status (<[i := true]> (_worker_status p))
          (set_ventilator_queues
             (Some (<[i := Queue.Build mv rest]> vqs)) p))).
Proof.
  intros Hstop Hvqs Hvq Hi Hrqs Hrq Hproc He Hroom.
  unfold run_iteration. unfold bind at 1. unfold gets at 1. rewrite Hstop.
  unfold try_except.
  rewrite (worker_takes_item _ i p vqs mv it rest Hvqs Hvq Hi).
  rewrite Hproc.
  set (p1 := set_worker_status _ _).
  unfold bind at 1.
  assert (Hroom1 : room_for q (length published)).
  { unfold room_for in *. destruct Hroom; [left; assumption | right; lia]. }
  rewrite (publish_all_room fuel i published p1 rqs q Hrqs Hrq Hroom1).
  set (q1 := Queue.Build (Queue.maxsize q) (Queue.queue q ++ published)).
  set (p2 := set_results_queues _ p1).
  assert (Hlt : i < length rqs) by (eapply lookup_lt_Some, Hrq).
  unfold bind at 1. unfold raise at 1.
  assert (Hput : (put_exception i e;;; ret Break) p2
                 = (Returns Break,
                    set_results_queues
                      (Some (<[i := Queue.Build (Queue.maxsize q)
                                       (Queue.queue q ++ published
                                        ++ [ExcValue e])]> rqs)) p1)).
  { unfold bind at 1.
    rewrite (put_exception_step e i p2 (<[i := q1]> rqs) q1 eq_refl
               (list_lookup_insert_eq rqs i q1 Hlt)).
    unfold Queue.put_nowait. rewrite (room_not_full q1 0).
    2:{ unfold room_for, q1 in *. simpl. rewrite length_app.
        destruct Hroom; [left; assumption | right; lia]. }
    f_equal. unfold p2, q1. simpl. rewrite !list_insert_insert_eq.
    rewrite <- app_assoc. reflexivity. }
  destruct e; try discriminate He; exact Hput.
Qed.

(** X12.  The thread of worker [i] whose call of [process] raises an
    exception [e] other than [queue.Empty] and
    [WorkerTerminationRequested]: the values published before the
    exception and then [e] itself are appended to the results queue of the
    worker, and the thread ends.  Its status is left busy, so the worker
    never counts as drained. *)
Theorem worker_thread_ends_on_exception (i : nat) (p : ThreadPool.t)
    (vqs : list (Queue.t WorkItem)) (mv : nat) (it : WorkItem)
    (rest : list WorkItem) (rqs : list (Queue.t Payload))
    (q : Queue.t Payload) (published : list Payload) (e : PyExc) :
  _stop_event p = false ->
  _ventilator_queues p = Some vqs ->
  vqs !! i = Some (Queue.Build mv (it :: rest)) ->
  i < length (_worker_status p) ->
  _results_queues p = Some rqs ->
  rqs !! i = Some q ->
  process i it = (published, Some e) ->
  unexpected e = true ->
  room_for q (length published + 1) ->
  let p' :=
    terminate_worker i
      (set_results_queues
         (Some (<[i := Queue.Build (Queue.maxsize q)
                          (Queue.queue q ++ published ++ [ExcValue e])]> rqs))
         (set_worker_status (<[i := true]> (_worker_status p))
            (set_ventilator_queues
               (Some (<[i := Queue.Build mv rest]> vqs)) p))) in
  run process (S fuel) i p = (Returns tt, p')
  /\ _worker_status p' !! i = Some true
  /\ worker_drained p' i = false.
Proof.
  intros Hstop Hvqs Hvq Hi Hrqs Hrq Hproc He Hroom p'.
  assert (Hlt : i < length rqs) by (eapply lookup_lt_Some, Hrq).
  split; [| split].
  - unfold run. simpl run_loop. unfold bind at 1.
    rewrite (run_iteration_raises i p vqs mv it rest rqs q published e
               Hstop Hvqs Hvq Hi Hrqs Hrq Hproc He Hroom).
    reflexivity.
  - unfold p'. simpl. apply list_lookup_insert_eq, Hi.
  - unfold worker_drained, p'. simpl.
    rewrite (list_lookup_insert_eq rqs i _ Hlt).
    rewrite (list_lookup_insert_eq (_worker_status p) i true Hi).
    rewrite (list_lookup_insert_eq vqs i _ (lookup_lt_Some _ _ _ Hvq)).
    rewrite andb_false_r. reflexivity.
Qed.

(** The passes of a worker that finds nothing in its input queue. *)
Lemma run_loop_idle (f n i : nat) (p : ThreadPool.t)
    (vqs : list (Queue.t WorkItem)) (q : Queue.t WorkItem) :
  _stop_event p = false ->
  _ventilator_queues p = Some vqs ->
  vqs !! i = Some q ->
  Queue.empty q = true ->
  i < length (_worker_status p) ->
  run_loop process f n i p
  = (Pending,
     match n with
     | 0 => p
     | S _ => set_worker_status (<[i := false]> (_worker_status p)) p
     end).
Proof.
  intros Hstop Hvqs Hvq Hq.
  assert (Hpass : forall p0 : ThreadPool.t,
            _stop_event p0 = false -> _ventilator_queues p0 = Some vqs ->
            i < length (_worker_status p0) ->
            run_iteration process f i p0
            = (Returns Continue,
               set_worker_status (<[i := false]> (_worker_status p0)) p0)).
  { intros p0 Hs Hv Hi. apply Nat.ltb_lt in Hi.
    unfold run_iteration. unfold bind at 1. unfold gets at 1. rewrite Hs.
    unfold try_except, ventilator_queue, ventilator_queues, _set_worker_idle,
      store_worker_status.
    unfold bind, gets, attr, index, ret, raise, modify.
    rewrite Hv, Hvq. unfold Queue.get_nowait. unfold Queue.empty in Hq.
    destruct (Queue.queue q); [| discriminate Hq].
    rewrite Hi. reflexivity. }
  revert p Hstop Hvqs.
  induction n as [| n IH]; intros p Hstop Hvqs Hi; [reflexivity |].
  simpl run_loop. unfold bind at 1. rewrite (Hpass p Hstop Hvqs Hi).
  rewrite IH; [| exact Hstop | exact Hvqs | simpl; rewrite length_insert; exact Hi].
  f_equal. destruct n as [| n]; [reflexivity |].
  simpl. rewrite list_insert_insert_eq. reflexivity.
Qed.

(** X13.  The thread of worker [i], with the stop event clear and nothing
    in its input queue: it marks the worker idle and stays in its loop,
    however many passes the loop makes. *)
Theorem worker_thread_waits_for_items (i : nat) (p : ThreadPool.t)
    (vqs : list (Queue.t WorkItem)) (q : Queue.t WorkItem) :
  _stop_event p = false ->
  _ventilator_queues p = Some vqs ->
  vqs !! i = Some q ->
  Queue.empty q = true ->
  i < length (_worker_status p) ->
  run process (S fuel) i p
  = (Pending, set_worker_status (<[i := false]> (_worker_status p)) p).
Proof.
  intros Hstop Hvqs Hvq Hq Hi. unfold run.
  rewrite (run_loop_idle (S fuel) (S fuel) i p vqs q Hstop Hvqs Hvq Hq Hi).
  reflexivity.
Qed.
End WorkerPass.

Lemma worker_pass_processes_item_witness :
  _stop_event ventilated_pool = false
  /\ _ventilator_queues ventilated_pool
     = Some [Queue.Build 0 [item 0; item 4]; Queue.Build 0 [item 1; item 5];
             Queue.Build 0 [item 2; item 6]; Queue.Build 0 [item 3; item 7]]
  /\ [Queue.Build 0 [item 0; item 4]; Queue.Build 0 [item 1; item 5];
      Queue.Build 0 [item 2; item 6]; Queue.Build 0 [item 3; item 7]] !! 1
     = Some (Queue.Build 0 [item 1; item 5])
  /\ 1 < length (_worker_status ventilated_pool)
  /\ _results_queues ventilated_pool = Some (replicate 4 (Queue.new 5))
  /\ replicate 4 (@Queue.new Payload 5) !! 1 = Some (Queue.new 5)
  /\ identity_process 1 (item 1) = ([Data 1], None)
  /\ room_for (@Queue.new Payload 5) (length [Data 1] + 1)
  /\ run_iteration identity_process 1 1 ventilated_pool
     = (Returns Continue,
        set_worker_status (<[1 := false]> (_worker_status ventilated_pool))
          (set_results_queues
             (Some (<[1 := Queue.Build (Queue.maxsize (@Queue.new Payload 5))
                             (Queue.queue (Queue.new 5) ++ [Data 1]
                              ++ [VentilatedItemProcessedMessage])]>
                      (replicate 4 (Queue.new 5))))
             (set_ventilator_queues
                (Some (<[1 := Queue.Build 0 [item 5]]>
                         [Queue.Build 0 [item 0; item 4];
                          Queue.Build 0 [item 1; item 5];
                          Queue.Build 0 [item 2; item 6];
                          Queue.Build 0 [item 3; item 7]]))
                ventilated_pool))).
Proof.
  split; [reflexivity |]. split; [reflexivity |]. split; [reflexivity |].
  split; [simpl; lia |]. split; [reflexivity |]. split; [reflexivity |].
  split; [reflexivity |]. split; [right; simpl; lia |].
  apply (worker_pass_processes_item identity_process 0 1 ventilated_pool
           [Queue.Build 0 [item 0; item 4]; Queue.Build 0 [item 1; item 5];
            Queue.Build 0 [item 2; item 6]; Queue.Build 0 [item 3; item 7]]
           0 (item 1) [item 5] (replicate 4 (Queue.new 5)) (Queue.new 5)
           [Data 1]);
    [reflexivity | reflexivity | reflexivity | simpl; lia | reflexivity
    | reflexivity | reflexivity | right; simpl; lia].
Defined.

Lemma worker_thread_ends_on_exception_witness :
  _stop_event ventilated_pool = false
  /\ _ventilator_queues ventilated_pool
     = Some [Queue.Build 0 [item 0; item 4]; Queue.Build 0 [item 1; item 5];
             Queue.Build 0 [item 2; item 6]; Queue.Build 0 [item 3; item 7]]
  /\ [Queue.Build 0 [item 0; item 4]; Queue.Build 0 [item 1; item 5];
      Queue.Build 0 [item 2; item 6]; Queue.Build 0 [item 3; item 7]] !! 1
     = Some (Queue.Build 0 [item 1; item 5])
  /\ 1 < length (_worker_status ventilated_pool)
  /\ _results_queues ventilated_pool = Some (replicate 4 (Queue.new 5))
  /\ replicate 4 (@Queue.new Payload 5) !! 1 = Some (Queue.new 5)
  /\ failing_process 1 1 (item 1) = ([], Some ValueError)
  /\ unexpected ValueError = true
  /\ room_for (@Queue.new Payload 5) (length (@nil Payload) + 1)
  /\ let p' :=
       terminate_worker 1
         (set_results_queues
            (Some (<[1 := Queue.Build (Queue.maxsize (@Queue.new Payload 5))
                            (Queue.queue (Queue.new 5) ++ []
                             ++ [ExcValue ValueError])]>
                     (replicate 4 (Queue.new 5))))
            (set_worker_status
               (<[1 := true]> (_worker_status ventilated_pool))
               (set_ventilator_queues
                  (Some (<[1 := Queue.Build 0 [item 5]]>
                           [Queue.Build 0 [item 0; item 4];
                            Queue.Build 0 [item 1; item 5];
                            Queue.Build 0 [item 2; item 6];
                            Queue.Build 0 [item 3; item 7]]))
                  ventilated_pool))) in
     run (failing_process 1) 1 1 ventilated_pool = (Returns tt, p')
     /\ _worker_status p' !! 1 = Some true
     /\ worker_drained p' 1 = false.
Proof.
  split; [reflexivity |]. split; [reflexivity |]. split; [reflexivity |].
  split; [simpl; lia |]. split; [reflexivity |]. split; [reflexivity |].
  split; [reflexivity |]. split; [reflexivity |].
  split; [right; simpl; lia |].
  apply (worker_thread_ends_on_exception (failing_process 1) 0 1
           ventilated_pool
           [Queue.Build 0 [item 0; item 4]; Queue.Build 0 [item 1; item 5];
            Queue.Build 0 [item 2; item 6]; Queue.Build 0 [item 3; item 7]]
           0 (item 1) [item 5] (replicate 4 (Queue.new 5)) (Queue.new 5)
           [] ValueError);
    [reflexivity | reflexivity | reflexivity | simpl; lia | reflexivity
    | reflexivity | reflexivity | reflexivity | right; simpl; lia].
Defined.

Lemma worker_thread_waits_for_items_witness :
  _stop_event (started_pool 4) = false
  /\ _ventilator_queues (started_pool 4) = Some (replicate 4 (Queue.new 0))
  /\ replicate 4 (@Queue.new WorkItem 0) !! 2 = Some (Queue.new 0)
  /\ Queue.empty (@Queue.new WorkItem 0) = true
  /\ 2 < length (_worker_status (started_pool 4))
  /\ run identity_process 6 2 (started_pool 4)
     = (Pending,
        set_worker_status (<[2 := false]> (_worker_status (started_pool 4)))
          (started_pool 4)).
Proof.
  split; [reflexivity |]. split; [reflexivity |]. split; [reflexivity |].
  split; [reflexivity |]. split; [simpl; lia |].
  apply (worker_thread_waits_for_items identity_process 5 2 (started_pool 4)
           (replicate 4 (Queue.new 0)) (Queue.new 0));
    [reflexivity | reflexivity | reflexivity | reflexivity | simpl; lia].
Defined.

(** ** [join] *)

Lemma ended_terminated (w : WorkerThread) :
  thread_state w = Terminated -> ended w = w.
Proof. destruct w as [i s]. simpl. intros ->. reflexivity. Qed.

Section Join.
Variable process : nat -> WorkItem -> list Payload * option PyExc.
Variable fuel : nat.

(** With the stop event set, the body of a worker thread ends at its first
    test. *)
Lemma run_when_stopped (i : nat) (p : ThreadPool.t) :
  _stop_event p = true ->
  run process (S fuel) i p = (Returns tt, terminate_worker i p).
Proof.
  intros Hstop. unfold run. simpl run_loop. unfold run_iteration.
  unfold bind, gets, ret. rewrite Hstop. reflexivity.
Qed.

Lemma join_workers_when_stopped (ws : list WorkerThread) :
  forall p : ThreadPool.t,
    _stop_event p = true ->
    join_workers process (S fuel) ws p
    = (Returns tt, set_workers (map (joined ws) (_workers p)) p).
Proof.
  induction ws as [| u ws IH]; intros p Hstop.
  - simpl. unfold ret. f_equal. unfold joined. simpl.
    rewrite map_id. destruct p; reflexivity.
  - simpl join_workers. unfold bind at 1.
    destruct (is_alive (thread_state u)) eqn:Hu.
    + rewrite (run_when_stopped (worker_id u) p Hstop).
      rewrite IH by exact Hstop.
      change (set_workers ?L (terminate_worker ?j p)) with (set_workers L p).
      f_equal. f_equal. unfold terminate_worker. simpl.
      rewrite map_map. apply map_ext. intros w.
      unfold joined. simpl. rewrite Hu. simpl.
      destruct (worker_id w =? worker_id u) eqn:E; simpl.
      * destruct (existsb _ ws); reflexivity.
      * reflexivity.
    + unfold ret at 1. rewrite IH by exact Hstop. f_equal. f_equal.
      apply map_ext. intros w. unfold joined. simpl. rewrite Hu. reflexivity.
Qed.

(** X14.  Once the stop event is set, [join()] on a pool without
    profiling returns with every worker thread ended, and changes nothing
    else. *)
Theorem join_after_stop_event (p : ThreadPool.t) :
  _stop_event p = true ->
  _profiling_enabled p = false ->
  join process (S fuel) p
  = (Returns tt, set_workers (map ended (_workers p)) p).
Proof.
  intros Hstop Hprof. unfold join. unfold bind at 1. unfold gets at 1.
  unfold bind at 1. rewrite (join_workers_when_stopped _ p Hstop).
  unfold bind, gets, ret. simpl. rewrite Hprof. f_equal. f_equal.
  apply map_ext_in. intros w Hw. unfold joined.
  destruct (thread_state w) eqn:Hs.
  - replace (existsb _ (_workers p)) with true; [reflexivity |].
    symmetry. apply existsb_exists. exists w.
    split; [exact Hw |]. rewrite Hs, Nat.eqb_refl. reflexivity.
  - rewrite (ended_terminated w Hs). destruct (existsb _ _); reflexivity.
Qed.

(** X15.  While the stop event is clear, [join()] does not return as long
    as the first worker thread that is still alive finds its input queue
    empty: that thread never leaves its loop. *)
Theorem join_waits_while_stop_event_clear (p : ThreadPool.t)
    (pre post : list WorkerThread) (w : WorkerThread)
    (vqs : list (Queue.t WorkItem)) (q : Queue.t WorkItem) :
  _stop_event p = false ->
  _workers p = pre ++ w :: post ->
  Forall (fun u => thread_state u = Terminated) pre ->
  thread_state w = Alive ->
  _ventilator_queues p = Some vqs ->
  vqs !! worker_id w = Some q ->
  Queue.empty q = true ->
  worker_id w < length (_worker_status p) ->
  fst (join process fuel p) = Pending.
Proof.
  intros Hstop Hws Hpre Hw Hvqs Hvq Hq Hi.
  unfold join. unfold bind at 1. unfold gets at 1. rewrite Hws.
  assert (Hj : fst (join_workers process fuel (pre ++ w :: post) p)
               = Pending).
  { clear Hws. induction Hpre as [| u pre Hu Hpre IH].
    - simpl. rewrite Hw. simpl. unfold bind at 1. unfold run.
      rewrite (run_loop_idle process fuel fuel (worker_id w) p vqs q
                 Hstop Hvqs Hvq Hq Hi).
      reflexivity.
    - simpl. rewrite Hu. simpl. unfold bind at 1. unfold ret at 1.
      exact IH. }
  unfold bind at 1.
  destruct (join_workers process fuel (pre ++ w :: post) p) as [o p1].
  simpl in Hj. subst o. reflexivity.
Qed.

(** X16.  [join()] on a pool without worker threads (one that was not
    started, or has no worker) returns at once when profiling is off, and
    raises [AttributeError] when it is on: the statistics to print are
    still [None]. *)
Theorem join_without_workers (p : ThreadPool.t) :
  _workers p = [] ->
  join process fuel p
  = (if _profiling_enabled p then Raises AttributeError else Returns tt, p).
Proof.
  intros Hws. unfold join, bind, gets, ret, raise. rewrite Hws. simpl.
  destruct (_profiling_enabled p); [rewrite Hws |]; reflexivity.
Qed.
End Join.

Lemma join_after_stop_event_witness :
  _stop_event (set_stop_event true (started_pool 4)) = true
  /\ _profiling_enabled (set_stop_event true (started_pool 4)) = false
  /\ join identity_process 1 (set_stop_event true (started_pool 4))
     = (Returns tt,
        set_workers
          (map ended (_workers (set_stop_event true (started_pool 4))))
          (set_stop_event true (started_pool 4))).
Proof.
  split; [reflexivity |]. split; [reflexivity |].
  apply (join_after_stop_event identity_process 0
           (set_stop_event true (started_pool 4))); reflexivity.
Defined.

Lemma join_waits_while_stop_event_clear_witness :
  _stop_event (started_pool 4) = false
  /\ _workers (started_pool 4)
     = [] ++ Build_WorkerThread 0 Alive
          :: [Build_WorkerThread 1 Alive; Build_WorkerThread 2 Alive;
              Build_WorkerThread 3 Alive]
  /\ Forall (fun u => thread_state u = Terminated) []
  /\ thread_state (Build_WorkerThread 0 Alive) = Alive
  /\ _ventilator_queues (started_pool 4) = Some (replicate 4 (Queue.new 0))
  /\ replicate 4 (@Queue.new WorkItem 0) !! worker_id (Build_WorkerThread 0 Alive)
     = Some (Queue.new 0)
  /\ Queue.empty (@Queue.new WorkItem 0) = true
  /\ worker_id (Build_WorkerThread 0 Alive)
     < length (_worker_status (started_pool 4))
  /\ fst (join identity_process 5 (started_pool 4)) = Pending.
Proof.
  split; [reflexivity |]. split; [reflexivity |]. split; [constructor |].
  split; [reflexivity |]. split; [reflexivity |]. split; [reflexivity |].
  split; [reflexivity |]. split; [simpl; lia |].
  apply (join_waits_while_stop_event_clear identity_process 5
           (started_pool 4) [] 
           [Build_WorkerThread 1 Alive; Build_WorkerThread 2 Alive;
            Build_WorkerThread 3 Alive]
           (Build_WorkerThread 0 Alive) (replicate 4 (Queue.new 0))
           (Queue.new 0));
    [reflexivity | reflexivity | constructor | reflexivity | reflexivity
    | reflexivity | reflexivity | simpl; lia].
Defined.

Lemma join_without_workers_witness :
  _workers (new_pool 4) = []
  /\ join identity_process 5 (new_pool 4)
     = (if _profiling_enabled (new_pool 4)
        then Raises AttributeError else Returns tt, new_pool 4).
Proof.
  split; [reflexivity |].
  apply (join_without_workers identity_process 5 (new_pool 4)). reflexivity.
Defined.

(** ** [_round_robin_consumer] *)

(** A result in the queue of worker [r] keeps the pool from being drained. *)
Lemma has_result_not_drained (p : ThreadPool.t) (r : nat) :
  r < workers_count p -> has_result p r = true ->
  every_worker_drained p = false.
Proof.
  intros Hr Hres. destruct (every_worker_drained p) eqn:E; [| reflexivity].
  unfold every_worker_drained in E. rewrite forallb_forall in E.
  assert (Hd : worker_drained p r = true) by (apply E, in_seq; lia).
  unfold worker_drained in Hd. unfold has_result in Hres.
  destruct (_results_queues p) as [rqs |]; [| discriminate].
  destruct (_ventilator_queues p) as [vqs |]; [| discriminate].
  destruct (rqs !! r) as [rq |]; [| discriminate].
  destruct (_worker_status p !! r), (vqs !! r); try discriminate.
  destruct (Queue.empty rq); discriminate.
Qed.

(** A pass of the consumer thread at a worker whose queue holds a result,
    when the shared queue has room. *)
Lemma forwarding_pass (nb : bool) (r : nat) (p : ThreadPool.t)
    (rqs : list (Queue.t Payload)) (m : nat) (x : Payload)
    (rest : list Payload) (sq : Queue.t Payload) :
  started p = true ->
  _results_queues p = Some rqs ->
  rqs !! r = Some (Queue.Build m (x :: rest)) ->
  _shared_results_queue p = Some sq ->
  Queue.full sq = false ->
  round_robin_iteration nb r p
  = (Returns (Continue, (r + 1) mod workers_count p),
     set_shared_results_queue
       (Some (Queue.Build (Queue.maxsize sq) (Queue.queue sq ++ [x])))
       (set_results_queues (Some (<[r := Queue.Build m rest]> rqs)) p)).
Proof.
  intros Hst Hrqs Hrq Hsq Hfull.
  destruct (started_inv p Hst)
    as (vqs & rqs' & sq' & Hvqs & Hrqs' & _ & Hlv & Hlr & Hls).
  rewrite Hrqs in Hrqs'. injection Hrqs' as <-.
  assert (Hr : r < workers_count p).
  { rewrite <- Hlr. eapply lookup_lt_Some, Hrq. }
  destruct (lookup_lt_is_Some_2 vqs r) as [vq Hvq]; [lia |].
  destruct (lookup_lt_is_Some_2 (_worker_status p) r) as [busy Hbusy]; [lia |].
  assert (Hnd : every_worker_drained p = false).
  { apply (has_result_not_drained p r Hr).
    unfold has_result. rewrite Hrqs, Hrq. reflexivity. }
  assert (Hn : (workers_count p =? 0) = false) by (apply Nat.eqb_neq; lia).
  unfold round_robin_iteration, try_except, round_robin_try.
  unfold bind at 1. rewrite (all_workers_done_started p Hst), Hnd.
  unfold results_queue, results_queues, _is_worker_idle, ventilator_queue,
    ventilator_queues, shared_results_queue, store_results_queue,
    store_shared_results_queue, next_worker.
  unfold bind, gets, attr, index, ret, raise, modify.
  rewrite Hrqs, Hrq, Hbusy, Hvqs, Hvq. simpl.
  rewrite Hsq. unfold Queue.put_nowait. rewrite Hfull. simpl.
  rewrite Hn, Hrqs. reflexivity.
Qed.

Lemma results_ready_pool_reached :
  pool (run_schedule no_permutation identity_process 10
          (Build_System (new_pool 4) 0) results_ready_schedule)
  = results_ready_pool.
Proof. vm_compute. reflexivity. Qed.

(** X17.  A pass of the consumer thread at worker [r] of a started pool,
    when the results queue of [r] holds a result and the shared queue is
    not full: the oldest result of [r] moves to the end of the shared
    queue, the pointer advances to [(r + 1) mod N], and the other queues
    and the worker status stay as they are. *)
Theorem consumer_pass_forwards (nb : bool) (r : nat) (p : ThreadPool.t)
    (x : Payload) (rest : list Payload) :
  started p = true ->
  output_of p r = x :: rest ->
  shared_queue_full p = false ->
  exists p',
    round_robin_iteration nb r p
    = (Returns (Continue, (r + 1) mod workers_count p), p')
    /\ shared_contents p' = shared_contents p ++ [x]
    /\ output_of p' r = rest
    /\ (forall i, i <> r -> output_of p' i = output_of p i)
    /\ (forall i, input_of p' i = input_of p i)
    /\ _worker_status p' = _worker_status p.
Proof.
  intros Hst Hout Hfull.
  destruct (started_inv p Hst)
    as (vqs & rqs & sq & Hvqs & Hrqs & Hsq & _ & _ & _).
  unfold output_of in Hout. rewrite Hrqs in Hout.
  destruct (rqs !! r) as [[m l] |] eqn:Hrq; [| discriminate Hout].
  simpl in Hout. subst l.
  unfold shared_queue_full in Hfull. rewrite Hsq in Hfull.
  rewrite (forwarding_pass nb r p rqs m x rest sq Hst Hrqs Hrq Hsq Hfull).
  eexists. split; [reflexivity |].
  assert (Hr : r < length rqs) by (eapply lookup_lt_Some, Hrq).
  split; [| split; [| split; [| split]]].
  - unfold shared_contents. simpl. rewrite Hsq. reflexivity.
  - unfold output_of. simpl. rewrite list_lookup_insert_eq by exact Hr.
    reflexivity.
  - intros i Hi. unfold output_of. simpl. rewrite Hrqs.
    rewrite list_lookup_insert_ne by (intros E; apply Hi; symmetry; exact E).
    reflexivity.
  - intros i. reflexivity.
  - reflexivity.
Qed.

Lemma consumer_pass_forwards_witness :
  started results_ready_pool = true
  /\ output_of results_ready_pool 1 = Data 1 :: [VentilatedItemProcessedMessage]
  /\ shared_queue_full results_ready_pool = false
  /\ exists p',
       round_robin_iteration false 1 results_ready_pool
       = (Returns (Continue, (1 + 1) mod workers_count results_ready_pool), p')
       /\ shared_contents p' = shared_contents results_ready_pool ++ [Data 1]
       /\ output_of p' 1 = [VentilatedItemProcessedMessage]
       /\ (forall i, i <> 1 -> output_of p' i = output_of results_ready_pool i)
       /\ (forall i, input_of p' i = input_of results_ready_pool i)
       /\ _worker_status p' = _worker_status results_ready_pool.
Proof.
  split; [reflexivity |]. split; [reflexivity |]. split; [reflexivity |].
  apply (consumer_pass_forwards false 1 results_ready_pool (Data 1)
           [VentilatedItemProcessedMessage]); reflexivity.
Defined.

(** X18.  A pass of the consumer thread at worker [r] of a started pool
    that is not drained, when the results queue of [r] is empty: the pass
    changes nothing and the pointer advances to [(r + 1) mod N], in the
    blocking mode (after the timeout) as in the non-blocking one, whether
    worker [r] is skipped or waited for. *)
Theorem consumer_pass_without_result (nb : bool) (r : nat) (p : ThreadPool.t) :
  started p = true ->
  r < workers_count p ->
  has_result p r = false ->
  every_worker_drained p = false ->
  round_robin_iteration nb r p
  = (Returns (Continue, (r + 1) mod workers_count p), p).
Proof.
  intros Hst Hr Hres Hnd.
  destruct (started_inv p Hst)
    as (vqs & rqs & sq & Hvqs & Hrqs & _ & Hlv & Hlr & Hls).
  destruct (lookup_lt_is_Some_2 vqs r) as [vq Hvq]; [lia |].
  destruct (lookup_lt_is_Some_2 rqs r) as [rq Hrq]; [lia |].
  destruct (lookup_lt_is_Some_2 (_worker_status p) r) as [busy Hbusy]; [lia |].
  unfold has_result in Hres. rewrite Hrqs, Hrq in Hres.
  apply negb_false_iff in Hres.
  assert (Hn : (workers_count p =? 0) = false) by (apply Nat.eqb_neq; lia).
  assert (Hget : Queue.get_nowait rq = None).
  { unfold Queue.get_nowait. unfold Queue.empty in Hres.
    destruct (Queue.queue rq); [reflexivity | discriminate]. }
  unfold round_robin_iteration, try_except, round_robin_try,
    round_robin_except.
  unfold bind at 1. rewrite (all_workers_done_started p Hst), Hnd.
  unfold results_queue, results_queues, _is_worker_idle, ventilator_queue,
    ventilator_queues, next_worker.
  unfold bind, gets, attr, index, ret, raise.
  rewrite Hrqs, Hrq, Hbusy, Hvqs, Hvq, Hres, Hget. simpl.
  destruct (negb busy && Queue.empty vq), nb; simpl; rewrite ?Hn; reflexivity.
Qed.

Lemma consumer_pass_without_result_witness :
  started ventilated_pool = true
  /\ 2 < workers_count ventilated_pool
  /\ has_result ventilated_pool 2 = false
  /\ every_worker_drained ventilated_pool = false
  /\ round_robin_iteration false 2 ventilated_pool
     = (Returns (Continue, (2 + 1) mod workers_count ventilated_pool),
        ventilated_pool).
Proof.
  split; [reflexivity |]. split; [simpl; lia |]. split; [reflexivity |].
  split; [reflexivity |].
  apply (consumer_pass_without_result false 2 ventilated_pool);
    [reflexivity | simpl; lia | reflexivity | reflexivity].
Defined.

(** The pointer of the consumer thread wraps around once at most in a
    round. *)
Lemma mod_wrap (n r j : nat) :
  r < n -> j <= n ->
  (r + j) mod n = if r + j <? n then r + j else r + j - n.
Proof.
  intros Hr Hj. destruct (Nat.ltb_spec (r + j) n) as [H | H].
  - apply Nat.mod_small, H.
  - symmetry. apply (Nat.mod_unique (r + j) n 1); lia.
Qed.

Lemma mod_offset_inj (n r j k : nat) :
  r < n -> j < n -> k < n -> (r + j) mod n = (r + k) mod n -> j = k.
Proof.
  intros Hr Hj Hk. rewrite !mod_wrap by lia.
  destruct (Nat.ltb_spec (r + j) n), (Nat.ltb_spec (r + k) n); lia.
Qed.

Lemma replicate_snoc {A} (k : nat) (a : A) :
  replicate (S k) a = replicate k a ++ [a].
Proof.
  induction k as [| k IH]; [reflexivity |].
  simpl in *. rewrite <- IH. reflexivity.
Qed.

Section ConsumerRound.
Variable permutation : option Z -> nat -> list WorkItem -> list WorkItem.
Variable process : nat -> WorkItem -> list Payload * option PyExc.
Variable fuel : nat.

Variable p : ThreadPool.t.
Variable r : nat.
Variable x : nat -> Payload.
Variable rest : nat -> list Payload.
Variable sq : Queue.t Payload.
Hypothesis Hstarted : started p = true.
Hypothesis Hthread : _round_robin_thread p = Some Alive.
Hypothesis Hstop : _stop_event p = false.
Hypothesis Hr : r < workers_count p.
Hypothesis Hout :
  forall i, i < workers_count p -> output_of p i = x i :: rest i.
Hypothesis Hshared : _shared_results_queue p = Some sq.
Hypothesis Hroom : room_for sq (workers_count p).

(** The pool after [k] passes of a round that starts at worker [r]. *)
Lemma consumer_passes (k : nat) :
  k <= workers_count p ->
  exists rqs,
    run_schedule permutation process fuel (Build_System p r)
      (replicate k ConsumerPass)
    = Build_System
        (set_shared_results_queue
           (Some (Queue.Build (Queue.maxsize sq)
                    (Queue.queue sq
                     ++ map (fun j => x ((r + j) mod workers_count p))
                          (seq 0 k))))
           (set_results_queues (Some rqs) p))
        ((r + k) mod workers_count p)
    /\ length rqs = workers_count p
    /\ forall j, j < workers_count p ->
         Queue.queue <$> rqs !! ((r + j) mod workers_count p)
         = Some (if j <? k then rest ((r + j) mod workers_count p)
                 else x ((r + j) mod workers_count p)
                      :: rest ((r + j) mod workers_count p)).
Proof.
  destruct (started_inv p Hstarted)
    as (vqs & rqs0 & sq0 & Hvqs & Hrqs & Hsq0 & Hlv & Hlr & Hls).
  set (n := workers_count p) in *.
  induction k as [| k IH]; intros Hk.
  - exists rqs0. split; [| split; [exact Hlr |]].
    + simpl. rewrite Nat.add_0_r, app_nil_r, Nat.mod_small by exact Hr.
      f_equal. destruct p; simpl in *. subst.
      destruct sq; reflexivity.
    + intros j Hj. simpl.
      assert (Hi : (r + j) mod n < n) by (apply Nat.mod_upper_bound; lia).
      pose proof (Hout _ Hi) as Ho. unfold output_of in Ho.
      rewrite Hrqs in Ho.
      destruct (rqs0 !! ((r + j) mod n)) as [q |]; [| discriminate Ho].
      simpl. rewrite Ho. reflexivity.
  - destruct IH as (rqs & Hrun & Hlen & Hq); [lia |].
    unfold run_schedule in *. rewrite replicate_snoc, fold_left_app, Hrun.
    set (c := (r + k) mod n).
    assert (Hc : c < n) by (apply Nat.mod_upper_bound; lia).
    pose proof (Hq k ltac:(lia)) as Hqc. fold c in Hqc.
    rewrite Nat.ltb_irrefl in Hqc.
    destruct (rqs !! c) as [[m l] |] eqn:Ec; [| discriminate Hqc].
    simpl in Hqc. injection Hqc as ->.
    set (pk := set_shared_results_queue _ (set_results_queues (Some rqs) p)).
    assert (Hstk : started pk = true).
    { unfold started, pk. simpl. rewrite Hvqs. fold n.
      rewrite Hlv, Hlen, Hls, Nat.eqb_refl. reflexivity. }
    assert (Hfull : Queue.full
                      (Queue.Build (Queue.maxsize sq)
                         (Queue.queue sq
                          ++ map (fun j => x ((r + j) mod n)) (seq 0 k)))
                    = false).
    { apply (room_not_full _ 0). unfold room_for in *. simpl.
      rewrite length_app, length_map, length_seq.
      destruct Hroom; [left; assumption | right; lia]. }
    simpl fold_left. unfold step. simpl pool. simpl current_worker.
    change (_round_robin_thread pk) with (_round_robin_thread p).
    change (_stop_event pk) with (_stop_event p).
    rewrite Hthread, Hstop.
    rewrite (forwarding_pass (use_non_blocking pk) c pk rqs m (x c) (rest c)
               _ Hstk eq_refl Ec eq_refl Hfull).
    exists (<[c := Queue.Build m (rest c)]> rqs).
    split; [| split].
    + change (workers_count pk) with n. f_equal.
      * unfold pk. rewrite seq_S, map_app. simpl.
        rewrite <- app_assoc. reflexivity.
      * unfold c. rewrite Nat.Div0.add_mod_idemp_l.
        f_equal. lia.
    + rewrite length_insert. exact Hlen.
    + intros j Hj. destruct (Nat.eq_dec j k) as [-> | Hjk].
      * fold c. rewrite list_lookup_insert_eq by lia. simpl.
        replace (k <? S k) with true by (symmetry; apply Nat.ltb_lt; lia).
        reflexivity.
      * rewrite list_lookup_insert_ne.
        2:{ unfold c. intros E. apply Hjk. symmetry.
            eapply (mod_offset_inj n r); try eassumption; lia. }
        rewrite (Hq j Hj).
        destruct (Nat.ltb_spec j k), (Nat.ltb_spec j (S k));
          try reflexivity; lia.
Qed.
End ConsumerRound.

(** X19.  One round of the consumer thread, [N] passes from worker [r], on
    a started pool where every worker holds a result and the shared queue
    has room for [N] more: the oldest result of each worker is forwarded,
    in the cyclic order [r], [r + 1], ..., [N - 1], [0], ..., [r - 1]; each
    results queue keeps the rest of its elements, and the pointer is back
    at [r]. *)
Theorem consumer_round_in_cyclic_order
    (permutation : option Z -> nat -> list WorkItem -> list WorkItem)
    (process : nat -> WorkItem -> list Payload * option PyExc) (fuel : nat)
    (p : ThreadPool.t) (r : nat) (x : nat -> Payload)
    (rest : nat -> list Payload) (sq : Queue.t Payload) :
  started p = true ->
  _round_robin_thread p = Some Alive ->
  _stop_event p = false ->
  r < workers_count p ->
  (forall i, i < workers_count p -> output_of p i = x i :: rest i) ->
  _shared_results_queue p = Some sq ->
  room_for sq (workers_count p) ->
  let s' :=
    run_schedule permutation process fuel (Build_System p r)
      (replicate (workers_count p) ConsumerPass) in
  shared_contents (pool s')
  = shared_contents p
    ++ map (fun j => x ((r + j) mod workers_count p))
         (seq 0 (workers_count p))
  /\ (forall i, i < workers_count p -> output_of (pool s') i = rest i)
  /\ current_worker s' = r
  /\ _round_robin_thread (pool s') = Some Alive.
Proof.
  intros Hstarted Hthread Hstop Hr Hout Hshared Hroom.
  destruct (consumer_passes permutation process fuel p r x rest sq
              Hstarted Hthread Hstop Hr Hout Hshared Hroom
              (workers_count p) (Nat.le_refl _))
    as (rqs & Hrun & Hlen & Hq).
  cbv zeta. rewrite Hrun. simpl pool. simpl current_worker.
  set (n := workers_count p) in *.
  split; [| split; [| split]].
  - unfold shared_contents. simpl. rewrite Hshared. reflexivity.
  - intros i Hi.
    set (j := if r <=? i then i - r else i + n - r).
    assert (Hj : j < n /\ (r + j) mod n = i).
    { unfold j. destruct (Nat.leb_spec r i).
      - split; [lia |]. rewrite mod_wrap by lia.
        destruct (Nat.ltb_spec (r + (i - r)) n); lia.
      - split; [lia |]. rewrite mod_wrap by lia.
        destruct (Nat.ltb_spec (r + (i + n - r)) n); lia. }
    destruct Hj as [Hj Hij]. pose proof (Hq j Hj) as H. rewrite Hij in H.
    replace (j <? n) with true in H by (symmetry; apply Nat.ltb_lt; exact Hj).
    unfold output_of. simpl.
    destruct (rqs !! i) as [q |]; [| discriminate H].
    simpl in H. injection H as ->. reflexivity.
  - rewrite mod_wrap by lia.
    destruct (Nat.ltb_spec (r + n) n); lia.
  - simpl. exact Hthread.
Qed.

Lemma consumer_round_in_cyclic_order_witness :
  started results_ready_pool = true
  /\ _round_robin_thread results_ready_pool = Some Alive
  /\ _stop_event results_ready_pool = false
  /\ 1 < workers_count results_ready_pool
  /\ (forall i, i < workers_count results_ready_pool ->
        output_of results_ready_pool i
        = Data (Z.of_nat i) :: [VentilatedItemProcessedMessage])
  /\ _shared_results_queue results_ready_pool = Some (Queue.new 25)
  /\ room_for (@Queue.new Payload 25) (workers_count results_ready_pool)
  /\ let s' :=
       run_schedule no_permutation identity_process 5
         (Build_System results_ready_pool 1)
         (replicate (workers_count results_ready_pool) ConsumerPass) in
     shared_contents (pool s')
     = shared_contents results_ready_pool
       ++ map (fun j =>
                 Data (Z.of_nat ((1 + j) mod workers_count results_ready_pool)))
            (seq 0 (workers_count results_ready_pool))
     /\ (forall i, i < workers_count results_ready_pool ->
           output_of (pool s') i = [VentilatedItemProcessedMessage])
     /\ current_worker s' = 1
     /\ _round_robin_thread (pool s') = Some Alive.
Proof.
  assert (Hout : forall i, i < workers_count results_ready_pool ->
            output_of results_ready_pool i
            = Data (Z.of_nat i) :: [VentilatedItemProcessedMessage]).
  { intros i Hi. change (workers_count results_ready_pool) with 4 in Hi.
    destruct i as [| [| [| [| i]]]]; [reflexivity .. | lia]. }
  split; [reflexivity |]. split; [reflexivity |]. split; [reflexivity |].
  split; [simpl; lia |]. split; [exact Hout |]. split; [reflexivity |].
  split; [right; simpl; lia |].
  apply (consumer_round_in_cyclic_order no_permutation identity_process 5
           results_ready_pool 1 (fun i => Data (Z.of_nat i))
           (fun _ => [VentilatedItemProcessedMessage]) (Queue.new 25));
    [reflexivity | reflexivity | reflexivity | simpl; lia | exact Hout
    | reflexivity | right; simpl; lia].
Defined.

(** ** The ventilator: [_ventilate], [stop] and [reset] *)

Lemma reorders_reversal : reorders reversal.
Proof. intros g n l. symmetry. apply Permutation_rev. Qed.

Section VentilatorRuns.
Context {S : Type}.
Variable ventilate_fn : list WorkItem -> M S unit.
Variable permutation : option Z -> nat -> list WorkItem -> list WorkItem.
(** What is known of [rng.permutation]. *)
Variable related : list WorkItem -> list WorkItem -> Prop.
Hypothesis related_refl : forall l, related l l.
Hypothesis related_trans :
  forall l1 l2 l3, related l1 l2 -> related l2 l3 -> related l1 l3.
Hypothesis related_permutation : forall g n l, related (permutation g n l) l.

(** What one pass of the loop of [_ventilate] writes before it calls
    [_ventilate_fn]: the item list, reordered, and the state of the
    generator. *)
Lemma ventilate_once_writes (v : ConcurrentVentilator.t) :
  exists items draws,
    (if ConcurrentVentilator._randomize_item_order v then
       ConcurrentVentilator.set_rng_draws
         (Datatypes.S (ConcurrentVentilator._rng_draws v))
         (ConcurrentVentilator.set_items
            (permutation
               match ConcurrentVentilator._random_seed v with
               | Some seed => if (seed =? 0)%Z then None else Some seed
               | None => None
               end
               (ConcurrentVentilator._rng_draws v)
               (ConcurrentVentilator._items_to_ventilate v)) v)
     else v)
    = ConcurrentVentilator.set_rng_draws draws
        (ConcurrentVentilator.set_items items v)
    /\ related items (ConcurrentVentilator._items_to_ventilate v).
Proof.
  destruct (ConcurrentVentilator._randomize_item_order v).
  - eexists _, _. split; [reflexivity | apply related_permutation].
  - exists (ConcurrentVentilator._items_to_ventilate v),
      (ConcurrentVentilator._rng_draws v).
    split; [destruct v; reflexivity | apply related_refl].
Qed.

(** Whatever the pool does with the items, the loop of [_ventilate] writes
    nothing but the item list and the state of the generator. *)
Lemma ventilate_iterations_writes (n : nat) :
  forall (v : ConcurrentVentilator.t) (s : S),
    exists items draws,
      fst (snd (ConcurrentVentilator.ventilate_iterations
                  ventilate_fn permutation n v s))
      = ConcurrentVentilator.set_rng_draws draws
          (ConcurrentVentilator.set_items items v)
      /\ related items (ConcurrentVentilator._items_to_ventilate v).
Proof.
  induction n as [| n IH]; intros v s.
  - exists (ConcurrentVentilator._items_to_ventilate v),
      (ConcurrentVentilator._rng_draws v).
    split; [destruct v; reflexivity | apply related_refl].
  - simpl. unfold ConcurrentVentilator.ventilate_once.
    destruct (ventilate_once_writes v) as (items1 & draws1 & Ev1 & Hp1).
    rewrite Ev1.
    change (ConcurrentVentilator._items_to_ventilate
              (ConcurrentVentilator.set_rng_draws draws1
                 (ConcurrentVentilator.set_items items1 v)))
      with items1.
    destruct (ventilate_fn items1 s) as [[u | e |] s1]; simpl;
      try (exists items1, draws1; split; [reflexivity | exact Hp1]).
    destruct (IH (ConcurrentVentilator.set_rng_draws draws1
                    (ConcurrentVentilator.set_items items1 v)) s1)
      as (items & draws & Hrun & Hp).
    exists items, draws. rewrite Hrun. split; [reflexivity |].
    exact (related_trans _ _ _ Hp Hp1).
Qed.
End VentilatorRuns.

Section VentilatorLog.
Variable permutation : option Z -> nat -> list WorkItem -> list WorkItem.
Variable related : list WorkItem -> list WorkItem -> Prop.
Hypothesis related_refl : forall l, related l l.
Hypothesis related_trans :
  forall l1 l2 l3, related l1 l2 -> related l2 l3 -> related l1 l3.
Hypothesis related_permutation : forall g n l, related (permutation g n l) l.

(** The calls of [_ventilate_fn] made by the loop of [_ventilate], one per
    pass. *)
Lemma ventilate_iterations_calls (n : nat) :
  forall (v : ConcurrentVentilator.t) (log : list (list WorkItem)),
    exists items draws new,
      ConcurrentVentilator.ventilate_iterations log_call permutation n v log
      = (Returns tt,
         (ConcurrentVentilator.set_rng_draws draws
            (ConcurrentVentilator.set_items items v),
          log ++ new))
      /\ related items (ConcurrentVentilator._items_to_ventilate v)
      /\ length new = n
      /\ Forall (fun l =>
                   related l (ConcurrentVentilator._items_to_ventilate v))
           new.
Proof.
  induction n as [| n IH]; intros v log.
  - exists (ConcurrentVentilator._items_to_ventilate v),
      (ConcurrentVentilator._rng_draws v), [].
    simpl. rewrite app_nil_r. repeat split; try constructor.
    + destruct v; reflexivity.
    + apply related_refl.
  - simpl. unfold ConcurrentVentilator.ventilate_once.
    destruct (ventilate_once_writes permutation related related_refl
                related_permutation v)
      as (items1 & draws1 & Ev1 & Hp1).
    rewrite Ev1.
    change (ConcurrentVentilator._items_to_ventilate
              (ConcurrentVentilator.set_rng_draws draws1
                 (ConcurrentVentilator.set_items items1 v)))
      with items1.
    change (log_call items1 log) with (@Returns unit tt, log ++ [items1]).
    cbv beta iota.
    destruct (IH (ConcurrentVentilator.set_rng_draws draws1
                    (ConcurrentVentilator.set_items items1 v))
                 (log ++ [items1]))
      as (items & draws & new & Hrun & Hp & Hlen & Hall).
    exists items, draws, (items1 :: new).
    rewrite Hrun. simpl. rewrite <- app_assoc. simpl.
    split; [reflexivity |].
    split; [exact (related_trans _ _ _ Hp Hp1) |].
    split; [rewrite Hlen; reflexivity |].
    constructor; [exact Hp1 |].
    eapply Forall_impl; [exact Hall |].
    intros l Hl. simpl in Hl. exact (related_trans _ _ _ Hl Hp1).
Qed.
End VentilatorLog.

(** The number of calls, whatever [rng.permutation] does. *)
Lemma ventilate_iterations_count
    (permutation : option Z -> nat -> list WorkItem -> list WorkItem)
    (n : nat) (v : ConcurrentVentilator.t) (log : list (list WorkItem)) :
  exists items draws new,
    ConcurrentVentilator.ventilate_iterations log_call permutation n v log
    = (Returns tt,
       (ConcurrentVentilator.set_rng_draws draws
          (ConcurrentVentilator.set_items items v),
        log ++ new))
    /\ length new = n.
Proof.
  destruct (ventilate_iterations_calls permutation (fun _ _ => True)
              (fun _ => I) (fun _ _ _ _ _ => I) (fun _ _ _ => I) n v log)
    as (items & draws & new & Hrun & _ & Hlen & _).
  exists items, draws, new. split; assumption.
Qed.

(** X20.  [_ventilate] of a ventilator with budget [k] calls
    [_ventilate_fn] exactly [k] times and returns; when [rng.permutation]
    reorders its argument, every call receives all the items of the list,
    in some order, and the ventilator is left with those items and with
    its budget as it was. *)
Theorem ventilate_submits_reordered_lists
    (permutation : option Z -> nat -> list WorkItem -> list WorkItem)
    (v : ConcurrentVentilator.t) (k : Z) :
  reorders permutation ->
  ConcurrentVentilator._iterations_remaining v = Some k ->
  exists v' log,
    ConcurrentVentilator._ventilate log_call permutation v []
    = (Returns tt, (v', log))
    /\ length log = Z.to_nat k
    /\ Forall (fun l =>
                 Permutation l (ConcurrentVentilator._items_to_ventilate v))
         log
    /\ Permutation (ConcurrentVentilator._items_to_ventilate v')
         (ConcurrentVentilator._items_to_ventilate v)
    /\ ConcurrentVentilator._iterations_remaining v' = Some k.
Proof.
  intros Hperm Hk. unfold ConcurrentVentilator._ventilate. rewrite Hk.
  destruct (ventilate_iterations_calls permutation (@Permutation WorkItem)
              (@Permutation_refl _) (@Permutation_trans _) Hperm
              (Z.to_nat k) v [])
    as (items & draws & new & Hrun & Hp & Hlen & Hall).
  eexists _, _. split; [exact Hrun |]. simpl.
  split; [exact Hlen |]. split; [exact Hall |]. split; [exact Hp |].
  exact Hk.
Qed.

Lemma ventilate_submits_reordered_lists_witness :
  reorders reversal
  /\ ConcurrentVentilator._iterations_remaining shuffling_ventilator
     = Some 2%Z
  /\ exists v' log,
       ConcurrentVentilator._ventilate log_call reversal
         shuffling_ventilator []
       = (Returns tt, (v', log))
       /\ length log = Z.to_nat 2
       /\ Forall (fun l =>
                    Permutation l
                      (ConcurrentVentilator._items_to_ventilate
                         shuffling_ventilator))
            log
       /\ Permutation (ConcurrentVentilator._items_to_ventilate v')
            (ConcurrentVentilator._items_to_ventilate shuffling_ventilator)
       /\ ConcurrentVentilator._iterations_remaining v' = Some 2%Z.
Proof.
  split; [exact reorders_reversal |]. split; [reflexivity |].
  apply (ventilate_submits_reordered_lists reversal shuffling_ventilator 2);
    [exact reorders_reversal | reflexivity].
Defined.


(** X22.  [stop()] on a ventilator whose thread has not run yet does not
    cut the ventilation short: the thread it joins still calls
    [_ventilate_fn] once per iteration of the budget; after that the stop
    request is recorded and the thread forgotten. *)
Theorem ventilator_stop_does_not_interrupt
    (permutation : option Z -> nat -> list WorkItem -> list WorkItem)
    (v : ConcurrentVentilator.t) (k : Z) :
  ConcurrentVentilator._ventilation_thread v = Some Alive ->
  ConcurrentVentilator._iterations_remaining v = Some k ->
  exists v' log,
    ConcurrentVentilator.stop log_call permutation v []
    = (Returns tt, (v', log))
    /\ length log = Z.to_nat k
    /\ ConcurrentVentilator._stop_requested v' = true
    /\ ConcurrentVentilator._ventilation_thread v' = None.
Proof.
  intros Hth Hk.
  unfold ConcurrentVentilator.stop,
    ConcurrentVentilator.run_ventilation_thread,
    ConcurrentVentilator._ventilate.
  simpl. rewrite Hth, Hk.
  destruct (ventilate_iterations_count permutation (Z.to_nat k)
              (ConcurrentVentilator.set_stop_requested true v) [])
    as (items & draws & new & Hrun & Hlen).
  rewrite Hrun. eexists _, _. split; [reflexivity |].
  simpl. split; [exact Hlen |]. split; reflexivity.
Qed.

Lemma ventilator_stop_does_not_interrupt_witness :
  ConcurrentVentilator._ventilation_thread
    (ConcurrentVentilator.start shuffling_ventilator) = Some Alive
  /\ ConcurrentVentilator._iterations_remaining
       (ConcurrentVentilator.start shuffling_ventilator) = Some 2%Z
  /\ exists v' log,
       ConcurrentVentilator.stop log_call reversal
         (ConcurrentVentilator.start shuffling_ventilator) []
       = (Returns tt, (v', log))
       /\ length log = Z.to_nat 2
       /\ ConcurrentVentilator._stop_requested v' = true
       /\ ConcurrentVentilator._ventilation_thread v' = None.
Proof.
  split; [reflexivity |]. split; [reflexivity |].
  apply (ventilator_stop_does_not_interrupt reversal
           (ConcurrentVentilator.start shuffling_ventilator) 2);
    reflexivity.
Defined.

Section Reset.
Context {S : Type}.
Variable ventilate_fn : list WorkItem -> M S unit.
Variable permutation : option Z -> nat -> list WorkItem -> list WorkItem.

(** X23.  A ventilator constructed with a non-empty list and [k]
    iterations is not completed when its ventilation thread has run,
    whatever the pool did with the items, and [reset()] raises
    [NotImplementedError] then: nothing but [stop()] makes it
    completed. *)
Theorem reset_refused_after_ventilation (items : list WorkItem) (k : Z)
    (randomize_item_order : bool) (random_seed : option Z)
    (v : ConcurrentVentilator.t) (s : S) :
  reorders permutation ->
  items <> [] ->
  ConcurrentVentilator.__init__ items (Some k) randomize_item_order random_seed
  = Returns v ->
  let v' :=
    fst (snd (ConcurrentVentilator.run_ventilation_thread
                ventilate_fn permutation (ConcurrentVentilator.start v) s)) in
  ConcurrentVentilator.completed v' = Returns false
  /\ ConcurrentVentilator.reset v' = Raises NotImplementedError.
Proof.
  intros Hperm Hitems Hinit v'.
  unfold ConcurrentVentilator.__init__ in Hinit.
  destruct (Z.ltb_spec k 1) as [| Hk]; [discriminate |].
  injection Hinit as <-.
  assert (Hv' : exists items' draws th,
            v' = ConcurrentVentilator.Build items' (Some k)
                   randomize_item_order random_seed draws (Some k) th false
            /\ Permutation items' items).
  { unfold v', ConcurrentVentilator.run_ventilation_thread,
      ConcurrentVentilator._ventilate.
    simpl.
    set (v0 := ConcurrentVentilator.start _).
    destruct (ventilate_iterations_writes ventilate_fn permutation
                (@Permutation WorkItem) (@Permutation_refl _)
                (@Permutation_trans _) Hperm (Z.to_nat k) v0 s)
      as (items' & draws & Hrun & Hp).
    destruct (ConcurrentVentilator.ventilate_iterations ventilate_fn
                permutation (Z.to_nat k) v0 s) as [[u | e |] [v1 s1]];
      simpl in Hrun; subst v1; simpl; eexists _, _, _;
      (split; [reflexivity | exact Hp]). }
  destruct Hv' as (items' & draws & th & -> & Hp).
  assert (Hc : ConcurrentVentilator.completed
                 (ConcurrentVentilator.Build items' (Some k)
                    randomize_item_order random_seed draws (Some k) th false)
               = Returns false).
  { unfold ConcurrentVentilator.completed. simpl.
    destruct (Z.leb_spec 0 k) as [_ | H]; [| lia].
    destruct (Z.eqb_spec k 0) as [H | _]; [lia |].
    destruct items' as [| x items']; [| reflexivity].
    apply Permutation_nil in Hp. contradiction. }
  split; [exact Hc |].
  unfold ConcurrentVentilator.reset. rewrite Hc. reflexivity.
Qed.

(** X24.  When [reset()] accepts a ventilator that was constructed with
    [iterations=None], it stores [None] as the budget: the new ventilation
    thread ends in [TypeError] at [range(None)], without a single call of
    [_ventilate_fn]. *)
Theorem reset_of_unbounded_ventilator (v v' : ConcurrentVentilator.t)
    (s : S) :
  ConcurrentVentilator._iterations v = None ->
  ConcurrentVentilator.reset v = Returns v' ->
  ConcurrentVentilator._ventilate ventilate_fn permutation v' s
  = (Raises TypeError, (v', s))
  /\ ConcurrentVentilator.run_ventilation_thread ventilate_fn permutation v' s
     = (Returns tt,
        (ConcurrentVentilator.set_ventilation_thread (Some Terminated) v', s)).
Proof.
  intros Hit Hreset. unfold ConcurrentVentilator.reset in Hreset.
  destruct (ConcurrentVentilator.completed v) as [[|] | e |];
    try discriminate Hreset.
  injection Hreset as <-. rewrite Hit.
  unfold ConcurrentVentilator.run_ventilation_thread,
    ConcurrentVentilator._ventilate.
  simpl. split; reflexivity.
Qed.
End Reset.

Lemma reset_refused_after_ventilation_witness :
  reorders reversal
  /\ items_upto 8 <> []
  /\ ConcurrentVentilator.__init__ (items_upto 8) (Some 2%Z) true (Some 7%Z)
     = Returns shuffling_ventilator
  /\ let v' :=
       fst (snd (ConcurrentVentilator.run_ventilation_thread
                   log_call reversal
                   (ConcurrentVentilator.start shuffling_ventilator) [])) in
     ConcurrentVentilator.completed v' = Returns false
     /\ ConcurrentVentilator.reset v' = Raises NotImplementedError.
Proof.
  split; [exact reorders_reversal |]. split; [discriminate |].
  split; [reflexivity |].
  apply (reset_refused_after_ventilation log_call reversal (items_upto 8) 2
           true (Some 7%Z) shuffling_ventilator []);
    [exact reorders_reversal | discriminate | reflexivity].
Defined.

Lemma reset_of_unbounded_ventilator_witness :
  ConcurrentVentilator._iterations empty_unbounded_ventilator = None
  /\ ConcurrentVentilator.reset empty_unbounded_ventilator
     = Returns (ConcurrentVentilator.start
                  (ConcurrentVentilator.set_iterations_remaining None
                     empty_unbounded_ventilator))
  /\ ConcurrentVentilator._ventilate log_call no_permutation
       (ConcurrentVentilator.start
          (ConcurrentVentilator.set_iterations_remaining None
             empty_unbounded_ventilator)) []
     = (Raises TypeError,
        (ConcurrentVentilator.start
           (ConcurrentVentilator.set_iterations_remaining None
              empty_unbounded_ventilator), []))
  /\ ConcurrentVentilator.run_ventilation_thread log_call no_permutation
       (ConcurrentVentilator.start
          (ConcurrentVentilator.set_iterations_remaining None
             empty_unbounded_ventilator)) []
     = (Returns tt,
        (ConcurrentVentilator.set_ventilation_thread (Some Terminated)
           (ConcurrentVentilator.start
              (ConcurrentVentilator.set_iterations_remaining None
                 empty_unbounded_ventilator)), [])).
Proof.
  split; [reflexivity |]. split; [reflexivity |].
  apply (reset_of_unbounded_ventilator log_call no_permutation
           empty_unbounded_ventilator
           (ConcurrentVentilator.start
              (ConcurrentVentilator.set_iterations_remaining None
                 empty_unbounded_ventilator)) []);
    reflexivity.
Defined.

(** X25.  After [stop()], [reset()] is accepted and starts a new
    ventilation thread with the full budget, which calls [_ventilate_fn]
    once per iteration again; but [_stop_requested] is never cleared, so
    [completed()] answers [True] before, during and after that second
    ventilation. *)
Theorem reset_after_stop
    (permutation : option Z -> nat -> list WorkItem -> list WorkItem)
    (v : ConcurrentVentilator.t) (k k0 : Z) :
  ConcurrentVentilator._stop_requested v = true ->
  ConcurrentVentilator._iterations_remaining v = Some k ->
  (0 <= k)%Z ->
  ConcurrentVentilator._iterations v = Some k0 ->
  (1 <= k0)%Z ->
  exists v1 v2 log,
    ConcurrentVentilator.reset v = Returns v1
    /\ ConcurrentVentilator._ventilation_thread v1 = Some Alive
    /\ ConcurrentVentilator.completed v1 = Returns true
    /\ ConcurrentVentilator.run_ventilation_thread log_call permutation v1 []
       = (Returns tt, (v2, log))
    /\ length log = Z.to_nat k0
    /\ ConcurrentVentilator.completed v2 = Returns true.
Proof.
  intros Hstop Hk Hk0 Hit Hit0.
  assert (Hc : ConcurrentVentilator.completed v = Returns true).
  { unfold ConcurrentVentilator.completed. rewrite Hk, Hstop.
    destruct (Z.leb_spec 0 k) as [_ | H]; [reflexivity | lia]. }
  unfold ConcurrentVentilator.reset. rewrite Hc, Hit.
  set (v1 := ConcurrentVentilator.start _).
  assert (Hc1 : forall items draws th,
            ConcurrentVentilator.completed
              (ConcurrentVentilator.set_ventilation_thread th
                 (ConcurrentVentilator.set_rng_draws draws
                    (ConcurrentVentilator.set_items items v1)))
            = Returns true).
  { intros items draws th. unfold ConcurrentVentilator.completed. simpl.
    rewrite Hstop.
    destruct (Z.leb_spec 0 k0) as [_ | H]; [reflexivity | lia]. }
  destruct (ventilate_iterations_count permutation (Z.to_nat k0) v1 [])
    as (items & draws & new & Hrun & Hlen).
  eexists v1, _, _. split; [reflexivity |]. split; [reflexivity |]. split.
  { unfold ConcurrentVentilator.completed, v1. simpl. rewrite Hstop.
    destruct (Z.leb_spec 0 k0) as [_ | H]; [reflexivity | lia]. }
  unfold ConcurrentVentilator.run_ventilation_thread,
    ConcurrentVentilator._ventilate.
  change (ConcurrentVentilator._ventilation_thread v1) with (Some Alive).
  change (ConcurrentVentilator._iterations_remaining v1) with (Some k0).
  cbv beta iota.
  rewrite Hrun. split; [reflexivity |]. split; [exact Hlen |].
  apply Hc1.
Qed.

Lemma reset_after_stop_witness :
  ConcurrentVentilator._stop_requested
    (ConcurrentVentilator.set_stop_requested true shuffling_ventilator) = true
  /\ ConcurrentVentilator._iterations_remaining
       (ConcurrentVentilator.set_stop_requested true shuffling_ventilator)
     = Some 2%Z
  /\ (0 <= 2)%Z
  /\ ConcurrentVentilator._iterations
       (ConcurrentVentilator.set_stop_requested true shuffling_ventilator)
     = Some 2%Z
  /\ (1 <= 2)%Z
  /\ exists v1 v2 log,
       ConcurrentVentilator.reset
         (ConcurrentVentilator.set_stop_requested true shuffling_ventilator)
       = Returns v1
       /\ ConcurrentVentilator._ventilation_thread v1 = Some Alive
       /\ ConcurrentVentilator.completed v1 = Returns true
       /\ ConcurrentVentilator.run_ventilation_thread log_call reversal v1 []
          = (Returns tt, (v2, log))
       /\ length log = Z.to_nat 2
       /\ ConcurrentVentilator.completed v2 = Returns true.
Proof.
  split; [reflexivity |]. split; [reflexivity |]. split; [lia |].
  split; [reflexivity |]. split; [lia |].
  apply (reset_after_stop reversal
           (ConcurrentVentilator.set_stop_requested true shuffling_ventilator)
           2 2); [reflexivity | reflexivity | lia | reflexivity | lia].
Defined.
